(** * life4cut storage orchestration: a shallow embedding

    The development follows the NestJS sources:
    - [cloud-storage.interface.ts]: the adapter contract and the error codes;
    - [aws-s3.adapter.ts], [google-cloud.adapter.ts], [azure-blob.adapter.ts]:
      the three provider classes with their signed-URL caches;
    - [cloud-storage.factory.ts]: the provider tags and the class of each tag;
    - [storage.service.ts]: the registry (round-robin cursor) and the
      upload / list / download / delete orchestration over Prisma;
    - [file.service.ts]: the path based lookup [getFileByUrl].

    Asynchronous code is modelled sequentially: an [await] is a call, a
    rejected promise is a thrown value.  Provider SDKs, the JavaScript
    built-ins and the Prisma schema are outside the sources and appear as
    parameters. *)

From Stdlib Require Import ZArith String List Lia Bool Arith DecimalString.
From stdpp Require Import gmap strings list.

Set Warnings "-register-all".
Open Scope string_scope.
Open Scope list_scope.
Open Scope Z_scope.

(** ** Thrown values *)

(** [StorageErrorCode] of cloud-storage.interface.ts. *)
Inductive StorageErrorCode :=
  | UPLOAD_FAILED
  | DELETE_FAILED
  | LIST_FAILED
  | URL_GENERATION_FAILED
  | FILE_NOT_FOUND
  | VALIDATION_FAILED
  | NOT_IMPLEMENTED
  | DATABASE_ERROR
  | DOWNLOAD_FAILED.

(** What JavaScript code of the repository throws: the bare
    [{message, code, details}] records cast to [StorageError], Nest's
    [HttpException], and the errors raised by the runtime ([TypeError]), a
    provider SDK (with its HTTP status and its structured payload, when it
    has them) or the Prisma client.  [JsValue] is any other value, which
    occurs as [details]. *)
Inductive Thrown :=
  | StorageError (message : string) (code : StorageErrorCode) (details : option Thrown)
  | HttpException (message : string) (status : Z)
  | TypeError (message : string)
  | SdkError (message : string) (httpStatusCode : option Z) (payload : option string)
  | PrismaError (message : string)
  | JsValue (text : string).

Definition codeOf (e : Thrown) : option StorageErrorCode :=
  match e with
  | StorageError _ c _ => Some c
  | _ => None
  end.

Definition detailsOf (e : Thrown) : option Thrown :=
  match e with
  | StorageError _ _ d => d
  | _ => None
  end.

(** ** Computations: state passing with exceptions *)

Inductive Outcome (A : Type) :=
  | Return (a : A)
  | Throw (e : Thrown).
Arguments Return {A} a.
Arguments Throw {A} e.

Definition thrown {A} (o : Outcome A) : option Thrown :=
  match o with
  | Throw e => Some e
  | Return _ => None
  end.

Definition returned {A} (o : Outcome A) : option A :=
  match o with
  | Return a => Some a
  | Throw _ => None
  end.

(** A thrown value leaves the state as it was at the [throw]: JavaScript
    does not undo side effects. *)
Definition M (S A : Type) : Type := S -> Outcome A * S.

Definition ret {S A} (a : A) : M S A := fun s => (Return a, s).
Definition throw {S A} (e : Thrown) : M S A := fun s => (Throw e, s).
Definition bind {S A B} (m : M S A) (k : A -> M S B) : M S B :=
  fun s => match m s with
           | (Return a, s') => k a s'
           | (Throw e, s') => (Throw e, s')
           end.
Definition try_catch {S A} (m : M S A) (handler : Thrown -> M S A) : M S A :=
  fun s => match m s with
           | (Return a, s') => (Return a, s')
           | (Throw e, s') => handler e s'
           end.
Definition get {S} : M S S := fun s => (Return s, s).
Definition modify {S} (f : S -> S) : M S unit := fun s => (Return tt, f s).

Notation "'do' x <- m ; k" := (bind m (fun x => k))
  (at level 10, x name, m at level 100, k at level 200,
   format "'[v' 'do'  x  <-  m ; '/' k ']'").
Notation "'do_' m ; k" := (bind m (fun _ => k))
  (at level 10, m at level 100, k at level 200,
   format "'[v' 'do_'  m ; '/' k ']'").

(** ** JavaScript numbers and built-ins *)

(** The numbers the modelled code computes with come from strings ([+year])
    and are compared with small integer constants and stored in [Int]
    columns: a number is NaN, an integer, a non-integer between [floor] and
    [floor + 1], or an infinity. *)
Inductive JsNumber :=
  | NaN
  | Int (z : Z)
  | Frac (floor : Z)
  | Infinity (negative : bool).

Definition isNaN (n : JsNumber) : bool :=
  match n with NaN => true | _ => false end.

(** [n < k] and [n > k] for an integer constant [k]; false on NaN. *)
Definition js_lt (n : JsNumber) (k : Z) : bool :=
  match n with
  | NaN => false
  | Int z => z <? k
  | Frac f => f <? k
  | Infinity neg => neg
  end.
Definition js_gt (n : JsNumber) (k : Z) : bool :=
  match n with
  | NaN => false
  | Int z => k <? z
  | Frac f => k <=? f
  | Infinity neg => negb neg
  end.

(** Truthiness, as used by [a || b]. *)
Definition truthy (n : JsNumber) : bool :=
  match n with NaN => false | Int 0 => false | _ => true end.
Definition js_or (a b : JsNumber) : JsNumber := if truthy a then a else b.

(** The value Prisma accepts for an [Int] column. *)
Definition asInt (n : JsNumber) : option Z :=
  match n with Int z => Some z | _ => None end.

(** Built-ins whose definition is the language's, not the repository's. *)
Class JsRuntime := {
  (** unary [+] on a string ([None] is [undefined], which gives NaN) *)
  toNumber : option string -> JsNumber;
  (** a number inside a template string *)
  numToString : JsNumber -> string;
  (** [new Date(t).getFullYear()] and [.getMonth()], [t] in epoch milliseconds *)
  getFullYear : Z -> Z;
  getMonth : Z -> Z;
  (** [s.trim()] and [s.toLowerCase()] *)
  trim : string -> string;
  toLowerCase : string -> string;
}.

(** [s.split(sep)] for a one-character separator. *)
Fixpoint split_aux (sep : Ascii.ascii) (s : string) (cur : string) : list string :=
  match s with
  | EmptyString => [cur]
  | String c s' =>
      if Ascii.eqb c sep then cur :: split_aux sep s' EmptyString
      else split_aux sep s' (cur +:+ String c EmptyString)
  end.
Definition split (sep : Ascii.ascii) (s : string) : list string := split_aux sep s EmptyString.

Definition underscore : Ascii.ascii := Ascii.ascii_of_nat 95.
Definition slash : Ascii.ascii := Ascii.ascii_of_nat 47.

(** [s.startsWith(p)] *)
Definition startsWith (p s : string) : bool := String.prefix p s.

(** ** Values exchanged with the adapters *)

(** [Express.Multer.File], the fields the code reads. *)
Record MulterFile := mkMulterFile {
  originalname : string;
  mimetype : string;
  size : Z;
  buffer : list Byte.byte;
}.

(** [StorageMetadata] of cloud-storage.interface.ts. *)
Record StorageMetadata := mkStorageMetadata {
  sm_fileSize : option Z;
  sm_mimeType : string;
  sm_fileHash : string;
  sm_width : option Z;
  sm_height : option Z;
  sm_duration : option Z;
  sm_encoding : option string;
}.

(** [StorageUploadResult]; the Azure adapter adds a [storageType] field,
    which [uploadFile] reads from every result. *)
Record StorageUploadResult := mkStorageUploadResult {
  storageFileId : string;
  storageUrl : option string;
  storageMetadata : StorageMetadata;
  storageType : option string;
}.

(** A [NodeJS.ReadableStream], by its content. *)
Definition ReadableStream := list Byte.byte.

(** ** The metadata store (Prisma) *)

(** Rows of the [File], [StorageInfo] and [Branch] models, with the columns
    the sources read or write.  Row ids are opaque to the code; they are
    drawn from a counter. *)
Record File := mkFile {
  file_id : nat;
  file_name : string;
  file_type : string;
  file_status : string;
  file_mimeType : string;
  file_fileSize : Z;
  file_fileHash : string;
  file_width : option Z;
  file_height : option Z;
  file_duration : option Z;
  file_encoding : option string;
  file_metadata : option string;
  file_year : Z;
  file_month : Z;
  file_branchId : string;
  file_accessCount : Z;
  file_createdAt : Z;
  file_updatedAt : Z;
  file_deletedAt : option Z;
}.

Record StorageInfo := mkStorageInfo {
  si_id : nat;
  si_fileId : nat;
  si_storageType : option string;
  si_storageFileId : string;
  si_storageUrl : option string;
  si_storageMetadata : option StorageMetadata;
  si_isActive : bool;
}.

Record Branch := mkBranch {
  branch_id : string;
  branch_name : string;
}.

Record Db := mkDb {
  files : list File;
  storageInfos : list StorageInfo;
  branches : list Branch;
  nextId : nat;
}.

(** The [data] argument of [file.create] in [createFileRecord]. *)
Record FileCreateInput := mkFileCreateInput {
  fci_name : string;
  fci_type : string;
  fci_status : string;
  fci_mimeType : string;
  fci_fileSize : Z;
  fci_fileHash : string;
  fci_width : option Z;
  fci_height : option Z;
  fci_duration : option Z;
  fci_encoding : option string;
  fci_year : JsNumber;
  fci_month : JsNumber;
  fci_branchId : string;
}.

(** The [data] argument of [storageInfo.create] in [uploadFile]. *)
Record StorageInfoCreateInput := mkStorageInfoCreateInput {
  sici_fileId : nat;
  sici_storageType : option string;
  sici_storageFileId : string;
  sici_storageUrl : option string;
  sici_storageMetadata : option StorageMetadata;
  sici_isActive : bool;
}.

(** schema.prisma is not among the sources: what it decides is a parameter.
    Visible from the sources and built into the operations below: [year]
    and [month] hold integers, a StorageInfo references an existing File,
    and a File has at most one StorageInfo ([include: { storageInfo }]
    yields one object). *)
Class PrismaSchema := {
  (** further column constraints of the two models *)
  acceptsFile : FileCreateInput -> bool;
  acceptsStorageInfo : StorageInfoCreateInput -> bool;
  (** default of [File.accessCount] *)
  accessCount_default : Z;
  (** whether deleting a File deletes its StorageInfo ([onDelete: Cascade]);
      otherwise the foreign key rejects the deletion *)
  onDeleteCascade : bool;
}.

Definition set_files (fs : list File) (d : Db) : Db :=
  mkDb fs (storageInfos d) (branches d) (nextId d).
Definition set_storageInfos (sis : list StorageInfo) (d : Db) : Db :=
  mkDb (files d) sis (branches d) (nextId d).

Definition set_accessCount (n : Z) (f : File) : File :=
  mkFile (file_id f) (file_name f) (file_type f) (file_status f) (file_mimeType f)
    (file_fileSize f) (file_fileHash f) (file_width f) (file_height f)
    (file_duration f) (file_encoding f) (file_metadata f) (file_year f)
    (file_month f) (file_branchId f) n (file_createdAt f)
    (file_updatedAt f) (file_deletedAt f).
Definition set_deletedAt (t : option Z) (f : File) : File :=
  mkFile (file_id f) (file_name f) (file_type f) (file_status f) (file_mimeType f)
    (file_fileSize f) (file_fileHash f) (file_width f) (file_height f)
    (file_duration f) (file_encoding f) (file_metadata f) (file_year f)
    (file_month f) (file_branchId f) (file_accessCount f) (file_createdAt f)
    (file_updatedAt f) t.
Definition set_isActive (b : bool) (si : StorageInfo) : StorageInfo :=
  mkStorageInfo (si_id si) (si_fileId si) (si_storageType si) (si_storageFileId si)
    (si_storageUrl si) (si_storageMetadata si) b.
Definition set_storageUrl (u : option string) (si : StorageInfo) : StorageInfo :=
  mkStorageInfo (si_id si) (si_fileId si) (si_storageType si) (si_storageFileId si)
    u (si_storageMetadata si) (si_isActive si).

Module Prisma.
Section Prisma.
Context {PS : PrismaSchema}.

Definition storageInfoOf (fid : nat) (d : Db) : option StorageInfo :=
  find (fun si => Nat.eqb (si_fileId si) fid) (storageInfos d).

Definition findFileById (fid : nat) (d : Db) : option File :=
  find (fun f => Nat.eqb (file_id f) fid) (files d).

(** [file.create({ data })] at time [now]. *)
Definition file_create (now : Z) (data : FileCreateInput) : M Db File :=
  fun d =>
    match asInt (fci_year data), asInt (fci_month data) with
    | Some y, Some m =>
        if acceptsFile data then
          let f := mkFile (nextId d) (fci_name data) (fci_type data) (fci_status data)
                     (fci_mimeType data) (fci_fileSize data) (fci_fileHash data)
                     (fci_width data) (fci_height data) (fci_duration data)
                     (fci_encoding data) None y m (fci_branchId data)
                     accessCount_default now now None in
          (Return f, mkDb (files d ++ [f]) (storageInfos d) (branches d) (S (nextId d)))
        else (Throw (PrismaError "Invalid `prisma.file.create()` invocation"), d)
    | _, _ => (Throw (PrismaError "Invalid `prisma.file.create()` invocation"), d)
    end.

(** [storageInfo.create({ data })]. *)
Definition storageInfo_create (data : StorageInfoCreateInput) : M Db StorageInfo :=
  fun d =>
    if acceptsStorageInfo data then
      match findFileById (sici_fileId data) d, storageInfoOf (sici_fileId data) d with
      | Some _, None =>
          let si := mkStorageInfo (nextId d) (sici_fileId data) (sici_storageType data)
                      (sici_storageFileId data) (sici_storageUrl data)
                      (sici_storageMetadata data) (sici_isActive data) in
          (Return si, mkDb (files d) (storageInfos d ++ [si]) (branches d) (S (nextId d)))
      | None, _ =>
          (Throw (PrismaError "Foreign key constraint failed on the field: `fileId`"), d)
      | Some _, Some _ =>
          (Throw (PrismaError "Unique constraint failed on the fields: (`fileId`)"), d)
      end
    else (Throw (PrismaError "Invalid `prisma.storageInfo.create()` invocation"), d).

(** [file.findFirst] / [file.findUnique] with [where: { id }] and
    [include: { storageInfo: true }]: no other condition. *)
Definition file_findById (fid : nat) (d : Db) : option (File * option StorageInfo) :=
  match findFileById fid d with
  | Some f => Some (f, storageInfoOf fid d)
  | None => None
  end.

Definition updateFileRow (fid : nat) (g : File -> File) (fs : list File) : list File :=
  map (fun f => if Nat.eqb (file_id f) fid then g f else f) fs.
Definition updateStorageInfoRow (fid : nat) (g : StorageInfo -> StorageInfo)
    (sis : list StorageInfo) : list StorageInfo :=
  map (fun si => if Nat.eqb (si_fileId si) fid then g si else si) sis.

(** [file.update({ where: { id }, data })]; [g] is the effect of [data]
    on the row. *)
Definition file_update (fid : nat) (g : File -> File) : M Db File :=
  fun d =>
    match findFileById fid d with
    | Some f => (Return (g f), set_files (updateFileRow fid g (files d)) d)
    | None => (Throw (PrismaError "Record to update not found."), d)
    end.

(** [file.update] whose [data] has the nested write
    [storageInfo: { update: ... }]: the related row must exist. *)
Definition file_update_nested (fid : nat) (g : File -> File)
    (h : StorageInfo -> StorageInfo) : M Db File :=
  fun d =>
    match findFileById fid d, storageInfoOf fid d with
    | Some f, Some _ =>
        (Return (g f),
         mkDb (updateFileRow fid g (files d))
              (updateStorageInfoRow fid h (storageInfos d)) (branches d) (nextId d))
    | _, _ => (Throw (PrismaError "Record to update not found."), d)
    end.

(** [file.delete({ where: { id } })]. *)
Definition file_delete (fid : nat) : M Db File :=
  fun d =>
    match findFileById fid d with
    | Some f =>
        let fs := List.filter (fun f => negb (Nat.eqb (file_id f) fid)) (files d) in
        match storageInfoOf fid d with
        | None => (Return f, set_files fs d)
        | Some _ =>
            if onDeleteCascade then
              (Return f,
               mkDb fs (List.filter (fun si => negb (Nat.eqb (si_fileId si) fid)) (storageInfos d))
                    (branches d) (nextId d))
            else (Throw (PrismaError "Foreign key constraint failed on the field: `fileId`"), d)
        end
    | None => (Throw (PrismaError "Record to delete does not exist."), d)
    end.

(** [storageInfo.update({ where: { id }, data, include: { file: true } })]. *)
Definition storageInfo_update (sid : nat) (h : StorageInfo -> StorageInfo)
    : M Db (StorageInfo * File) :=
  fun d =>
    match find (fun si => Nat.eqb (si_id si) sid) (storageInfos d) with
    | Some si =>
        match findFileById (si_fileId si) d with
        | Some f =>
            (Return (h si, f),
             set_storageInfos
               (map (fun x => if Nat.eqb (si_id x) sid then h x else x) (storageInfos d)) d)
        | None => (Throw (PrismaError "Inconsistent query result: field file is required"), d)
        end
    | None => (Throw (PrismaError "Record to update not found."), d)
    end.

(** [orderBy: { createdAt: 'desc' }].  The store promises no order among
    rows of equal [createdAt]; this one puts the later row of the table
    first, in every query alike. *)
Fixpoint insertDesc (x : File * option StorageInfo) (l : list (File * option StorageInfo)) :=
  match l with
  | [] => [x]
  | y :: l' =>
      if file_createdAt (fst y) <? file_createdAt (fst x) then x :: l
      else y :: insertDesc x l'
  end.
Definition orderByCreatedAtDesc (l : list (File * option StorageInfo)) :=
  fold_right insertDesc [] l.

(** The rows with their included StorageInfo that satisfy [where]. *)
Definition selectFiles (where_ : File -> option StorageInfo -> bool) (d : Db)
    : list (File * option StorageInfo) :=
  List.filter (fun r => where_ (fst r) (snd r))
         (map (fun f => (f, storageInfoOf (file_id f) d)) (files d)).

(** [take]: the first [t] rows, the last [-t] rows for a negative [t],
    all rows when absent. *)
Definition takeRows {A} (t : option Z) (l : list A) : list A :=
  match t with
  | None => l
  | Some t => if t <? 0 then rev (firstn (Z.to_nat (- t)) (rev l))
              else firstn (Z.to_nat t) l
  end.

(** [file.findMany({ where, include, take, skip, orderBy })].  The client
    rejects a [skip] that is not a non-negative integer. *)
Definition file_findMany (where_ : File -> option StorageInfo -> bool)
    (take : option Z) (skip : JsNumber) (d : Db)
    : Outcome (list (File * option StorageInfo)) :=
  match skip with
  | Int k =>
      if k <? 0 then Throw (PrismaError "Invalid `prisma.file.findMany()` invocation")
      else Return (takeRows take (skipn (Z.to_nat k) (orderByCreatedAtDesc (selectFiles where_ d))))
  | _ => Throw (PrismaError "Invalid `prisma.file.findMany()` invocation")
  end.

(** [file.count({ where })]. *)
Definition file_count (where_ : File -> option StorageInfo -> bool) (d : Db) : Z :=
  Z.of_nat (length (selectFiles where_ d)).

(** [file.findFirst({ where, include })] for a general [where]. *)
Definition file_findFirst (where_ : File -> option StorageInfo -> bool) (d : Db)
    : option (File * option StorageInfo) :=
  head (selectFiles where_ d).

(** [branch.findFirst({ where: { name } })]. *)
Definition branch_findFirst (name : string) (d : Db) : option Branch :=
  find (fun b => String.eqb (branch_name b) name) (branches d).

End Prisma.
End Prisma.

(** ** Request and response objects *)

(** [StorageType] of cloud-storage.factory.ts and the string each member
    stands for. *)
Inductive StorageType := GOOGLE | AWS | AZURE.

Definition StorageType_value (t : StorageType) : string :=
  match t with
  | GOOGLE => "google"
  | AWS => "aws"
  | AZURE => "azure"
  end.

Record UploadFileRequestDto := mkUploadFileRequestDto {
  upl_destination : string;
  upl_branchId : string;
}.

Record UploadFileResponseDto := mkUploadFileResponseDto {
  resp_storageFileId : nat;
  resp_storageUrl : option string;
  resp_storageMetadata : StorageMetadata;
}.

Record DeleteFileRequestDto := mkDeleteFileRequestDto {
  del_storageFileId : nat;
  del_permanent : option bool;
}.

Record DeleteFileResponseDto := mkDeleteFileResponseDto {
  delresp_storageFileId : nat;
  delresp_success : bool;
  delresp_deletedAt : option Z;
}.

Record ListFilesRequestDto := mkListFilesRequestDto {
  list_prefix : option string;
  list_page : option Z;
  list_limit : option Z;
  list_branchId : option string;
}.

Record FileInfoDto := mkFileInfoDto {
  dto_storageFileId : nat;
  dto_fileName : string;
  dto_fileType : string;
  dto_fileStatus : string;
  dto_mimeType : string;
  dto_fileSize : Z;
  dto_fileHash : string;
  dto_width : option Z;
  dto_height : option Z;
  dto_duration : option Z;
  dto_encoding : option string;
  dto_metadata : option string;
  dto_path : string;
  dto_createdAt : Z;
  dto_updatedAt : Z;
  dto_deletedAt : option Z;
  dto_storageUrl : option string;
  dto_isActive : bool;
  dto_storageType : option string;
}.

Record ListFilesResponseDto := mkListFilesResponseDto {
  lresp_files : list FileInfoDto;
  lresp_totalCount : Z;
  lresp_currentPage : Z;
  lresp_totalPages : Z;
}.

Record DownloadResult := mkDownloadResult {
  dl_stream : ReadableStream;
  dl_filename : string;
  dl_mimetype : string;
}.

(** Which Prisma client a query goes through: the service's own
    ([this.prisma]) or the one handed to a [$transaction] callback. *)
Inductive PrismaClient := RootClient | TxClient.

(** Ghost record of the calls that leave the service: the adapter methods
    invoked (an upload by the position of the adapter in [adapterList], the
    others by the key the adapter was fetched under) and the writes sent to
    the metadata store. *)
Inductive Event :=
  | AdapterUpload (index : nat)
  | AdapterDelete (tag : string) (id : string)
  | AdapterDownload (tag : string) (id : string)
  | AdapterGetPublicUrl (tag : string) (id : string)
  | FileCreate (c : PrismaClient)
  | StorageInfoCreate (c : PrismaClient)
  | FileUpdate (c : PrismaClient) (id : nat)
  | FileDelete (c : PrismaClient) (id : nat)
  | StorageInfoUpdate (c : PrismaClient) (id : nat).

Definition isDbWrite (e : Event) : bool :=
  match e with
  | FileCreate _ | StorageInfoCreate _ | FileUpdate _ _ | FileDelete _ _
  | StorageInfoUpdate _ _ => true
  | _ => false
  end.

Definition isAdapterCall (e : Event) : bool := negb (isDbWrite e).

(** ** [StorageService] and [FileService] *)

Section Service.
Context {JS : JsRuntime} {PS : PrismaSchema}.

(** The providers' side of the world, with a clock. *)
Variable W : Type.
Variable Date_now : W -> Z.
(** [new Date()] once an awaited call to the metadata store has returned:
    the call has taken its time, of which the providers' side holds no
    record. *)
Variable Date_later : W -> Z.

(** An object behind the [CloudStorageAdapter] interface, with the
    methods the service calls.  [download] is optional: an object whose
    class lacks the method has it [undefined]. *)
Record CloudStorageAdapter := mkAdapter {
  constructor_name : string;
  upload : MulterFile -> option string -> M W StorageUploadResult;
  delete : string -> M W unit;
  getPublicUrl : string -> option Z -> M W string;
  download : option (string -> M W ReadableStream);
}.

Record State := mkState {
  adapters : gmap string CloudStorageAdapter;
  adapterList : list CloudStorageAdapter;
  currentAdapterIndex : nat;
  world : W;
  (** the committed metadata store *)
  db : Db;
  (** the working copy of the open transaction, if any *)
  txdb : option Db;
  events : list Event;
}.

Definition set_currentAdapterIndex (i : nat) (s : State) : State :=
  mkState (adapters s) (adapterList s) i (world s) (db s) (txdb s) (events s).
Definition set_world (w : W) (s : State) : State :=
  mkState (adapters s) (adapterList s) (currentAdapterIndex s) w (db s) (txdb s) (events s).
Definition set_db (d : Db) (s : State) : State :=
  mkState (adapters s) (adapterList s) (currentAdapterIndex s) (world s) d (txdb s) (events s).
Definition set_txdb (t : option Db) (s : State) : State :=
  mkState (adapters s) (adapterList s) (currentAdapterIndex s) (world s) (db s) t (events s).
Definition log (e : Event) : M State unit :=
  fun s => (Return tt,
            mkState (adapters s) (adapterList s) (currentAdapterIndex s) (world s)
              (db s) (txdb s) (events s ++ [e])).

(** An adapter method runs on the providers' world. *)
Definition call {A} (m : M W A) : M State A :=
  fun s => let '(r, w) := m (world s) in (r, set_world w s).

Definition now : M State Z := fun s => (Return (Date_now (world s)), s).
Definition later : M State Z := fun s => (Return (Date_later (world s)), s).

(** *** Prisma clients and transactions *)

(** What a client reads. *)
Definition view (c : PrismaClient) (s : State) : Db :=
  match c, txdb s with
  | TxClient, Some t => t
  | _, _ => db s
  end.

Definition query {A} (c : PrismaClient) (q : Db -> A) : M State A :=
  fun s => (Return (q (view c s)), s).

(** A write through the transaction client stays in the working copy; a
    write through the root client is committed at once, and is visible
    to the open transaction (it is replayed on the working copy: in the
    sources such a write comes before the writes of the transaction). *)
Definition write {A} (c : PrismaClient) (op : M Db A) : M State A :=
  fun s =>
    match c, txdb s with
    | TxClient, Some t => let '(r, t') := op t in (r, set_txdb (Some t') s)
    | RootClient, Some t =>
        let '(r, d') := op (db s) in (r, set_txdb (Some (snd (op t))) (set_db d' s))
    | _, None => let '(r, d') := op (db s) in (r, set_db d' s)
    end.

(** [prisma.$transaction(...)]: the working copy becomes the store when
    the body returns and is dropped when it throws. *)
Definition transaction {A} (body : M State A) : M State A :=
  fun s =>
    match body (set_txdb (Some (db s)) s) with
    | (Return a, s') => (Return a, set_txdb None (set_db (view TxClient s') s'))
    | (Throw e, s') => (Throw e, set_txdb None s')
    end.

(** *** storage.service.ts *)

(** [this.adapters.get(key)]; no key is [undefined]. *)
Definition adapters_get (key : option string) (s : State) : option CloudStorageAdapter :=
  match key with
  | Some k => adapters s !! k
  | None => None
  end.

(** [getNextAdapter]: [undefined] beyond the end of the list.  (On an
    empty list JavaScript's [% 0] gives NaN; [uploadToStorage] never
    reaches the call then.) *)
Definition getNextAdapter : M State (option CloudStorageAdapter) :=
  fun s =>
    let adapter := adapterList s !! currentAdapterIndex s in
    (Return adapter,
     set_currentAdapterIndex
       ((currentAdapterIndex s + 1) mod length (adapterList s))%nat s).

Definition determineFileType (mimeType : string) : string :=
  if startsWith "image/" mimeType then "IMAGE" else "VIDEO".

(** The [data] of the [file.create] of [createFileRecord], at time [t]. *)
Definition createFileRecord_data (file : MulterFile) (uploadResult : StorageUploadResult)
    (dto : UploadFileRequestDto) (t : Z) : FileCreateInput :=
  let parts := split underscore (originalname file) in
  let year := parts !! 0%nat in
  let month := parts !! 1%nat in
  mkFileCreateInput
    (originalname file)
    (determineFileType (mimetype file))
    "COMPLETE"
    (mimetype file)
    (size file)
    (sm_fileHash (storageMetadata uploadResult))
    (sm_width (storageMetadata uploadResult))
    (sm_height (storageMetadata uploadResult))
    (sm_duration (storageMetadata uploadResult))
    (sm_encoding (storageMetadata uploadResult))
    (js_or (toNumber year) (Int (getFullYear t)))
    (js_or (toNumber month) (Int (getMonth t + 1)))
    (upl_branchId dto).

Definition createFileRecord (file : MulterFile) (uploadResult : option StorageUploadResult)
    (dto : UploadFileRequestDto) : M State File :=
  try_catch
    (match uploadResult with
     | None => throw (TypeError "Cannot read properties of undefined (reading 'storageMetadata')")
     | Some uploadResult =>
         do t <- now;
         do_ log (FileCreate RootClient);
         write RootClient (Prisma.file_create t (createFileRecord_data file uploadResult dto t))
     end)
    (fun error =>
       throw (StorageError "Failed to create file record" DATABASE_ERROR (Some error))).

(** The [data] of the [storageInfo.create] of [uploadFile]. *)
Definition uploadFile_data (fileRecord : File) (uploadResult : StorageUploadResult)
    : StorageInfoCreateInput :=
  mkStorageInfoCreateInput
    (file_id fileRecord)
    (storageType uploadResult)
    (storageFileId uploadResult)
    (storageUrl uploadResult)
    (Some (storageMetadata uploadResult))
    true.

(** The [for] loop of [uploadToStorage] from iteration [i], with [rem]
    iterations left, for a call that no other request interrupts: the
    awaited [upload] and the next read of the cursor follow each other.
    Calls that overlap are modelled below. *)
Fixpoint uploadToStorage_loop (file : MulterFile) (i rem : nat)
    : M State (option StorageUploadResult) :=
  match rem with
  | O => ret None
  | S rem' =>
      do s <- get;
      do adapter <- getNextAdapter;
      match adapter with
      | None => throw (TypeError "Cannot read properties of undefined (reading 'constructor')")
      | Some adapter =>
          do_ log (AdapterUpload (currentAdapterIndex s));
          try_catch
            (do r <- call (upload adapter file (Some (originalname file)));
             ret (Some r))
            (fun error =>
               if Nat.eqb i (length (adapterList s) - 1) then
                 throw (StorageError "All storage adapters failed to upload the file"
                          UPLOAD_FAILED (Some error))
               else uploadToStorage_loop file (S i) rem')
      end
  end.

Definition uploadToStorage (file : MulterFile) : M State (option StorageUploadResult) :=
  do s <- get;
  uploadToStorage_loop file 0 (length (adapterList s)).

(** *** [uploadToStorage] among other requests

    [uploadToStorage] is an async function: a call runs up to the [await]
    of [adapter.upload] and goes on when the upload has settled; in between
    the service object serves other requests.  A call is either suspended
    at the [await] of iteration [i], holding the adapter it took, or has
    settled. *)
Inductive UploadCall :=
  | Awaiting (i : nat) (adapter : CloudStorageAdapter)
  | Settled (out : Outcome (option StorageUploadResult)).

(** The loop from the head of iteration [i] to the [await]. *)
Definition uploadToStorage_enter (i : nat) (s : State) : UploadCall * State :=
  if (i <? length (adapterList s))%nat then
    match getNextAdapter s with
    | (Return (Some adapter), s1) =>
        (Awaiting i adapter, snd (log (AdapterUpload (currentAdapterIndex s)) s1))
    | (Return None, s1) =>
        (Settled (Throw (TypeError "Cannot read properties of undefined (reading 'constructor')")),
         s1)
    | (Throw error, s1) => (Settled (Throw error), s1)
    end
  else (Settled (Return None), s).

(** The loop from the [await], when the upload settles, to the next
    [await] or to the end of the call.  What the upload does to the
    providers is taken at the moment it settles. *)
Definition uploadToStorage_resume (file : MulterFile) (c : UploadCall) (s : State)
    : UploadCall * State :=
  match c with
  | Settled _ => (c, s)
  | Awaiting i adapter =>
      match call (upload adapter file (Some (originalname file))) s with
      | (Return r, s1) => (Settled (Return (Some r)), s1)
      | (Throw error, s1) =>
          if Nat.eqb i (length (adapterList s1) - 1) then
            (Settled (Throw (StorageError "All storage adapters failed to upload the file"
                               UPLOAD_FAILED (Some error))), s1)
          else uploadToStorage_enter (S i) s1
      end
  end.

(** A call that no other request interrupts: it is resumed [n] times. *)
Fixpoint uploadToStorage_resumed (file : MulterFile) (n : nat) (c : UploadCall) (s : State)
    : UploadCall * State :=
  match n with
  | O => (c, s)
  | S n' =>
      let '(c', s') := uploadToStorage_resume file c s in
      uploadToStorage_resumed file n' c' s'
  end.

(** Two calls, the first for [file1] and the second for [file2], both
    entered before either upload has settled; then the uploads settle in
    the order of [turns] ([false]: the one of the first call). *)
Fixpoint overlapped_resumed (file1 file2 : MulterFile) (turns : list bool)
    (c1 c2 : UploadCall) (s : State) : UploadCall * UploadCall * State :=
  match turns with
  | [] => (c1, c2, s)
  | false :: rest =>
      let '(c1', s') := uploadToStorage_resume file1 c1 s in
      overlapped_resumed file1 file2 rest c1' c2 s'
  | true :: rest =>
      let '(c2', s') := uploadToStorage_resume file2 c2 s in
      overlapped_resumed file1 file2 rest c1 c2' s'
  end.

Definition overlapped (file1 file2 : MulterFile) (turns : list bool) (s : State)
    : UploadCall * UploadCall * State :=
  let '(c1, s1) := uploadToStorage_enter 0 s in
  let '(c2, s2) := uploadToStorage_enter 0 s1 in
  overlapped_resumed file1 file2 turns c1 c2 s2.

Definition uploadFile (dto : UploadFileRequestDto) (file : MulterFile)
    : M State UploadFileResponseDto :=
  transaction
    (try_catch
       (do uploadResult <- uploadToStorage file;
        do fileRecord <- createFileRecord file uploadResult dto;
        match uploadResult with
        | None => throw (TypeError "Cannot read properties of undefined (reading 'storageType')")
        | Some uploadResult =>
            do_ log (StorageInfoCreate TxClient);
            do storageInfo <-
              write TxClient (Prisma.storageInfo_create (uploadFile_data fileRecord uploadResult));
            ret (mkUploadFileResponseDto
                   (file_id fileRecord)
                   (storageUrl uploadResult)
                   (storageMetadata uploadResult))
        end)
       (fun error =>
          throw (StorageError "Failed to complete file upload transaction"
                   DATABASE_ERROR (Some error)))).

Definition mapToFileInfoDto (file : File) (storageInfo : option StorageInfo) : FileInfoDto :=
  mkFileInfoDto
    (file_id file)
    (file_name file)
    (file_type file)
    (file_status file)
    (file_mimeType file)
    (file_fileSize file)
    (file_fileHash file)
    (file_width file)
    (file_height file)
    (file_duration file)
    (file_encoding file)
    (file_metadata file)
    (numToString (Int (file_year file)) +:+ "/" +:+ numToString (Int (file_month file))
       +:+ "/" +:+ file_branchId file)
    (file_createdAt file)
    (file_updatedAt file)
    (file_deletedAt file)
    (storageInfo ≫= si_storageUrl)
    (match file_deletedAt file with
     | Some _ => false
     | None => match storageInfo with Some si => si_isActive si | None => false end
     end)
    (storageInfo ≫= si_storageType).

(** The [where] object of [listFiles]: an absent [branchId] is no
    condition, and the [OR] is there for a non-empty [prefix]. *)
Definition listFiles_where (dto : ListFilesRequestDto)
    (file : File) (storageInfo : option StorageInfo) : bool :=
  match list_branchId dto with
  | Some b => String.eqb (file_branchId file) b
  | None => true
  end
  && match file_deletedAt file with None => true | Some _ => false end
  && match list_prefix dto with
     | None | Some EmptyString => true
     | Some prefix =>
         startsWith prefix (file_name file)
         || match storageInfo with
            | Some si => startsWith prefix (si_storageFileId si)
            | None => false
            end
     end.

(** [a * b] and [a - 1] on possibly [undefined] integers. *)
Definition js_skip (page limit : option Z) : JsNumber :=
  match page, limit with
  | Some p, Some l => Int ((p - 1) * l)
  | _, _ => NaN
  end.

(** [x || k] for an optional integer. *)
Definition orDefault (x : option Z) (k : Z) : Z :=
  match x with
  | Some 0 | None => k
  | Some v => v
  end.

(** [Math.ceil(a / b)] for integers, [b] not zero. *)
Definition ceilDiv (a b : Z) : Z := - ((- a) / b).

Definition listFiles (dto : ListFilesRequestDto) : M State ListFilesResponseDto :=
  let where_ := listFiles_where dto in
  do r <- query RootClient
            (Prisma.file_findMany where_ (list_limit dto)
               (js_skip (list_page dto) (list_limit dto)));
  do totalCount <- query RootClient (Prisma.file_count where_);
  match r with
  | Throw e => throw e
  | Return files =>
      ret (mkListFilesResponseDto
             (map (fun r => mapToFileInfoDto (fst r) (snd r)) files)
             totalCount
             (orDefault (list_page dto) 1)
             (ceilDiv totalCount (orDefault (list_limit dto) 10)))
  end.

Definition tagText (storageType : option string) : string :=
  match storageType with Some t => t | None => "undefined" end.

Definition downloadFile (storageFileId : nat) (storageType : option string)
    : M State DownloadResult :=
  do fileWithStorage <- query RootClient (Prisma.file_findById storageFileId);
  match fileWithStorage with
  | None | Some (_, None) => throw (StorageError "File not found" FILE_NOT_FOUND None)
  | Some (_, Some storageInfo) =>
      do s <- get;
      match adapters_get storageType s with
      | None =>
          throw (StorageError
                   ("Storage provider not available for type: " +:+ tagText storageType)
                   VALIDATION_FAILED None)
      | Some adapter =>
          try_catch
            (do updatedFile <-
               transaction
                 (do_ log (FileUpdate TxClient storageFileId);
                  write TxClient
                    (Prisma.file_update storageFileId
                       (fun f => set_accessCount (file_accessCount f + 1) f)));
             match download adapter with
             | None => throw (TypeError "adapter.download is not a function")
             | Some download =>
                 do_ log (AdapterDownload (tagText storageType) (si_storageFileId storageInfo));
                 do stream <- call (download (si_storageFileId storageInfo));
                 ret (mkDownloadResult stream (file_name updatedFile) (file_mimeType updatedFile))
             end)
            (fun error =>
               throw (StorageError "Failed to download file" DOWNLOAD_FAILED (Some error)))
      end
  end.

Definition deleteFile (dto : DeleteFileRequestDto) : M State DeleteFileResponseDto :=
  transaction
    (do file <- query TxClient (Prisma.file_findById (del_storageFileId dto));
     match file with
     | None => throw (StorageError "File not found" FILE_NOT_FOUND None)
     | Some (_, storageInfo) =>
         if default false (del_permanent dto) then
           do_ try_catch
                 (do s <- get;
                  match adapters_get (storageInfo ≫= si_storageType) s, storageInfo with
                  | Some adapter, Some si =>
                      do_ log (AdapterDelete (tagText (si_storageType si)) (si_storageFileId si));
                      call (delete adapter (si_storageFileId si))
                  | Some adapter, None =>
                      throw (TypeError "Cannot read properties of null (reading 'storageFileId')")
                  | None, _ => ret tt
                  end)
                 (fun error => ret tt);
           do_ log (FileDelete TxClient (del_storageFileId dto));
           do_ write TxClient (Prisma.file_delete (del_storageFileId dto));
           ret (mkDeleteFileResponseDto (del_storageFileId dto) true None)
         else
           do t <- now;
           do_ log (FileUpdate TxClient (del_storageFileId dto));
           do_ write TxClient
                 (Prisma.file_update_nested (del_storageFileId dto)
                    (set_deletedAt (Some t)) (set_isActive false));
           do t' <- later;
           ret (mkDeleteFileResponseDto (del_storageFileId dto) true (Some t'))
     end).

Definition getFileUrl (storageFileId : nat) (storageType : option string)
    : M State FileInfoDto :=
  do fileWithStorage <- query RootClient (Prisma.file_findById storageFileId);
  match fileWithStorage with
  | None | Some (_, None) => throw (StorageError "File not found" FILE_NOT_FOUND None)
  | Some (_, Some storageInfo) =>
      do s <- get;
      match adapters_get storageType s with
      | None => throw (StorageError "Storage provider not available" VALIDATION_FAILED None)
      | Some adapter =>
          do_ log (AdapterGetPublicUrl (tagText storageType) (si_storageFileId storageInfo));
          do newUrl <- call (getPublicUrl adapter (si_storageFileId storageInfo) None);
          do_ log (StorageInfoUpdate RootClient (si_id storageInfo));
          do updated <-
            write RootClient
              (Prisma.storageInfo_update (si_id storageInfo) (set_storageUrl (Some newUrl)));
          ret (mapToFileInfoDto (snd updated) (Some (fst updated)))
      end
  end.

(** *** file.service.ts *)

Definition HttpStatus_BAD_REQUEST : Z := 400.
Definition HttpStatus_NOT_FOUND : Z := 404.

(** The [where] object of the file query of [getFileByUrl]. *)
Definition getFileByUrl_where (yearNum monthNum : JsNumber) (branchId name : string)
    (file : File) (storageInfo : option StorageInfo) : bool :=
  match asInt yearNum, asInt monthNum with
  | Some y, Some m =>
      (file_year file =? y) && (file_month file =? m)
      && String.eqb (file_branchId file) branchId
      && String.eqb (file_name file) name
      && match file_deletedAt file with None => true | Some _ => false end
  | _, _ => false
  end.

Definition getFileByUrl (path : string) : M State FileInfoDto :=
  match split slash path with
  | [year; month; branchName; filename] =>
      let yearNum := toNumber (Some year) in
      let monthNum := toNumber (Some month) in
      if isNaN yearNum || isNaN monthNum || js_lt monthNum 1 || js_gt monthNum 12 then
        throw (HttpException "Invalid year or month in URL" HttpStatus_BAD_REQUEST)
      else
        do branch <- query RootClient (Prisma.branch_findFirst branchName);
        match branch with
        | None => throw (HttpException "Branch not found" HttpStatus_NOT_FOUND)
        | Some branch =>
            match asInt yearNum, asInt monthNum with
            | Some _, Some _ =>
                do file <-
                  query RootClient
                    (Prisma.file_findFirst
                       (getFileByUrl_where yearNum monthNum (branch_id branch)
                          (numToString yearNum +:+ "_" +:+ numToString monthNum +:+ "_"
                             +:+ branchName +:+ "_" +:+ filename)));
                match file with
                | None => throw (HttpException "File not found" HttpStatus_NOT_FOUND)
                | Some (file, storageInfo) => ret (mapToFileInfoDto file storageInfo)
                end
            | _, _ => throw (PrismaError "Invalid `prisma.file.findFirst()` invocation")
            end
        end
  | _ =>
      throw (HttpException
               "Invalid file URL structure. Expected format: /year/month/branchName/filename"
               HttpStatus_BAD_REQUEST)
  end.
End Service.

Arguments mkAdapter {W}.
Arguments constructor_name {W}.
Arguments upload {W}.
Arguments delete {W}.
Arguments getPublicUrl {W}.
Arguments download {W}.
Arguments mkState {W}.
Arguments adapters {W}.
Arguments adapterList {W}.
Arguments currentAdapterIndex {W}.
Arguments world {W}.
Arguments db {W}.
Arguments txdb {W}.
Arguments events {W}.
Arguments set_currentAdapterIndex {W}.
Arguments set_world {W}.
Arguments set_db {W}.
Arguments set_txdb {W}.
Arguments log {W}.
Arguments call {W A}.
Arguments now {W}.
Arguments later {W}.
Arguments view {W}.
Arguments query {W A}.
Arguments write {W A}.
Arguments transaction {W A}.
Arguments adapters_get {W}.
Arguments getNextAdapter {W}.
Arguments createFileRecord_data {JS}.
Arguments createFileRecord {JS PS W}.
Arguments uploadToStorage_loop {W}.
Arguments uploadToStorage {W}.
Arguments UploadCall : clear implicits.
Arguments Awaiting {W}.
Arguments Settled {W}.
Arguments uploadToStorage_enter {W}.
Arguments uploadToStorage_resume {W}.
Arguments uploadToStorage_resumed {W}.
Arguments overlapped_resumed {W}.
Arguments overlapped {W}.
Arguments uploadFile {JS PS W}.
Arguments listFiles {JS W}.
Arguments downloadFile {W}.
Arguments deleteFile {PS W}.
Arguments getFileUrl {JS W}.
Arguments getFileByUrl {JS W}.

(** ** The provider classes *)

Module Adapters.

Inductive AdapterClass :=
  | AwsS3Adapter
  | GoogleCloudStorageAdapter
  | AzureBlobStorageAdapter.

(** The operations of the [CloudStorageAdapter] interface. *)
Inductive Method :=
  | m_upload
  | m_delete
  | m_listFiles
  | m_getPublicUrl
  | m_exists
  | m_getFileHash
  | m_download.

Definition Method_eqb (a b : Method) : bool :=
  match a, b with
  | m_upload, m_upload | m_delete, m_delete | m_listFiles, m_listFiles
  | m_getPublicUrl, m_getPublicUrl | m_exists, m_exists
  | m_getFileHash, m_getFileHash | m_download, m_download => true
  | _, _ => false
  end.

Definition contract : list Method :=
  [m_upload; m_delete; m_listFiles; m_getPublicUrl; m_exists; m_getFileHash; m_download].

(** The public methods each class body defines, in source order. *)
Definition methodsOf (c : AdapterClass) : list Method :=
  match c with
  | AwsS3Adapter =>
      [m_upload; m_delete; m_listFiles; m_getPublicUrl; m_exists; m_getFileHash]
  | GoogleCloudStorageAdapter =>
      [m_upload; m_delete; m_listFiles; m_getPublicUrl; m_exists; m_getFileHash]
  | AzureBlobStorageAdapter =>
      [m_upload; m_download; m_delete; m_listFiles; m_getPublicUrl; m_exists; m_getFileHash]
  end.

Definition hasMethod (c : AdapterClass) (m : Method) : bool :=
  existsb (Method_eqb m) (methodsOf c).

(** [CloudStorageFactory.createAdapter]: the class of each provider tag. *)
Definition classOf (t : StorageType) : AdapterClass :=
  match t with
  | GOOGLE => GoogleCloudStorageAdapter
  | AWS => AwsS3Adapter
  | AZURE => AzureBlobStorageAdapter
  end.

Definition className (c : AdapterClass) : string :=
  match c with
  | AwsS3Adapter => "AwsS3Adapter"
  | GoogleCloudStorageAdapter => "GoogleCloudStorageAdapter"
  | AzureBlobStorageAdapter => "AzureBlobStorageAdapter"
  end.

(** [interface SignedUrlCache] *)
Record SignedUrlCache := mkSignedUrlCache {
  url : string;
  expiresAt : Z;
}.

(** Requests to a provider SDK. *)
Inductive SdkOp :=
  | Put (contentType : string)
  | Head
  | Exists
  | Remove
  | Sign (expires : Z)
  | Fetch.

Record SdkCall := mkSdkCall {
  call_class : AdapterClass;
  call_op : SdkOp;
  call_key : string;
}.

Definition isSign (c : SdkCall) : bool :=
  match call_op c with Sign _ => true | _ => false end.

(** What a metadata request reports, numbers as [parseMetadataValue]
    leaves them. *)
Record ObjectProperties := mkObjectProperties {
  etag : option string;
  reported_size : option Z;
  contentType : option string;
  md5Hash : option string;
  meta_width : option Z;
  meta_height : option Z;
  meta_duration : option Z;
  meta_encoding : option string;
}.

(** The providers: every answer may depend on the requests made so far.
    [elapsed] is the time in milliseconds a request takes.  [client] is
    the construction of the SDK client of a class from its setting
    ([new S3Client({ region })], [new Storage({ keyFilename })],
    [BlobServiceClient.fromConnectionString]), which may throw on a
    setting it cannot read. *)
Record Sdk := mkSdk {
  client : AdapterClass -> string -> Outcome unit;
  answer_unit : list SdkCall -> SdkCall -> Outcome unit;
  answer_bool : list SdkCall -> SdkCall -> Outcome bool;
  answer_url : list SdkCall -> SdkCall -> Outcome string;
  answer_properties : list SdkCall -> SdkCall -> Outcome ObjectProperties;
  answer_stream : list SdkCall -> SdkCall -> Outcome ReadableStream;
  elapsed : list SdkCall -> SdkCall -> nat;
}.

(** The clock, the requests made so far, and the [urlCache] of every
    adapter object, by object. *)
Record World := mkWorld {
  clock : Z;
  history : list SdkCall;
  urlCaches : gmap nat (gmap string SignedUrlCache);
}.

(** An adapter object: its class and the identity that owns a cache. *)
Record AdapterObject := mkAdapterObject {
  class : AdapterClass;
  handle : nat;
}.

Definition Date_now (w : World) : Z := clock w.

Definition urlCache (this : AdapterObject) (w : World) : gmap string SignedUrlCache :=
  default ∅ (urlCaches w !! handle this).

Definition set_urlCache (this : AdapterObject) (c : gmap string SignedUrlCache)
    (w : World) : World :=
  mkWorld (clock w) (history w) (<[handle this := c]> (urlCaches w)).

Definition urlCache_set (this : AdapterObject) (id : string) (e : SignedUrlCache)
    : M World unit :=
  fun w => (Return tt, set_urlCache this (<[id := e]> (urlCache this w)) w).

Definition urlCache_delete (this : AdapterObject) (id : string) : M World unit :=
  fun w => (Return tt, set_urlCache this (base.delete id (urlCache this w)) w).

(** The string without its double-quote characters, as the [replace]
    with a global pattern leaves it. *)
Fixpoint stripQuotes (s : string) : string :=
  match s with
  | EmptyString => EmptyString
  | String c s' =>
      if Ascii.eqb c (Ascii.ascii_of_nat 34) then stripQuotes s'
      else String c (stripQuotes s')
  end.

Definition messageOf (e : Thrown) : option string :=
  match e with
  | StorageError m _ _ | HttpException m _ | TypeError m | SdkError m _ _
  | PrismaError m => Some m
  | JsValue _ => None
  end.

Definition nonEmpty (s : option string) : option string :=
  match s with
  | Some EmptyString | None => None
  | Some t => Some t
  end.

Section Classes.
Context {JS : JsRuntime}.
Variable sdk : Sdk.
(** [process.env] *)
Variable env : string -> option string.

Definition request {A} (answer : Sdk -> list SdkCall -> SdkCall -> Outcome A)
    (c : SdkCall) : M World A :=
  fun w =>
    (answer sdk (history w) c,
     mkWorld (clock w + Z.of_nat (elapsed sdk (history w) c))
             (history w ++ [c]) (urlCaches w)).

Definition dateNow : M World Z := fun w => (Return (Date_now w), w).

(** [extractErrorDetails] of each class. *)
Definition extractErrorDetails (c : AdapterClass) (error : Thrown) : Thrown :=
  match c with
  | AwsS3Adapter =>
      match nonEmpty (messageOf error) with
      | Some m => JsValue m
      | None => error
      end
  | GoogleCloudStorageAdapter =>
      match error with
      | SdkError _ _ (Some payload) => JsValue payload
      | _ => JsValue "{}"
      end
  | AzureBlobStorageAdapter =>
      match error with
      | SdkError _ _ (Some payload) => JsValue payload
      | StorageError _ _ (Some d) => d
      | _ => match nonEmpty (messageOf error) with
             | Some m => JsValue m
             | None => error
             end
      end
  end.

(** [isStorageError] of the Google class: the value has a [code] and a
    [message]. *)
Definition isStorageError (error : Thrown) : bool :=
  match error with
  | StorageError _ _ _ => true
  | SdkError _ (Some _) _ => true
  | _ => false
  end.

Definition failed (c : AdapterClass) (message : string) (code : StorageErrorCode)
    (error : Thrown) : Thrown :=
  StorageError message code (Some (extractErrorDetails c error)).

(** [exists] *)
Definition exists_ (this : AdapterObject) (storageFileId : string) : M World bool :=
  match class this with
  | AwsS3Adapter =>
      try_catch
        (do_ request answer_properties (mkSdkCall AwsS3Adapter Head storageFileId);
         ret true)
        (fun error =>
           match error with
           | SdkError _ (Some 404) _ => ret false
           | _ => throw (failed AwsS3Adapter "Failed to check file existence"
                           VALIDATION_FAILED error)
           end)
  | GoogleCloudStorageAdapter =>
      try_catch
        (request answer_bool (mkSdkCall GoogleCloudStorageAdapter Exists storageFileId))
        (fun error =>
           throw (failed GoogleCloudStorageAdapter "Failed to check file existence"
                    VALIDATION_FAILED error))
  | AzureBlobStorageAdapter =>
      try_catch
        (request answer_bool (mkSdkCall AzureBlobStorageAdapter Exists storageFileId))
        (fun error =>
           throw (failed AzureBlobStorageAdapter "Failed to check blob existence"
                    VALIDATION_FAILED error))
  end.

(** [ensureFileExists] of the AWS and Google classes. *)
Definition ensureFileExists (this : AdapterObject) (storageFileId : string) : M World unit :=
  do ex <- exists_ this storageFileId;
  if ex then ret tt
  else throw (StorageError ("File not found: " +:+ storageFileId) FILE_NOT_FOUND None).

Definition expiresInOrDefault (expiresIn : option Z) : Z := default 3600 expiresIn.

(** [cached && cached.expiresAt > Date.now()], with the URL of a hit. *)
Definition cacheHit (cached : option SignedUrlCache) (t : Z) : option string :=
  match cached with
  | Some cached => if t <? expiresAt cached then Some (url cached) else None
  | None => None
  end.

(** [getPublicUrl] *)
Definition getPublicUrl (this : AdapterObject) (storageFileId : string)
    (expiresIn : option Z) : M World string :=
  let expiresIn := expiresInOrDefault expiresIn in
  let c := class this in
  try_catch
    (do w <- get;
     do t <- dateNow;
     match cacheHit (urlCache this w !! storageFileId) t with
     | Some u => ret u
     | None =>
         do_ match c with
             | GoogleCloudStorageAdapter => ensureFileExists this storageFileId
             | _ => ret tt
             end;
         do u <-
           match c with
           | AwsS3Adapter =>
               request answer_url (mkSdkCall c (Sign expiresIn) storageFileId)
           | _ =>
               do t1 <- dateNow;
               request answer_url (mkSdkCall c (Sign (t1 + expiresIn * 1000)) storageFileId)
           end;
         do t2 <- dateNow;
         do_ urlCache_set this storageFileId (mkSignedUrlCache u (t2 + expiresIn * 1000));
         ret u
     end)
    (fun error =>
       match c with
       | GoogleCloudStorageAdapter =>
           if isStorageError error then throw error
           else throw (failed c "Failed to generate public URL" URL_GENERATION_FAILED error)
       | _ => throw (failed c "Failed to generate public URL" URL_GENERATION_FAILED error)
       end).

(** [destination || `${Date.now()}-${file.originalname}`] *)
Definition finalDestinationOf (file : MulterFile) (destination : option string)
    : M World string :=
  match nonEmpty destination with
  | Some d => ret d
  | None =>
      do t <- dateNow;
      ret (numToString (Int t) +:+ "-" +:+ originalname file)
  end.

Definition orEmpty (s : option string) : string := default EmptyString (nonEmpty s).

(** [upload].  In the Google class the promise settles on the events of
    the write stream: [finish] leads to the metadata request, [error] to
    the rejection. *)
Definition upload (this : AdapterObject) (file : MulterFile) (destination : option string)
    : M World StorageUploadResult :=
  match class this with
  | AwsS3Adapter =>
      try_catch
        (do finalDestination <- finalDestinationOf file destination;
         do_ request answer_unit (mkSdkCall AwsS3Adapter (Put (mimetype file)) finalDestination);
         do metadata <- request answer_properties (mkSdkCall AwsS3Adapter Head finalDestination);
         let storageMetadata :=
           mkStorageMetadata (Some (size file)) (mimetype file)
             (orEmpty (stripQuotes <$> etag metadata))
             (meta_width metadata) (meta_height metadata) (meta_duration metadata)
             (meta_encoding metadata) in
         do u <- getPublicUrl this finalDestination None;
         ret (mkStorageUploadResult finalDestination (Some u) storageMetadata None))
        (fun error =>
           throw (failed AwsS3Adapter "File upload failed" UPLOAD_FAILED error))
  | GoogleCloudStorageAdapter =>
      do finalDestination <- finalDestinationOf file destination;
      do_ try_catch
            (request answer_unit
               (mkSdkCall GoogleCloudStorageAdapter (Put (mimetype file)) finalDestination))
            (fun error =>
               throw (failed GoogleCloudStorageAdapter "Upload stream failed"
                        UPLOAD_FAILED error));
      try_catch
        (do metadata <-
           request answer_properties
             (mkSdkCall GoogleCloudStorageAdapter Head finalDestination);
         ret (mkStorageUploadResult finalDestination
                (Some ("https://storage.googleapis.com/"
                         +:+ default "undefined" (env "GCP_BUCKET_NAME")
                         +:+ "/" +:+ finalDestination))
                (mkStorageMetadata (reported_size metadata)
                   (default (mimetype file) (nonEmpty (contentType metadata)))
                   (orEmpty (md5Hash metadata))
                   (meta_width metadata) (meta_height metadata) (meta_duration metadata)
                   (meta_encoding metadata))
                None))
        (fun error =>
           throw (failed GoogleCloudStorageAdapter "Failed to get file metadata"
                    UPLOAD_FAILED error))
  | AzureBlobStorageAdapter =>
      try_catch
        (do finalDestination <- finalDestinationOf file destination;
         do_ request answer_unit
               (mkSdkCall AzureBlobStorageAdapter (Put (mimetype file)) finalDestination);
         do properties <-
           request answer_properties (mkSdkCall AzureBlobStorageAdapter Head finalDestination);
         let storageMetadata :=
           mkStorageMetadata (Some (size file)) (mimetype file)
             (orEmpty (stripQuotes <$> etag properties))
             (meta_width properties) (meta_height properties) (meta_duration properties)
             (meta_encoding properties) in
         do u <- getPublicUrl this finalDestination None;
         ret (mkStorageUploadResult finalDestination (Some u) storageMetadata (Some "AZURE")))
        (fun error =>
           throw (failed AzureBlobStorageAdapter "File upload failed" UPLOAD_FAILED error))
  end.

(** [delete] *)
Definition delete (this : AdapterObject) (storageFileId : string) : M World unit :=
  match class this with
  | AwsS3Adapter =>
      try_catch
        (do_ ensureFileExists this storageFileId;
         do_ request answer_unit (mkSdkCall AwsS3Adapter Remove storageFileId);
         urlCache_delete this storageFileId)
        (fun error =>
           throw (failed AwsS3Adapter "File deletion failed" DELETE_FAILED error))
  | GoogleCloudStorageAdapter =>
      try_catch
        (do_ ensureFileExists this storageFileId;
         do_ request answer_unit (mkSdkCall GoogleCloudStorageAdapter Remove storageFileId);
         urlCache_delete this storageFileId)
        (fun error =>
           if isStorageError error then throw error
           else throw (failed GoogleCloudStorageAdapter "File deletion failed"
                         DELETE_FAILED error))
  | AzureBlobStorageAdapter =>
      try_catch
        (do_ request answer_unit (mkSdkCall AzureBlobStorageAdapter Remove storageFileId);
         urlCache_delete this storageFileId)
        (fun error =>
           throw (failed AzureBlobStorageAdapter "Blob deletion failed" DELETE_FAILED error))
  end.

(** [download]: only the Azure class has the method. *)
Definition download (this : AdapterObject)
    : option (string -> M World ReadableStream) :=
  match class this with
  | AzureBlobStorageAdapter =>
      Some (fun storageFileId =>
              try_catch
                (request answer_stream
                   (mkSdkCall AzureBlobStorageAdapter Fetch storageFileId))
                (fun error =>
                   throw (failed AzureBlobStorageAdapter "Failed to download file"
                            DOWNLOAD_FAILED error)))
  | AwsS3Adapter | GoogleCloudStorageAdapter => None
  end.

(** The object as the service sees it. *)
Definition asAdapter (this : AdapterObject) : CloudStorageAdapter World :=
  mkAdapter (className (class this)) (upload this) (delete this)
    (getPublicUrl this) (download this).

(** *** cloud-storage.factory.ts and [initializeAdapters] *)

Definition isSet (name : string) : bool :=
  match nonEmpty (env name) with Some _ => true | None => false end.

(** The setting each constructor hands to its SDK client. *)
Definition clientSetting (c : AdapterClass) : string :=
  match c with
  | AwsS3Adapter => "AWS_REGION"
  | GoogleCloudStorageAdapter => "GCP_CREDENTIALS"
  | AzureBlobStorageAdapter => "AZURE_STORAGE_CONNECTION_STRING"
  end.

(** The constructor of each class: the check of the environment, then
    the SDK client. *)
Definition construct (c : AdapterClass) (h : nat) : Outcome AdapterObject :=
  let '(ok, message) :=
    match c with
    | AwsS3Adapter =>
        (isSet "AWS_REGION" && isSet "AWS_BUCKET_NAME",
         "Missing required environment variables: AWS_REGION and/or AWS_BUCKET_NAME")
    | GoogleCloudStorageAdapter =>
        (isSet "GCP_CREDENTIALS" && isSet "GCP_BUCKET_NAME",
         "Missing required environment variables: GCP_CREDENTIALS and/or GCP_BUCKET_NAME")
    | AzureBlobStorageAdapter =>
        (isSet "AZURE_STORAGE_CONNECTION_STRING" && isSet "AZURE_CONTAINER_NAME",
         "Missing required environment variables: AZURE_STORAGE_CONNECTION_STRING"
         +:+ " and/or AZURE_CONTAINER_NAME")
    end in
  if ok then
    match client sdk c (default EmptyString (env (clientSetting c))) with
    | Return _ => Return (mkAdapterObject c h)
    | Throw error => Throw error
    end
  else Throw (StorageError message VALIDATION_FAILED None).

(** [CloudStorageFactory.createAdapter({ provider })]; the [details] of
    the errors of the factory are left out. *)
Definition createAdapter (provider : string) (h : nat) : Outcome AdapterObject :=
  if String.eqb provider (StorageType_value GOOGLE) then
    if isSet "GCP_BUCKET_NAME" then construct GoogleCloudStorageAdapter h
    else Throw (JsValue "Error: Google Cloud Storage requires a valid bucket name")
  else if String.eqb provider (StorageType_value AWS) then
    if isSet "AWS_BUCKET_NAME" && isSet "AWS_REGION" then construct AwsS3Adapter h
    else Throw (StorageError "AWS S3 requires a valid bucket name and region"
                  VALIDATION_FAILED None)
  else if String.eqb provider (StorageType_value AZURE) then
    if isSet "AZURE_STORAGE_CONNECTION_STRING" && isSet "AZURE_CONTAINER_NAME"
    then construct AzureBlobStorageAdapter h
    else Throw (StorageError
                  "Azure Blob Storage requires a valid connection string and container name"
                  VALIDATION_FAILED None)
  else Throw (StorageError "Unsupported provider" VALIDATION_FAILED None).

(** The body of the [map] callback of [initializeAdapters], over the
    providers in order: every provider is tried, and the first error
    is the one [Promise.all] rejects with. *)
Fixpoint registerProviders (providers : list string) (s : State World)
    : option Thrown * State World :=
  match providers with
  | [] => (None, s)
  | provider :: rest =>
      let normalizedProvider := toLowerCase (trim provider) in
      match createAdapter normalizedProvider (length (adapterList s)) with
      | Return this =>
          let adapter := asAdapter this in
          registerProviders rest
            (mkState (<[normalizedProvider := adapter]> (adapters s))
               (adapterList s ++ [adapter]) (currentAdapterIndex s)
               (world s) (db s) (txdb s) (events s))
      | Throw error =>
          let '(_, s') := registerProviders rest s in (Some error, s')
      end
  end.

(** The service as its field initialisers leave it. *)
Definition newService (w : World) (d : Db) : State World :=
  mkState ∅ [] 0%nat w d None [].

(** [initializeAdapters], with [ENABLED_CLOUD_PROVIDERS] split at the
    commas. *)
Definition initializeAdapters (enabledProviders : list string) : M (State World) unit :=
  fun s =>
    match enabledProviders with
    | [] =>
        (Throw (StorageError "No enabled cloud providers found in the configuration"
                  VALIDATION_FAILED None), s)
    | _ =>
        match registerProviders enabledProviders s with
        | (Some error, s') => (Throw error, s')
        | (None, s') =>
            match adapterList s' with
            | [] => (Throw (StorageError
                              "No valid cloud storage adapters could be initialized"
                              VALIDATION_FAILED None), s')
            | _ => (Return tt, s')
            end
        end
    end.
End Classes.
End Adapters.

(** ** Round-robin positions *)

Section RoundRobinDefs.
Local Open Scope nat_scope.

(** The cursor after one [getNextAdapter] on a list of [N] adapters. *)
Definition advance (N c : nat) : nat := (c + 1) mod N.

(** The cursor positions read by [n] successive calls from cursor [c]. *)
Fixpoint cursorTrace (N c n : nat) : list nat :=
  match n with
  | O => []
  | S n' => c :: cursorTrace N (advance N c) n'
  end.

(** The cursor after [n] calls. *)
Fixpoint cursorAfter (N c n : nat) : nat :=
  match n with
  | O => c
  | S n' => cursorAfter N (advance N c) n'
  end.

(** How often position [j] occurs. *)
Definition uses (j : nat) (l : list nat) : nat := count_occ Nat.eq_dec l j.

Definition ceilDivNat (K N : nat) : nat := (K + N - 1) / N.
End RoundRobinDefs.

(** The positions of the adapters whose [upload] was invoked. *)
Definition uploadedAt (e : Event) : option nat :=
  match e with AdapterUpload i => Some i | _ => None end.
Definition uploadPositions (l : list Event) : list nat := omap uploadedAt l.

(** ** Vocabulary of the statements *)

Section Vocabulary.
Context {W : Type}.
Implicit Types (s : State W) (a : CloudStorageAdapter W) (file : MulterFile).

(** [upload] of the adapter never returns for the file, called as
    [uploadToStorage] calls it. *)
Definition fails file a : Prop :=
  forall w, exists e w', upload a file (Some (originalname file)) w = (Throw e, w').

(** The state after an attempt that left the providers in [w']. *)
Definition attempted s (w' : W) : State W :=
  mkState (adapters s) (adapterList s)
    (advance (length (adapterList s)) (currentAdapterIndex s)) w' (db s) (txdb s)
    (events s ++ [AdapterUpload (currentAdapterIndex s)]).

Definition allFailed (error : Thrown) : Thrown :=
  StorageError "All storage adapters failed to upload the file" UPLOAD_FAILED (Some error).

(** One attempt of an upload: the position of the adapter in the list,
    what its [upload] gave, and the providers as it left them. *)
Record Attempt := mkAttempt {
  attempt_position : nat;
  attempt_outcome : Outcome StorageUploadResult;
  attempt_world : W;
}.

(** The attempts of one upload as the specification describes them, on
    the providers as they are: from the cursor [c] on, at most [n]
    adapters in cyclic order, each called on the providers as the attempt
    before left them, up to the first that returns. *)
Fixpoint attempts file (l : list (CloudStorageAdapter W)) (c n : nat) (w : W)
    : list Attempt :=
  match n with
  | O => []
  | S n' =>
      match l !! c with
      | None => []
      | Some a =>
          let '(o, w') := upload a file (Some (originalname file)) w in
          mkAttempt c o w'
            :: match o with
               | Return _ => []
               | Throw _ => attempts file l (advance (length l) c) n' w'
               end
      end
  end.

(** The providers after the attempts, and what the upload gives its
    caller: the result of the attempt that returned, or UPLOAD_FAILED with
    the error of the last attempt. *)
Definition providersAfter (w : W) (tr : list Attempt) : W :=
  default w (attempt_world <$> last tr).

Definition resultOf (tr : list Attempt) : Outcome (option StorageUploadResult) :=
  match last tr with
  | Some t =>
      match attempt_outcome t with
      | Return r => Return (Some r)
      | Throw e => Throw (allFailed e)
      end
  | None => Return None
  end.

(** The attempt threw. *)
Definition threw (t : Attempt) : bool :=
  match attempt_outcome t with Throw _ => true | Return _ => false end.

(** The storage side of an upload of [file] in state [s] does not fail:
    the adapter at the cursor takes the file. *)
Definition takesUpload file s : bool :=
  match adapterList s !! currentAdapterIndex s with
  | Some a =>
      match fst (upload a file (Some (originalname file)) (world s)) with
      | Return _ => true
      | Throw _ => false
      end
  | None => false
  end.

(** The providers after the adapters at [positions] of the list have
    taken the [files], one each, in this order. *)
Fixpoint served (l : list (CloudStorageAdapter W)) (positions : list nat)
    (files : list MulterFile) (w : W) : W :=
  match positions, files with
  | p :: positions', file :: files' =>
      match l !! p with
      | Some a => served l positions' files' (snd (upload a file (Some (originalname file)) w))
      | None => w
      end
  | _, _ => w
  end.

(** What a run of the loop leaves: [n] attempts were made. *)
Definition afterAttempts s (n : nat) (w' : W) : State W :=
  mkState (adapters s) (adapterList s)
    (cursorAfter (length (adapterList s)) (currentAdapterIndex s) n) w' (db s) (txdb s)
    (events s ++ map AdapterUpload
                   (cursorTrace (length (adapterList s)) (currentAdapterIndex s) n)).
End Vocabulary.

(** Uploads one after the other. *)
Fixpoint uploadFiles {JS : JsRuntime} {PS : PrismaSchema} {W : Type} (Date_now : W -> Z)
    (uploads : list (UploadFileRequestDto * MulterFile)) (s : State W) : State W :=
  match uploads with
  | [] => s
  | (dto, file) :: rest => uploadFiles Date_now rest (snd (uploadFile Date_now dto file s))
  end.

(** None of the uploads, run one after the other from [s], fails on the
    storage side. *)
Fixpoint noFailures {JS : JsRuntime} {PS : PrismaSchema} {W : Type} (Date_now : W -> Z)
    (uploads : list (UploadFileRequestDto * MulterFile)) (s : State W) : bool :=
  match uploads with
  | [] => true
  | (dto, file) :: rest =>
      takesUpload file s && noFailures Date_now rest (snd (uploadFile Date_now dto file s))
  end.

(** [s'] has the registry, the providers and the upload attempts of [s]. *)
Definition registryEq {W : Type} (s s' : State W) : Prop :=
  adapters s' = adapters s /\ adapterList s' = adapterList s
  /\ currentAdapterIndex s' = currentAdapterIndex s /\ world s' = world s
  /\ uploadPositions (events s') = uploadPositions (events s).

(** A computation that only talks to the metadata store. *)
Definition metadataOnly {W A : Type} (m : M (State W) A) : Prop :=
  forall s, registryEq s (snd (m s)).

(** The error [uploadFile] throws for whatever its transaction caught. *)
Definition transactionFailed (error : Thrown) : Thrown :=
  StorageError "Failed to complete file upload transaction" DATABASE_ERROR (Some error).

(** The error [downloadFile] throws for whatever its [try] block caught. *)
Definition downloadFailed (error : Thrown) : Thrown :=
  StorageError "Failed to download file" DOWNLOAD_FAILED (Some error).

Definition fileNotFound : Thrown := StorageError "File not found" FILE_NOT_FOUND None.

Definition providerNotAvailable (storageType : option string) : Thrown :=
  StorageError ("Storage provider not available for type: " +:+ tagText storageType)
    VALIDATION_FAILED None.

(** The adapter calls among the events. *)
Definition adapterCalls (l : list Event) : list Event := List.filter isAdapterCall l.

(** The state [downloadFile] leaves once the access counter is written:
    the counter of the File is incremented and the update is on record. *)
Definition counted {W} (id : nat) (s : State W) : State W :=
  mkState (adapters s) (adapterList s) (currentAdapterIndex s) (world s)
    (set_files
       (Prisma.updateFileRow id (fun f => set_accessCount (file_accessCount f + 1) f)
          (files (db s))) (db s))
    None (events s ++ [FileUpdate TxClient id]).

(** ... and once the adapter's [download] has run, leaving the providers
    in [w']. *)
Definition downloaded {W} (id : nat) (tag : option string) (key : string) (w' : W)
    (s : State W) : State W :=
  mkState (adapters s) (adapterList s) (currentAdapterIndex s) w'
    (db (counted id s)) None
    (events (counted id s) ++ [AdapterDownload (tagText tag) key]).

(** The provider side of a permanent delete of a File whose StorageInfo is
    [osi]: the adapter call on record and the providers afterwards.  The
    adapter is the one registered under the stored provider tag; without
    it nothing is called. *)
Definition providerDeletion {W} (s : State W) (osi : option StorageInfo) : list Event * W :=
  match osi, adapters_get (osi ≫= si_storageType) s with
  | Some si, Some a =>
      ([AdapterDelete (tagText (si_storageType si)) (si_storageFileId si)],
       snd (delete a (si_storageFileId si) (world s)))
  | _, _ => ([], world s)
  end.

(** The state a [deleteFile] leaves: providers [w'], metadata store [d'],
    new events [evs]. *)
Definition deleted {W} (s : State W) (w' : W) (d' : Db) (evs : list Event) : State W :=
  mkState (adapters s) (adapterList s) (currentAdapterIndex s) w' d' None (events s ++ evs).

(** The requests a [getPublicUrl] that finds nothing usable in the cache
    makes before the signing request: the Google class first asks whether
    the object exists. *)
Definition probeCalls (this : Adapters.AdapterObject) (id : string) : list Adapters.SdkCall :=
  match Adapters.class this with
  | Adapters.GoogleCloudStorageAdapter =>
      [Adapters.mkSdkCall Adapters.GoogleCloudStorageAdapter Adapters.Exists id]
  | _ => []
  end.

(** The number of signing requests made so far. *)
Definition signingRequests (w : Adapters.World) : nat :=
  length (List.filter Adapters.isSign (Adapters.history w)).

(** ** Sample environments

    Concrete instances of the parameters, for the examples: a runtime that
    agrees with JavaScript on the strings and dates used below, a schema,
    provider SDKs that are up or down, and services configured from them. *)

Module Sample.

Definition digitOf (c : Ascii.ascii) : option Z :=
  let n := Ascii.nat_of_ascii c in
  if (48 <=? n)%nat && (n <=? 57)%nat then Some (Z.of_nat (n - 48)) else None.

Fixpoint digitsValue (s : string) (acc : Z) : option Z :=
  match s with
  | EmptyString => Some acc
  | String c s' =>
      match digitOf c with
      | Some d => digitsValue s' (acc * 10 + d)
      | None => None
      end
  end.

(** [+s] for a string of decimal digits, and NaN for a word and for
    [undefined]. *)
Definition sampleToNumber (s : option string) : JsNumber :=
  match s with
  | None => NaN
  | Some s => match digitsValue s 0 with Some z => Int z | None => NaN end
  end.

Definition sampleNumToString (n : JsNumber) : string :=
  match n with
  | Int z => DecimalString.NilZero.string_of_int (Z.to_int z)
  | NaN => "NaN"
  | Frac _ => "?"
  | Infinity neg => if neg then "-Infinity" else "Infinity"
  end.

(** Dates are taken in January 1970; the provider names are in lower case
    without white space. *)
#[global] Instance runtime : JsRuntime := {|
  toNumber := sampleToNumber;
  numToString := sampleNumToString;
  getFullYear := fun _ => 1970;
  getMonth := fun _ => 0;
  trim := fun s => s;
  toLowerCase := fun s => s;
|}.

(** A schema whose [StorageInfo.storageType] is a required column. *)
#[global] Instance schema : PrismaSchema := {|
  acceptsFile := fun _ => true;
  acceptsStorageInfo := fun d => match sici_storageType d with Some _ => true | None => false end;
  accessCount_default := 0;
  onDeleteCascade := true;
|}.

(** A schema that accepts every row. *)
Definition laxSchema : PrismaSchema := {|
  acceptsFile := fun _ => true;
  acceptsStorageInfo := fun _ => true;
  accessCount_default := 0;
  onDeleteCascade := true;
|}.

(** Every variable is set; the Azure connection string is an account
    connection string. *)
Definition env (name : string) : option string :=
  if String.eqb name "AZURE_STORAGE_CONNECTION_STRING"
  then Some ("DefaultEndpointsProtocol=https;AccountName=life4cut;AccountKey=c2VjcmV0;"
             +:+ "EndpointSuffix=core.windows.net")
  else Some "configured".

(** The SDK clients: the Azure one reads its connection string, the
    others take their setting as it is. *)
Definition sampleClient (c : Adapters.AdapterClass) (setting : string) : Outcome unit :=
  match c with
  | Adapters.AzureBlobStorageAdapter =>
      if startsWith "DefaultEndpointsProtocol=" setting then Return tt
      else Throw (JsValue ("Error: Connection string must be either an Account connection "
                           +:+ "string or a SAS connection string"))
  | _ => Return tt
  end.

Definition unavailable : Thrown := SdkError "Service Unavailable" (Some 503) None.

Definition properties : Adapters.ObjectProperties :=
  Adapters.mkObjectProperties (Some "9b2cf535f27731c974343645a3985328") (Some 3)
    (Some "image/jpeg") (Some "mYwU4fJ3McvrNDRkWjmFMw==") None None None None.

(** Every request succeeds after 5 ms; a signed URL names the object and
    the moment of the request. *)
Definition sdkUp : Adapters.Sdk := {|
  Adapters.client := sampleClient;
  Adapters.answer_unit := fun _ _ => Return tt;
  Adapters.answer_bool := fun _ _ => Return true;
  Adapters.answer_url := fun h c =>
    Return ("https://signed.example/" +:+ Adapters.call_key c +:+ "?n="
              +:+ sampleNumToString (Int (Z.of_nat (length h))));
  Adapters.answer_properties := fun _ _ => Return properties;
  Adapters.answer_stream := fun _ _ => Return [];
  Adapters.elapsed := fun _ _ => 5%nat;
|}.

(** Every request fails. *)
Definition sdkDown : Adapters.Sdk := {|
  Adapters.client := sampleClient;
  Adapters.answer_unit := fun _ _ => Throw unavailable;
  Adapters.answer_bool := fun _ _ => Throw unavailable;
  Adapters.answer_url := fun _ _ => Throw unavailable;
  Adapters.answer_properties := fun _ _ => Throw unavailable;
  Adapters.answer_stream := fun _ _ => Throw unavailable;
  Adapters.elapsed := fun _ _ => 5%nat;
|}.

Definition isAws (c : Adapters.SdkCall) : bool :=
  match Adapters.call_class c with Adapters.AwsS3Adapter => true | _ => false end.

(** S3 is down, the other providers are up. *)
Definition sdkAwsDown : Adapters.Sdk := {|
  Adapters.client := sampleClient;
  Adapters.answer_unit := fun h c =>
    if isAws c then Throw unavailable else Adapters.answer_unit sdkUp h c;
  Adapters.answer_bool := fun h c =>
    if isAws c then Throw unavailable else Adapters.answer_bool sdkUp h c;
  Adapters.answer_url := fun h c =>
    if isAws c then Throw unavailable else Adapters.answer_url sdkUp h c;
  Adapters.answer_properties := fun h c =>
    if isAws c then Throw unavailable else Adapters.answer_properties sdkUp h c;
  Adapters.answer_stream := fun h c =>
    if isAws c then Throw unavailable else Adapters.answer_stream sdkUp h c;
  Adapters.elapsed := fun _ _ => 5%nat;
|}.

(** The metadata store answers after 7 ms. *)
Definition Date_later (w : Adapters.World) : Z := Adapters.clock w + 7.

Definition world0 : Adapters.World := Adapters.mkWorld 1000000000 [] ∅.

Definition db0 : Db := mkDb [] [] [mkBranch "branch1" "seoul"] 0.

(** A File uploaded earlier, bound to the provider of the given tag. *)
Definition storedFile : File :=
  mkFile 0 "2024_3_seoul_a.jpg" "IMAGE" "COMPLETE" "image/jpeg" 3
    "9b2cf535f27731c974343645a3985328" None None None None None 2024 3 "branch1" 0
    1000000000 1000000000 None.

Definition storedInfo (tag : string) : StorageInfo :=
  mkStorageInfo 1 0 (Some tag) "2024_3_seoul_a.jpg"
    (Some "https://signed.example/2024_3_seoul_a.jpg?n=2") None true.

Definition dbStored (tag : string) : Db :=
  mkDb [storedFile] [storedInfo tag] [mkBranch "branch1" "seoul"] 2.

(** The same File next to one that was soft-deleted. *)
Definition deletedFile : File :=
  mkFile 2 "2024_3_seoul_b.jpg" "IMAGE" "COMPLETE" "image/jpeg" 3
    "0cc175b9c0f1b6a831c399e269772661" None None None None None 2024 3 "branch1" 0
    1000000100 1000000200 (Some 1000000200).

Definition dbTwo : Db :=
  mkDb [storedFile; deletedFile]
       [storedInfo "azure";
        mkStorageInfo 3 2 (Some "azure") "2024_3_seoul_b.jpg" None None false]
       [mkBranch "branch1" "seoul"] 4.

(** The service after [initializeAdapters] with the given providers, over
    the given metadata store. *)
Definition serviceOver (d : Db) (sdk : Adapters.Sdk) (providers : list string)
    : State Adapters.World :=
  snd (Adapters.initializeAdapters sdk env providers (Adapters.newService world0 d)).

Definition service := serviceOver db0.

Definition photo : MulterFile :=
  mkMulterFile "2024_3_seoul_a.jpg" "image/jpeg" 3 [].

Definition request : UploadFileRequestDto := mkUploadFileRequestDto "2024/3/seoul/a.jpg" "branch1".

End Sample.
(** ** Further vocabulary: what a computation keeps and what it throws *)

(** Every value the computation throws satisfies [P]. *)
Definition throwsOnly {S A : Type} (P : Thrown -> Prop) (m : M S A) : Prop :=
  forall s e s', m s = (Throw e, s') -> P e.

(** The computation leaves the component [proj] of the state as it was;
    ... at least when it throws. *)
Definition keeps {S A X : Type} (proj : S -> X) (m : M S A) : Prop :=
  forall s, proj (snd (m s)) = proj s.
Definition keepsOnThrow {S A X : Type} (proj : S -> X) (m : M S A) : Prop :=
  forall s e s', m s = (Throw e, s') -> proj s' = proj s.

Definition neverThrows {S A : Type} (m : M S A) : Prop :=
  forall s, thrown (fst (m s)) = None.

Definition hasCode (c : StorageErrorCode) (e : Thrown) : Prop := codeOf e = Some c.

(** ** More of the provider classes: [ensureBlobExists] and [getFileHash] *)

Module Hashing.
Import Adapters.
Section Classes.
Variable sdk : Sdk.

(** [ensureBlobExists] of the Azure class: its own [catch] receives the
    FILE_NOT_FOUND thrown in its [try]. *)
Definition ensureBlobExists (blobName : string) : M World unit :=
  try_catch
    (do ex <- request sdk answer_bool (mkSdkCall AzureBlobStorageAdapter Exists blobName);
     if ex then ret tt
     else throw (StorageError ("Blob not found: " +:+ blobName) FILE_NOT_FOUND None))
    (fun error =>
       throw (failed AzureBlobStorageAdapter "Failed to check blob existence"
                VALIDATION_FAILED error)).

(** [getFileHash] *)
Definition getFileHash (this : AdapterObject) (storageFileId : string) : M World string :=
  match class this with
  | AwsS3Adapter =>
      try_catch
        (do response <- request sdk answer_properties (mkSdkCall AwsS3Adapter Head storageFileId);
         match nonEmpty (etag response) with
         | None => throw (StorageError "ETag not available for the file" VALIDATION_FAILED None)
         | Some ETag => ret (stripQuotes ETag)
         end)
        (fun error =>
           throw (failed AwsS3Adapter "Failed to retrieve file hash" VALIDATION_FAILED error))
  | GoogleCloudStorageAdapter =>
      try_catch
        (do_ ensureFileExists sdk this storageFileId;
         do metadata <-
           request sdk answer_properties
             (mkSdkCall GoogleCloudStorageAdapter Head storageFileId);
         match nonEmpty (md5Hash metadata) with
         | None => throw (StorageError "MD5 hash not available for the file"
                            VALIDATION_FAILED None)
         | Some md5Hash => ret md5Hash
         end)
        (fun error =>
           if isStorageError error then throw error
           else throw (failed GoogleCloudStorageAdapter "Failed to retrieve file hash"
                         VALIDATION_FAILED error))
  | AzureBlobStorageAdapter =>
      try_catch
        (do_ ensureBlobExists storageFileId;
         do properties <-
           request sdk answer_properties
             (mkSdkCall AzureBlobStorageAdapter Head storageFileId);
         match nonEmpty (etag properties) with
         | None => throw (StorageError "ETag not available for the blob" VALIDATION_FAILED None)
         | Some etag => ret (stripQuotes etag)
         end)
        (fun error =>
           throw (failed AzureBlobStorageAdapter "Failed to retrieve blob hash"
                    VALIDATION_FAILED error))
  end.
End Classes.
End Hashing.

(** The double-quote character. *)
Definition doubleQuote : Ascii.ascii := Ascii.ascii_of_nat 34.

(** How often a character occurs in a string. *)
Fixpoint countChar (c : Ascii.ascii) (s : string) : nat :=
  match s with
  | EmptyString => O
  | String c' s' => ((if Ascii.eqb c' c then 1 else 0) + countChar c s')%nat
  end.

(** The computation only adds to the requests made so far. *)
Definition addsRequests {A} (m : M Adapters.World A) : Prop :=
  forall w, exists l, Adapters.history (snd (m w)) = Adapters.history w ++ l.

(** The error of [ensureFileExists] for an absent object. *)
Definition fileNotFoundAt (id : string) : Thrown :=
  StorageError ("File not found: " +:+ id) FILE_NOT_FOUND None.

(** ** Vocabulary of the registry *)

(** The environment has what the factory and the constructor of the
    provider's class ask for, and the SDK client of the class can be
    built from its setting. *)
Definition configured (sdk : Adapters.Sdk) (env : string -> option string) (t : StorageType)
    : bool :=
  match t with
  | GOOGLE => Adapters.isSet env "GCP_CREDENTIALS" && Adapters.isSet env "GCP_BUCKET_NAME"
  | AWS => Adapters.isSet env "AWS_REGION" && Adapters.isSet env "AWS_BUCKET_NAME"
  | AZURE =>
      Adapters.isSet env "AZURE_STORAGE_CONNECTION_STRING"
      && Adapters.isSet env "AZURE_CONTAINER_NAME"
  end
  && match Adapters.client sdk (Adapters.classOf t)
             (default EmptyString (env (Adapters.clientSetting (Adapters.classOf t)))) with
     | Return _ => true
     | Throw _ => false
     end.

(** An entry of [ENABLED_CLOUD_PROVIDERS] that names a provider of the
    factory, whatever its case and the white space around it, whose
    environment is configured. *)
Definition usable {JS : JsRuntime} (sdk : Adapters.Sdk) (env : string -> option string)
    (provider : string) : Prop :=
  exists t, toLowerCase (trim provider) = StorageType_value t /\ configured sdk env t = true.

(** The registry part of the service state. *)
Definition registry {W} (s : State W)
    : gmap string (CloudStorageAdapter W) * list (CloudStorageAdapter W) * nat :=
  (adapters s, adapterList s, currentAdapterIndex s).

(** There is an adapter and the cursor points into the list. *)
Definition registryOk {W} (s : State W) : Prop :=
  (0 < length (adapterList s))%nat /\ (currentAdapterIndex s < length (adapterList s))%nat.

(** ** Vocabulary of the metadata store *)

(** What the relational schema guarantees of a store: ids are unique in
    both tables and below the id counter, a File has at most one
    StorageInfo, and every StorageInfo belongs to a File. *)
Definition wellFormed (d : Db) : Prop :=
  NoDup (map file_id (files d))
  /\ NoDup (map si_id (storageInfos d))
  /\ NoDup (map si_fileId (storageInfos d))
  /\ Forall (fun i => (i < nextId d)%nat) (map file_id (files d))
  /\ Forall (fun i => (i < nextId d)%nat) (map si_id (storageInfos d))
  /\ incl (map si_fileId (storageInfos d)) (map file_id (files d)).

(** The committed store and the working copy of an open transaction are
    well-formed. *)
Definition storeOk {W} (s : State W) : Prop :=
  wellFormed (db s) /\ forall t, txdb s = Some t -> wellFormed t.

(** The computation keeps the store well-formed. *)
Definition keepsStore {W A} (m : M (State W) A) : Prop :=
  forall s, storeOk s -> storeOk (snd (m s)).

(** The Prisma operation keeps a store well-formed. *)
Definition keepsWellFormed {A} (op : M Db A) : Prop :=
  forall d o d', op d = (o, d') -> wellFormed d -> wellFormed d'.

(** The computation leaves no transaction open. *)
Definition closes {W A} (m : M (State W) A) : Prop :=
  forall s, txdb s = None -> txdb (snd (m s)) = None.

(** ** Vocabulary of the listing *)

(** All the entries a [listFiles] request selects, newest first: what the
    pages are cut from. *)
Definition listing {JS : JsRuntime} {PS : PrismaSchema} (dto : ListFilesRequestDto) (d : Db)
    : list FileInfoDto :=
  map (fun r => mapToFileInfoDto (fst r) (snd r))
    (Prisma.orderByCreatedAtDesc (Prisma.selectFiles (listFiles_where dto) d)).

(** The request for another page of the same listing. *)
Definition withPage (page : Z) (dto : ListFilesRequestDto) : ListFilesRequestDto :=
  mkListFilesRequestDto (list_prefix dto) (Some page) (list_limit dto) (list_branchId dto).

(** The entries [listFiles] returns for a page; none when it throws. *)
Definition pageOf {JS : JsRuntime} {PS : PrismaSchema} {W : Type}
    (dto : ListFilesRequestDto) (s : State W) (page : Z) : list FileInfoDto :=
  match fst (listFiles (withPage page dto) s) with
  | Return r => lresp_files r
  | Throw _ => []
  end.

(** Rows in the order of [orderBy: { createdAt: 'desc' }]: no row is
    older than a row after it. *)
Fixpoint newestFirst (l : list (File * option StorageInfo)) : Prop :=
  match l with
  | [] => True
  | x :: l' =>
      Forall (fun y => file_createdAt (fst y) <= file_createdAt (fst x)) l' /\ newestFirst l'
  end.

(** ** Vocabulary of paths and names *)

(** [parts.join(sep)] *)
Fixpoint join (sep : Ascii.ascii) (parts : list string) : string :=
  match parts with
  | [] => EmptyString
  | [p] => p
  | p :: rest => p +:+ String sep (join sep rest)
  end.

(** The error of a path that does not have four segments. *)
Definition invalidStructure : Thrown :=
  HttpException "Invalid file URL structure. Expected format: /year/month/branchName/filename"
    HttpStatus_BAD_REQUEST.
(** ** The services and controllers in front of [StorageService] *)

(** [SharedStorageType] of adapter-types.ts. *)
Module SharedStorageType.
Inductive t := AWS | GOOGLE | AZURE | LOCAL.

Definition value (x : t) : string :=
  match x with
  | AWS => "AWS"
  | GOOGLE => "GOOGLE"
  | AZURE => "AZURE"
  | LOCAL => "LOCAL"
  end.
End SharedStorageType.

(** [StorageType] of @prisma/client, as file.service.ts uses it: the four
    members its [switch] names.  The generated client gives an enum member
    its name as value; a StorageInfo read from the store has such a value,
    or [null]. *)
Module PrismaStorageType.
Inductive t := AWS | GOOGLE | AZURE | LOCAL.

Definition value (x : t) : string :=
  match x with
  | AWS => "AWS"
  | GOOGLE => "GOOGLE"
  | AZURE => "AZURE"
  | LOCAL => "LOCAL"
  end.
End PrismaStorageType.

Definition HttpStatus_INTERNAL_SERVER_ERROR : Z := 500.

(** The member names of the [StorageType] enum of the factory, and
    [StorageType[key]]: a string enum has no reverse mapping, the object
    has its member names as keys. *)
Definition StorageType_name (t : StorageType) : string :=
  match t with
  | GOOGLE => "GOOGLE"
  | AWS => "AWS"
  | AZURE => "AZURE"
  end.

Definition StorageType_at (key : string) : option string :=
  StorageType_value <$> find (fun t => String.eqb (StorageType_name t) key) [GOOGLE; AWS; AZURE].

(** What a controller has written to the HTTP response. *)
Record HttpResponse := mkHttpResponse {
  headers : list (string * string);
  body : ReadableStream;
}.

Definition quoted (s : string) : string :=
  String doubleQuote EmptyString +:+ s +:+ String doubleQuote EmptyString.

Module FileStorageService.
Section FileStorageService.
Context {JS : JsRuntime} {PS : PrismaSchema} {W : Type}.

(** [mapToStorageType] *)
Definition mapToStorageType (type : SharedStorageType.t) : option string :=
  StorageType_at (SharedStorageType.value type).

Definition downloadFile (fileId : nat) (storageType : SharedStorageType.t)
    : M (State W) DownloadResult :=
  downloadFile fileId (mapToStorageType storageType).
End FileStorageService.
End FileStorageService.

Module FileService.
Section FileService.
Context {JS : JsRuntime} {PS : PrismaSchema} {W : Type}.

(** [mapPrismaToSharedStorageType], on the value read from the store. *)
Definition mapPrismaToSharedStorageType (type : option string) : Outcome SharedStorageType.t :=
  match type with
  | Some type =>
      if String.eqb type (PrismaStorageType.value PrismaStorageType.AWS)
      then Return SharedStorageType.AWS
      else if String.eqb type (PrismaStorageType.value PrismaStorageType.GOOGLE)
      then Return SharedStorageType.GOOGLE
      else if String.eqb type (PrismaStorageType.value PrismaStorageType.AZURE)
      then Return SharedStorageType.AZURE
      else if String.eqb type (PrismaStorageType.value PrismaStorageType.LOCAL)
      then Return SharedStorageType.LOCAL
      else Throw (HttpException ("Unsupported storage type: " +:+ type) HttpStatus_BAD_REQUEST)
  | None => Throw (HttpException "Unsupported storage type: null" HttpStatus_BAD_REQUEST)
  end.

(** [downloadFile] *)
Definition downloadFile (storageFileId : nat) : M (State W) DownloadResult :=
  do fileWithStorage <- query RootClient (Prisma.file_findById storageFileId);
  match fileWithStorage with
  | None | Some (_, None) => throw (HttpException "File not found" HttpStatus_NOT_FOUND)
  | Some (_, Some storageInfo) =>
      match mapPrismaToSharedStorageType (si_storageType storageInfo) with
      | Throw error => throw error
      | Return storageType => FileStorageService.downloadFile storageFileId storageType
      end
  end.
End FileService.
End FileService.

Module StorageController.
Section StorageController.
Context {JS : JsRuntime} {PS : PrismaSchema} {W : Type}.
Variable Date_now : W -> Z.
Variable Date_later : W -> Z.
(** [encodeURIComponent] *)
Variable encodeURIComponent : string -> string.

(** [deleteFile]: the request it builds has no [permanent]. *)
Definition deleteFile (id : nat) : M (State W) DeleteFileResponseDto :=
  deleteFile Date_now Date_later (mkDeleteFileRequestDto id None).

(** [downloadFile]: [ParseEnumPipe] lets the values of [StorageType]
    through. *)
Definition downloadFile (id : nat) (provider : StorageType) : M (State W) HttpResponse :=
  try_catch
    (do r <- downloadFile id (Some (StorageType_value provider));
     ret (mkHttpResponse
            [("Content-Type", dl_mimetype r);
             ("Content-Disposition",
              "attachment; filename=" +:+ quoted (encodeURIComponent (dl_filename r)))]
            (dl_stream r)))
    (fun error =>
       throw (HttpException
                (default "Download failed" (Adapters.nonEmpty (Adapters.messageOf error)))
                (match codeOf error with
                 | Some FILE_NOT_FOUND => HttpStatus_NOT_FOUND
                 | _ => HttpStatus_INTERNAL_SERVER_ERROR
                 end))).
End StorageController.
End StorageController.
(** ** Further sample values *)

Module Fixture.

(** A world in which the Google adapter object 0 holds a signed URL. *)
Definition cachedWorld : Adapters.World :=
  snd (Adapters.getPublicUrl Sample.sdkUp
         (Adapters.mkAdapterObject Adapters.GoogleCloudStorageAdapter 0)
         "2024_3_seoul_a.jpg" None Sample.world0).

(** A service with the Azure adapter over the store that holds the sample
    File, and one with the three providers over the empty store. *)
Definition azureService : State Adapters.World :=
  Sample.serviceOver (Sample.dbStored "azure") Sample.sdkUp ["azure"].

Definition emptyService : State Adapters.World :=
  Sample.service Sample.sdkUp ["google"; "aws"; "azure"].

Definition azureAdapter : CloudStorageAdapter Adapters.World :=
  Adapters.asAdapter Sample.sdkUp Sample.env
    (Adapters.mkAdapterObject Adapters.AzureBlobStorageAdapter 0).

(** The first page of ten of the files of the sample branch. *)
Definition firstPage : ListFilesRequestDto :=
  mkListFilesRequestDto None (Some 1) (Some 10) (Some "branch1").

(** A runtime whose [trim] and [toLowerCase] know the spelling " Azure". *)
Definition trimming : JsRuntime := {|
  toNumber := Sample.sampleToNumber;
  numToString := Sample.sampleNumToString;
  getFullYear := fun _ => 1970;
  getMonth := fun _ => 0;
  trim := fun s => if String.eqb s " Azure" then "Azure" else s;
  toLowerCase := fun s => if String.eqb s "Azure" then "azure" else s;
|}.

(** Two files of the sample branch, the second one uploaded later. *)
Definition newerFile : File :=
  mkFile 2 "2024_3_seoul_c.jpg" "IMAGE" "COMPLETE" "image/jpeg" 3
    "92eb5ffee6ae2fec3ad71c777531578f" None None None None None 2024 3 "branch1" 0
    1000000500 1000000500 None.

Definition twoFiles : Db :=
  mkDb [Sample.storedFile; newerFile]
       [Sample.storedInfo "azure";
        mkStorageInfo 3 2 (Some "azure") "2024_3_seoul_c.jpg" None None true]
       [mkBranch "branch1" "seoul"] 4.

Definition twoFilesService : State Adapters.World :=
  Sample.serviceOver twoFiles Sample.sdkUp ["azure"].

(** One entry per page. *)
Definition singles : ListFilesRequestDto :=
  mkListFilesRequestDto None (Some 1) (Some 1) (Some "branch1").

(** A service with the Google adapter over the empty store, of a schema
    that accepts every row. *)
Definition googleService : State Adapters.World :=
  Sample.service Sample.sdkUp ["google"].

Definition googleAdapter : CloudStorageAdapter Adapters.World :=
  Adapters.asAdapter Sample.sdkUp Sample.env
    (Adapters.mkAdapterObject Adapters.GoogleCloudStorageAdapter 0).

(** An environment whose Azure connection string is not one. *)
Definition malformed (name : string) : option string := Some "configured".

End Fixture.

(** * Facts *)

(** ** Round robin *)

Section RoundRobin.
Local Open Scope nat_scope.

Lemma advance_lt N c : 0 < N -> advance N c < N.
Proof. intros. unfold advance. apply Nat.mod_upper_bound. lia. Qed.

Lemma cursorTrace_length N c n : length (cursorTrace N c n) = n.
Proof. revert c. induction n; intros; simpl; auto. Qed.

Lemma cursorAfter_lt N c n : 0 < N -> c < N -> cursorAfter N c n < N.
Proof.
  intros HN. revert c. induction n; intros c Hc; simpl; auto.
  apply IHn. now apply advance_lt.
Qed.

Lemma cursorAfter_mod N c n : c < N -> cursorAfter N c n = (c + n) mod N.
Proof.
  revert c. induction n; intros c Hc; simpl.
  - rewrite Nat.add_0_r. symmetry. now apply Nat.mod_small.
  - rewrite IHn by (apply advance_lt; lia). unfold advance.
    rewrite Nat.Div0.add_mod_idemp_l. f_equal. lia.
Qed.

Lemma cursorTrace_cyclic N c n :
  c < N -> cursorTrace N c n = map (fun k => (c + k) mod N) (seq 0 n).
Proof.
  revert c. induction n; intros c Hc; simpl; auto.
  f_equal.
  - rewrite Nat.add_0_r. symmetry. now apply Nat.mod_small.
  - rewrite IHn by (apply advance_lt; lia).
    rewrite <- seq_shift, map_map. apply map_ext. intros k. unfold advance.
    rewrite Nat.Div0.add_mod_idemp_l. f_equal. lia.
Qed.

Lemma cursorTrace_app N c a b :
  cursorTrace N c (a + b) = cursorTrace N c a ++ cursorTrace N (cursorAfter N c a) b.
Proof. revert c. induction a; intros c; simpl; auto. now rewrite IHa. Qed.

Lemma cursorAfter_add N c a b :
  cursorAfter N c (a + b) = cursorAfter N (cursorAfter N c a) b.
Proof. revert c. induction a; intros c; simpl; auto. Qed.

Lemma cursorTrace_small N c m : c + m <= N -> cursorTrace N c m = seq c m.
Proof.
  revert c. induction m; intros c Hc; simpl; auto.
  f_equal. destruct m; [reflexivity|].
  unfold advance. rewrite Nat.mod_small by lia.
  rewrite IHm by lia. f_equal. lia.
Qed.

Lemma cursorTrace_window N c :
  c < N -> cursorTrace N c N = seq c (N - c) ++ seq 0 c.
Proof.
  intros Hc. replace N with ((N - c) + c) at 2 by lia.
  rewrite cursorTrace_app, cursorTrace_small by lia. f_equal.
  rewrite cursorAfter_mod by lia.
  replace (c + (N - c)) with N by lia. rewrite Nat.Div0.mod_same.
  apply cursorTrace_small. lia.
Qed.

Lemma cursorAfter_window N c : c < N -> cursorAfter N c N = c.
Proof.
  intros Hc. rewrite cursorAfter_mod by lia.
  replace (c + N) with (c + 1 * N) by lia.
  rewrite Nat.Div0.mod_add. now apply Nat.mod_small.
Qed.

Lemma uses_app j l1 l2 : uses j (l1 ++ l2) = uses j l1 + uses j l2.
Proof. apply count_occ_app. Qed.

Lemma uses_seq j a n :
  uses j (seq a n) = if (a <=? j) && (j <? a + n) then 1 else 0.
Proof.
  unfold uses. revert a. induction n; intros a; cbn [seq count_occ].
  - destruct (Nat.leb_spec a j), (Nat.ltb_spec j (a + 0)); simpl; lia.
  - rewrite IHn.
    destruct (Nat.eq_dec a j) as [Heq|Hne];
      destruct (Nat.leb_spec (S a) j), (Nat.ltb_spec j (S a + n)),
               (Nat.leb_spec a j), (Nat.ltb_spec j (a + S n));
      simpl; lia.
Qed.

Lemma uses_window N c j : c < N -> j < N -> uses j (cursorTrace N c N) = 1.
Proof.
  intros Hc Hj. rewrite cursorTrace_window, uses_app, !uses_seq by lia.
  destruct (c <=? j) eqn:E1; simpl.
  - apply Nat.leb_le in E1.
    replace (j <? c + (N - c)) with true by (symmetry; apply Nat.ltb_lt; lia).
    replace (j <? c) with false by (symmetry; apply Nat.ltb_ge; lia). reflexivity.
  - apply Nat.leb_gt in E1.
    replace (j <? c) with true by (symmetry; apply Nat.ltb_lt; lia). reflexivity.
Qed.

Lemma uses_periods N c j q r :
  c < N -> j < N ->
  uses j (cursorTrace N c (q * N + r)) = q + uses j (cursorTrace N c r).
Proof.
  intros Hc Hj. induction q; simpl; auto.
  replace (N + q * N + r) with (N + (q * N + r)) by lia.
  rewrite cursorTrace_app, uses_app, uses_window, cursorAfter_window by lia.
  rewrite IHq. lia.
Qed.

Lemma uses_partial N c j r :
  c < N -> j < N -> r <= N -> uses j (cursorTrace N c r) <= 1.
Proof.
  intros Hc Hj Hr.
  pose proof (uses_window N c j Hc Hj) as Hw.
  replace N with (r + (N - r)) in Hw at 2 by lia.
  rewrite cursorTrace_app, uses_app in Hw. lia.
Qed.

Lemma ceilDivNat_exact K N : 0 < N -> K mod N = 0 -> ceilDivNat K N = K / N.
Proof.
  intros HN Hm. unfold ceilDivNat.
  pose proof (Nat.div_mod_eq K N) as E. rewrite Hm in E.
  symmetry. apply Nat.div_unique with (r := N - 1); lia.
Qed.

Lemma ceilDivNat_inexact K N : 0 < N -> K mod N <> 0 -> ceilDivNat K N = K / N + 1.
Proof.
  intros HN Hm. unfold ceilDivNat.
  pose proof (Nat.div_mod_eq K N) as E.
  pose proof (Nat.mod_upper_bound K N ltac:(lia)) as B.
  symmetry. apply Nat.div_unique with (r := K mod N - 1); lia.
Qed.

(** Over [K] consecutive cursor positions every index below [N] occurs
    floor(K/N) or ceil(K/N) times. *)
Lemma uses_fair N c j K :
  c < N -> j < N ->
  uses j (cursorTrace N c K) = K / N \/ uses j (cursorTrace N c K) = ceilDivNat K N.
Proof.
  intros Hc Hj.
  pose proof (Nat.div_mod_eq K N) as E.
  pose proof (Nat.mod_upper_bound K N ltac:(lia)) as B.
  assert (Hu : uses j (cursorTrace N c K) = K / N + uses j (cursorTrace N c (K mod N))).
  { rewrite E at 1. rewrite (Nat.mul_comm N). now apply uses_periods. }
  destruct (Nat.eq_dec (K mod N) 0) as [Hz|Hnz].
  - left. rewrite Hu, Hz. simpl. unfold uses. simpl. lia.
  - pose proof (uses_partial N c j (K mod N) Hc Hj ltac:(lia)).
    rewrite ceilDivNat_inexact by lia. lia.
Qed.
End RoundRobin.

(** ** The upload loop *)

Section UploadLoop.
Context {W : Type}.
Implicit Types (s : State W) (a : CloudStorageAdapter W) (file : MulterFile).

Lemma uploadToStorage_loop_step file i rem s a :
  adapterList s !! currentAdapterIndex s = Some a ->
  uploadToStorage_loop file i (S rem) s =
    match upload a file (Some (originalname file)) (world s) with
    | (Return r, w') => (Return (Some r), attempted s w')
    | (Throw e, w') =>
        if Nat.eqb i (length (adapterList s) - 1) then (Throw (allFailed e), attempted s w')
        else uploadToStorage_loop file (S i) rem (attempted s w')
    end.
Proof.
  intros Ha. cbn [uploadToStorage_loop].
  unfold bind, get, getNextAdapter, log, try_catch, call, ret, throw,
    set_currentAdapterIndex, set_world, attempted, advance.
  cbn [adapterList currentAdapterIndex world adapters db txdb events].
  rewrite Ha.
  cbn [adapterList currentAdapterIndex world adapters db txdb events].
  destruct (upload a file (Some (originalname file)) (world s)) as [[r|e] w'];
    try reflexivity.
  destruct (Nat.eqb i (length (adapterList s) - 1)); reflexivity.
Qed.

Lemma afterAttempts_attempted s w1 n w' :
  afterAttempts (attempted s w1) n w' = afterAttempts s (S n) w'.
Proof.
  unfold afterAttempts, attempted. cbn. rewrite <- app_assoc. reflexivity.
Qed.

Lemma attempts_step file (l : list (CloudStorageAdapter W)) c n w a :
  l !! c = Some a ->
  attempts file l c (S n) w
  = match upload a file (Some (originalname file)) w with
    | (Return r, w') => [mkAttempt c (Return r) w']
    | (Throw e, w') =>
        mkAttempt c (Throw e) w' :: attempts file l (advance (length l) c) n w'
    end.
Proof.
  intros Ha. cbn [attempts]. rewrite Ha.
  destruct (upload a file (Some (originalname file)) w) as [[r|e] w']; reflexivity.
Qed.

Lemma last_cons_cons {A} (x y : A) l : last (x :: y :: l) = last (y :: l).
Proof. reflexivity. Qed.

Lemma resultOf_cons (x : Attempt (W := W)) tr :
  tr <> [] -> resultOf (x :: tr) = resultOf tr.
Proof. destruct tr; [congruence|]. intros _. unfold resultOf. now rewrite last_cons_cons. Qed.

Lemma providersAfter_cons w w1 (x : Attempt (W := W)) tr :
  tr <> [] -> providersAfter w (x :: tr) = providersAfter w1 tr.
Proof.
  destruct tr as [|y tr]; [congruence|]. intros _. unfold providersAfter.
  rewrite last_cons_cons.
  destruct (proj2 (last_is_Some (y :: tr)) ltac:(discriminate)) as [t ->]. reflexivity.
Qed.

(** The loop, run without interruption, makes the attempts of the
    specification. *)
Lemma uploadToStorage_loop_attempts file rem : forall i s,
  (0 < rem)%nat ->
  (i + rem = length (adapterList s))%nat ->
  (currentAdapterIndex s < length (adapterList s))%nat ->
  let tr := attempts file (adapterList s) (currentAdapterIndex s) rem (world s) in
  uploadToStorage_loop file i rem s
  = (resultOf tr, afterAttempts s (length tr) (providersAfter (world s) tr))
  /\ (1 <= length tr <= rem)%nat
  /\ map attempt_position tr
     = cursorTrace (length (adapterList s)) (currentAdapterIndex s) (length tr)
  /\ (forallb threw tr = true -> length tr = rem).
Proof.
  induction rem as [|rem IH]; intros i s Hrem Hlen Hc; [lia|]. cbv zeta.
  destruct (lookup_lt_is_Some_2 (adapterList s) (currentAdapterIndex s) Hc) as [a Ha].
  rewrite (uploadToStorage_loop_step file i rem s a Ha), (attempts_step file _ _ rem _ a Ha).
  destruct (upload a file (Some (originalname file)) (world s)) as [[r|e] w1] eqn:Hup.
  - split; [reflexivity|]. split; [cbn; lia|]. split; [reflexivity|]. discriminate.
  - destruct (Nat.eqb_spec i (length (adapterList s) - 1)) as [Hi|Hi].
    + assert (rem = 0)%nat as -> by lia. cbn [attempts].
      split; [reflexivity|]. split; [cbn; lia|]. split; reflexivity.
    + destruct (IH (S i) (attempted s w1)) as (Hrun & Hn & Hpos & Hall).
      * lia.
      * cbn. lia.
      * cbn. apply advance_lt. lia.
      * cbn [attempted adapterList currentAdapterIndex world] in Hrun, Hn, Hpos, Hall.
        set (tr := attempts file (adapterList s)
                     (advance (length (adapterList s)) (currentAdapterIndex s)) rem w1) in *.
        assert (Htr : tr <> []) by (destruct tr; [cbn in Hn; lia|discriminate]).
        rewrite Hrun, afterAttempts_attempted, resultOf_cons by exact Htr.
        rewrite (providersAfter_cons (world s) w1) by exact Htr.
        split; [reflexivity|]. split; [cbn [length]; lia|]. split.
        -- cbn [map length cursorTrace attempt_position]. now rewrite Hpos.
        -- cbn [forallb threw attempt_outcome andb length]. intros H. now rewrite Hall.
Qed.
End UploadLoop.

Section Failover.
Context {W : Type}.
Implicit Types (s : State W) (a : CloudStorageAdapter W) (file : MulterFile).

(** An upload that nothing interrupts makes the attempts of the
    specification: the outcome, the providers and the cursor are theirs. *)
Lemma uploadToStorage_attempts file s :
  (0 < length (adapterList s))%nat ->
  (currentAdapterIndex s < length (adapterList s))%nat ->
  let N := length (adapterList s) in
  let tr := attempts file (adapterList s) (currentAdapterIndex s) N (world s) in
  uploadToStorage file s
  = (resultOf tr, afterAttempts s (length tr) (providersAfter (world s) tr))
  /\ (1 <= length tr <= N)%nat
  /\ map attempt_position tr = cursorTrace N (currentAdapterIndex s) (length tr)
  /\ (forallb threw tr = true -> length tr = N).
Proof.
  intros HN Hc. unfold uploadToStorage, bind, get.
  apply uploadToStorage_loop_attempts; auto.
Qed.

Lemma afterAttempts_positions s m w1 :
  uploadPositions (events (afterAttempts s m w1))
  = uploadPositions (events s)
    ++ cursorTrace (length (adapterList s)) (currentAdapterIndex s) m.
Proof.
  unfold uploadPositions, afterAttempts. cbn [events].
  rewrite omap_app. f_equal.
  generalize (cursorTrace (length (adapterList s)) (currentAdapterIndex s) m).
  induction l as [|x l IHl]; cbn; [reflexivity|]. now rewrite IHl.
Qed.

(** When every attempt threw, the last one went to the adapter [N - 1]
    positions after the cursor, on the providers as the attempts before
    left them. *)
Lemma attempts_all_threw file (l : list (CloudStorageAdapter W)) n : forall c w,
  (c < length l)%nat ->
  let tr := attempts file l c (S n) w in
  forallb threw tr = true ->
  exists a e w',
    l !! cursorAfter (length l) c n = Some a
    /\ upload a file (Some (originalname file))
         (providersAfter w (attempts file l c n w)) = (Throw e, w')
    /\ forallb threw (attempts file l c n w) = true
    /\ last tr = Some (mkAttempt (cursorAfter (length l) c n) (Throw e) w')
    /\ length tr = S n.
Proof.
  induction n as [|n IH]; intros c w Hc; cbv zeta.
  - destruct (lookup_lt_is_Some_2 l c Hc) as [a Ha].
    rewrite (attempts_step file l c 0 w a Ha).
    destruct (upload a file (Some (originalname file)) w) as [[r|e] w1] eqn:Hup;
      [discriminate|]. intros _.
    exists a, e, w1. cbn. auto.
  - destruct (lookup_lt_is_Some_2 l c Hc) as [a Ha].
    rewrite (attempts_step file l c (S n) w a Ha), (attempts_step file l c n w a Ha).
    destruct (upload a file (Some (originalname file)) w) as [[r|e] w1] eqn:Hup;
      [discriminate|].
    cbn [forallb threw attempt_outcome andb]. intros Hall.
    destruct (IH (advance (length l) c) w1) as (a' & e' & w' & Ha' & Hup' & Hbefore & Hlast & Hlen);
      [apply advance_lt; lia|exact Hall|].
    exists a', e', w'. cbn [cursorAfter]. split; [exact Ha'|].
    set (tr := attempts file l (advance (length l) c) (S n) w1) in *.
    assert (Htr : tr <> []) by (destruct tr; [discriminate|discriminate]).
    split.
    + destruct (attempts file l (advance (length l) c) n w1) as [|x tr0] eqn:Htr0.
      * exact Hup'.
      * rewrite (providersAfter_cons w w1) by discriminate. exact Hup'.
    + split; [cbn [forallb threw attempt_outcome andb]; exact Hbefore|]. split.
      * destruct tr; [congruence|]. rewrite last_cons_cons. exact Hlast.
      * cbn [length]. now rewrite Hlen.
Qed.

(** ** Uploads that overlap *)

Lemma uploadToStorage_resumed_settled file n out s :
  uploadToStorage_resumed file n (Settled out) s = (Settled out, s).
Proof. induction n; cbn; auto. Qed.

Lemma uploadToStorage_enter_step i s a :
  (i < length (adapterList s))%nat ->
  adapterList s !! currentAdapterIndex s = Some a ->
  uploadToStorage_enter i s = (Awaiting i a, attempted s (world s)).
Proof.
  intros Hi Ha. unfold uploadToStorage_enter, getNextAdapter.
  apply Nat.ltb_lt in Hi. rewrite Hi, Ha. reflexivity.
Qed.

Ltac simpl_state :=
  cbn [attempted afterAttempts set_txdb set_db set_world set_currentAdapterIndex view
       txdb db adapters adapterList currentAdapterIndex world events fst snd].

Lemma uploadToStorage_resume_eq file i s a :
  uploadToStorage_resume file (Awaiting i a) s
  = match upload a file (Some (originalname file)) (world s) with
    | (Return r, w') => (Settled (Return (Some r)), set_world w' s)
    | (Throw e, w') =>
        if Nat.eqb i (length (adapterList s) - 1)
        then (Settled (Throw (allFailed e)), set_world w' s)
        else uploadToStorage_enter (S i) (set_world w' s)
    end.
Proof.
  cbn [uploadToStorage_resume]. unfold call.
  destruct (upload a file (Some (originalname file)) (world s)) as [[r|e] w']; reflexivity.
Qed.

Lemma uploadToStorage_resume_step file i s a :
  uploadToStorage_resume file (Awaiting i a) (attempted s (world s))
  = match upload a file (Some (originalname file)) (world s) with
    | (Return r, w') => (Settled (Return (Some r)), attempted s w')
    | (Throw e, w') =>
        if Nat.eqb i (length (adapterList s) - 1)
        then (Settled (Throw (allFailed e)), attempted s w')
        else uploadToStorage_enter (S i) (attempted s w')
    end.
Proof.
  cbn [uploadToStorage_resume]. unfold call. cbn [world attempted].
  destruct (upload a file (Some (originalname file)) (world s)) as [[r|e] w']; reflexivity.
Qed.

(** Resumed without another request in between, a call of
    [uploadToStorage] is the loop. *)
Lemma uploadToStorage_resumed_loop file rem : forall i s,
  (i + rem = length (adapterList s))%nat ->
  (let '(c, s1) := uploadToStorage_enter i s in uploadToStorage_resumed file rem c s1)
  = (Settled (fst (uploadToStorage_loop file i rem s)), snd (uploadToStorage_loop file i rem s)).
Proof.
  induction rem as [|rem IH]; intros i s Hlen.
  - unfold uploadToStorage_enter.
    replace (i <? length (adapterList s))%nat with false
      by (symmetry; apply Nat.ltb_ge; lia).
    reflexivity.
  - destruct (adapterList s !! currentAdapterIndex s) as [a|] eqn:Ha.
    + rewrite (uploadToStorage_enter_step i s a) by (lia || exact Ha).
      cbn [uploadToStorage_resumed].
      rewrite uploadToStorage_resume_step, (uploadToStorage_loop_step file i rem s a Ha).
      destruct (upload a file (Some (originalname file)) (world s)) as [[r|e] w'].
      * apply uploadToStorage_resumed_settled.
      * destruct (Nat.eqb i (length (adapterList s) - 1)).
        -- apply uploadToStorage_resumed_settled.
        -- apply IH. cbn. lia.
    + unfold uploadToStorage_enter, getNextAdapter.
      replace (i <? length (adapterList s))%nat with true
        by (symmetry; apply Nat.ltb_lt; lia).
      rewrite Ha. rewrite uploadToStorage_resumed_settled.
      cbn [uploadToStorage_loop]. unfold bind, get, getNextAdapter, throw. rewrite Ha.
      reflexivity.
Qed.

Lemma uploadToStorage_alone file s :
  (let '(c, s1) := uploadToStorage_enter 0 s in
   uploadToStorage_resumed file (length (adapterList s)) c s1)
  = (Settled (fst (uploadToStorage file s)), snd (uploadToStorage file s)).
Proof.
  unfold uploadToStorage, bind, get. now apply uploadToStorage_resumed_loop.
Qed.

(** C5, the defect.  The loop of [uploadToStorage] takes its adapters
    from the cursor that all uploads share, and other requests run while
    it waits for an upload.  With two adapters and the cursor at the
    first: a first upload takes the first adapter and waits; a second
    upload takes the second adapter, which moves the cursor back to the
    first; the first adapter fails, and the loop of the first upload takes
    the adapter the cursor gives it, the first one again.  When that fails
    as well, the first upload throws UPLOAD_FAILED, "All storage adapters
    failed", after two attempts on the first adapter and none on the
    second: the providers are as those two attempts left them.  The same
    upload, run alone from the same state, goes on to the second adapter
    after the first attempt. *)
Theorem overlapped_uploads_repeat_adapter file1 file2 s a0 a1 e1 w1 e2 w2 :
  adapterList s = [a0; a1] ->
  currentAdapterIndex s = 0%nat ->
  upload a0 file1 (Some (originalname file1)) (world s) = (Throw e1, w1) ->
  upload a0 file1 (Some (originalname file1)) w1 = (Throw e2, w2) ->
  (exists s',
     overlapped file1 file2 [false; false] s
     = (Settled (Throw (allFailed e2)), Awaiting 0 a1, s')
     /\ world s' = w2
     /\ uploadPositions (events s') = uploadPositions (events s) ++ [0; 1; 0]%nat)
  /\ attempts file1 (adapterList s) 0 2 (world s)
     = mkAttempt 0 (Throw e1) w1
         :: (let '(o, w') := upload a1 file1 (Some (originalname file1)) w1 in
             [mkAttempt 1 o w'])
  /\ uploadToStorage file1 s
     = (let tr := attempts file1 (adapterList s) 0 2 (world s) in
        (resultOf tr, afterAttempts s 2 (providersAfter (world s) tr))).
Proof.
  intros Hl Hc Hup1 Hup2.
  assert (Htr : attempts file1 (adapterList s) 0 2 (world s)
                = mkAttempt 0 (Throw e1) w1
                    :: (let '(o, w') := upload a1 file1 (Some (originalname file1)) w1 in
                        [mkAttempt 1 o w'])).
  { rewrite Hl, (attempts_step file1 [a0; a1] 0 1 (world s) a0 eq_refl), Hup1.
    rewrite (attempts_step file1 [a0; a1] (advance (length [a0; a1]) 0) 0 w1 a1 eq_refl).
    destruct (upload a1 file1 (Some (originalname file1)) w1) as [[r|e] w']; reflexivity. }
  split; [|split; [exact Htr|]].
  - assert (Ha0 : adapterList s !! currentAdapterIndex s = Some a0) by now rewrite Hl, Hc.
    unfold overlapped.
    rewrite (uploadToStorage_enter_step 0 s a0); [|rewrite Hl; cbn; lia|exact Ha0].
    rewrite (uploadToStorage_enter_step 0 (attempted s (world s)) a1);
      [|cbn; rewrite Hl; cbn; lia|cbn; rewrite Hl, Hc; reflexivity].
    cbn [overlapped_resumed]. rewrite uploadToStorage_resume_eq. simpl_state.
    rewrite Hup1, Hl. cbn [length Nat.sub Nat.eqb].
    rewrite (uploadToStorage_enter_step 1 _ a0);
      [|simpl_state; rewrite Hl; cbn; lia|simpl_state; rewrite Hl, Hc; reflexivity].
    rewrite uploadToStorage_resume_eq. simpl_state.
    rewrite Hup2, Hl. cbn [length Nat.sub Nat.eqb].
    eexists. split; [reflexivity|]. simpl_state. split; [reflexivity|].
    rewrite Hc, Hl. rewrite <- !app_assoc. cbn [app]. unfold uploadPositions.
    rewrite omap_app. reflexivity.
  - destruct (uploadToStorage_attempts file1 s) as (Hrun & Hn & _).
    + rewrite Hl. cbn. lia.
    + rewrite Hl, Hc. cbn. lia.
    + rewrite Hc, Hl in Hrun. cbn [length] in Hrun. rewrite <- Hl in Hrun.
      rewrite Hrun. cbv zeta. f_equal. f_equal.
      rewrite Htr. destruct (upload a1 file1 (Some (originalname file1)) w1) as [o w'].
      reflexivity.
Qed.
End Failover.

Lemma sample_requests_fail c h :
  fails Sample.photo (Adapters.asAdapter Sample.sdkDown Sample.env (Adapters.mkAdapterObject c h)).
Proof. intros w. destruct c; eexists; eexists; reflexivity. Qed.

Lemma overlapped_uploads_repeat_adapter_witness :
  exists e s',
    overlapped Sample.photo Sample.photo [false; false]
      (Sample.service Sample.sdkDown ["aws"; "azure"])
    = (Settled (Throw (allFailed e)),
       Awaiting 0 (Adapters.asAdapter Sample.sdkDown Sample.env
                     (Adapters.mkAdapterObject Adapters.AzureBlobStorageAdapter 1)),
       s')
    /\ map Adapters.call_class (Adapters.history (world s'))
       = [Adapters.AwsS3Adapter; Adapters.AwsS3Adapter].
Proof.
  destruct (Adapters.upload Sample.sdkDown Sample.env
              (Adapters.mkAdapterObject Adapters.AwsS3Adapter 0) Sample.photo
              (Some (originalname Sample.photo))
              (world (Sample.service Sample.sdkDown ["aws"; "azure"])))
    as [o1 w1] eqn:Hup1.
  destruct (Adapters.upload Sample.sdkDown Sample.env
              (Adapters.mkAdapterObject Adapters.AwsS3Adapter 0) Sample.photo
              (Some (originalname Sample.photo)) w1) as [o2 w2] eqn:Hup2.
  assert (H1 : exists e1, o1 = Throw e1).
  { change o1 with (fst (o1, w1)). rewrite <- Hup1. vm_compute. eauto. }
  destruct H1 as [e1 ->].
  assert (H2 : exists e2, o2 = Throw e2).
  { change o2 with (fst (o2, w2)). rewrite <- Hup2.
    pose proof (f_equal snd Hup1) as Hw1. cbn [snd] in Hw1. rewrite <- Hw1.
    vm_compute. eauto. }
  destruct H2 as [e2 ->].
  destruct (overlapped_uploads_repeat_adapter Sample.photo Sample.photo
              (Sample.service Sample.sdkDown ["aws"; "azure"])
              (Adapters.asAdapter Sample.sdkDown Sample.env
                 (Adapters.mkAdapterObject Adapters.AwsS3Adapter 0))
              (Adapters.asAdapter Sample.sdkDown Sample.env
                 (Adapters.mkAdapterObject Adapters.AzureBlobStorageAdapter 1))
              e1 w1 e2 w2) as [(s' & Hrun & Hw & _) _].
  - reflexivity.
  - reflexivity.
  - exact Hup1.
  - exact Hup2.
  - exists e2, s'. split; [exact Hrun|]. rewrite Hw.
    pose proof (f_equal snd Hup2) as Hw2. cbn [snd] in Hw2. rewrite <- Hw2.
    pose proof (f_equal snd Hup1) as Hw1. cbn [snd] in Hw1. rewrite <- Hw1.
    vm_compute. reflexivity.
Defined.

(** With S3 down and Azure up, the first of two overlapping uploads fails
    with UPLOAD_FAILED although Azure would have taken the file: alone,
    the same upload returns. *)
Example overlapped_upload_misses_working_adapter :
  (thrown (match fst (fst (overlapped Sample.photo Sample.photo [false; false]
                             (Sample.service Sample.sdkAwsDown ["aws"; "azure"]))) with
           | Settled out => out
           | Awaiting _ _ => Return None
           end) ≫= codeOf) = Some UPLOAD_FAILED
  /\ is_Some (returned (fst (uploadToStorage Sample.photo
                              (Sample.service Sample.sdkAwsDown ["aws"; "azure"])))).
Proof. split; [vm_compute; reflexivity|]. vm_compute. eauto. Qed.

(** ** The registry under [uploadFile] *)

Section Registry.
Context {JS : JsRuntime} {PS : PrismaSchema} {W : Type}.
Variable Date_now : W -> Z.
Implicit Types (s : State W) (file : MulterFile).

Lemma uploadPositions_app (l1 l2 : list Event) :
  uploadPositions (l1 ++ l2) = uploadPositions l1 ++ uploadPositions l2.
Proof. apply omap_app. Qed.

Lemma uploadPositions_uploads (l : list nat) :
  uploadPositions (map AdapterUpload l) = l.
Proof.
  unfold uploadPositions. induction l as [|x l IHl]; cbn; [reflexivity|]. now rewrite IHl.
Qed.

Lemma registryEq_refl s : registryEq s s.
Proof. unfold registryEq. auto. Qed.

Lemma registryEq_trans s1 s2 s3 : registryEq s1 s2 -> registryEq s2 s3 -> registryEq s1 s3.
Proof. unfold registryEq. intuition congruence. Qed.

Lemma metadataOnly_ret {A} (a : A) : metadataOnly (W := W) (ret a).
Proof. intros s. apply registryEq_refl. Qed.

Lemma metadataOnly_throw {A} e : metadataOnly (W := W) (A := A) (throw e).
Proof. intros s. apply registryEq_refl. Qed.

Lemma metadataOnly_bind {A B} (m : M (State W) A) (k : A -> M (State W) B) :
  metadataOnly m -> (forall a, metadataOnly (k a)) -> metadataOnly (bind m k).
Proof.
  intros Hm Hk s. unfold bind. specialize (Hm s).
  destruct (m s) as [[a|e] s1]; cbn in *; [|exact Hm].
  eapply registryEq_trans; [exact Hm|apply Hk].
Qed.

Lemma metadataOnly_try_catch {A} (m : M (State W) A) h :
  metadataOnly m -> (forall e, metadataOnly (h e)) -> metadataOnly (try_catch m h).
Proof.
  intros Hm Hh s. unfold try_catch. specialize (Hm s).
  destruct (m s) as [[a|e] s1]; cbn in *; [exact Hm|].
  eapply registryEq_trans; [exact Hm|apply Hh].
Qed.

Lemma metadataOnly_now : metadataOnly (now Date_now).
Proof. intros s. apply registryEq_refl. Qed.

Lemma metadataOnly_query {A} c (q : Db -> A) : metadataOnly (W := W) (query c q).
Proof. intros s. apply registryEq_refl. Qed.

Lemma metadataOnly_write {A} c (op : M Db A) : metadataOnly (W := W) (write c op).
Proof.
  intros s. unfold write.
  destruct c, (txdb s); destruct (op (db s)); try destruct (op d); cbn;
    unfold registryEq; cbn; auto.
Qed.

Lemma metadataOnly_log e : uploadedAt e = None -> metadataOnly (W := W) (log e).
Proof.
  intros He s. unfold registryEq. cbn. rewrite uploadPositions_app. unfold uploadPositions at 2.
  cbn. rewrite He. cbn. rewrite app_nil_r. auto.
Qed.

Lemma metadataOnly_transaction {A} (body : M (State W) A) :
  metadataOnly body -> metadataOnly (transaction body).
Proof.
  intros Hb s. unfold transaction. specialize (Hb (set_txdb (Some (db s)) s)).
  destruct (body (set_txdb (Some (db s)) s)) as [[a|e] s1]; cbn in *;
    unfold registryEq in *; cbn in *; auto.
Qed.

Lemma metadataOnly_createFileRecord file r dto :
  metadataOnly (createFileRecord Date_now file r dto).
Proof.
  unfold createFileRecord. apply metadataOnly_try_catch.
  - destruct r; [|apply metadataOnly_throw].
    apply metadataOnly_bind; [apply metadataOnly_now|]. intros t.
    apply metadataOnly_bind; [now apply metadataOnly_log|]. intros _.
    apply metadataOnly_write.
  - intros e. apply metadataOnly_throw.
Qed.

(** The metadata part of [uploadFile] leaves the registry, the providers
    and the upload attempts as [uploadToStorage] left them. *)
Lemma uploadFile_registry dto file s :
  registryEq (snd (uploadToStorage file (set_txdb (Some (db s)) s)))
             (snd (uploadFile Date_now dto file s)).
Proof.
  unfold uploadFile, transaction.
  set (s0 := set_txdb (Some (db s)) s).
  match goal with
  | |- context [try_catch (bind _ ?k) ?h] =>
      assert (Hk : forall r, metadataOnly (k r));
      [|assert (Hh : forall e, metadataOnly (h e)) by (intros; apply metadataOnly_throw)]
  end.
  { intros r. apply metadataOnly_bind; [apply metadataOnly_createFileRecord|]. intros f.
    destruct r; [|apply metadataOnly_throw].
    apply metadataOnly_bind; [now apply metadataOnly_log|]. intros _.
    apply metadataOnly_bind; [apply metadataOnly_write|]. intros si.
    apply metadataOnly_ret. }
  unfold try_catch at 1. unfold bind at 1.
  destruct (uploadToStorage file s0) as [[r|e] s1]; cbn [snd].
  - specialize (Hk r s1).
    match type of Hk with
    | registryEq _ (snd ?x) => destruct x as [[a|e] s2]
    end; cbn in *; unfold registryEq in *; cbn in *; auto.
  - cbn. unfold registryEq. cbn. auto.
Qed.

(** An upload whose storage side does not fail uses the adapter at the
    cursor and no other, and moves the cursor by one. *)
Lemma uploadFile_takes dto file s :
  (0 < length (adapterList s))%nat ->
  (currentAdapterIndex s < length (adapterList s))%nat ->
  takesUpload file s = true ->
  let s' := snd (uploadFile Date_now dto file s) in
  adapterList s' = adapterList s
  /\ currentAdapterIndex s' = advance (length (adapterList s)) (currentAdapterIndex s)
  /\ world s'
     = served (adapterList s) [currentAdapterIndex s] [file] (world s)
  /\ uploadPositions (events s') = uploadPositions (events s) ++ [currentAdapterIndex s].
Proof.
  intros HN Hc Htakes. cbn zeta.
  pose proof (uploadFile_registry dto file s) as Hreg.
  set (s0 := set_txdb (Some (db s)) s) in *.
  destruct (uploadToStorage_attempts file s0 HN Hc) as (Hrun & _).
  unfold takesUpload in Htakes. cbn [served].
  destruct (adapterList s !! currentAdapterIndex s) as [a|] eqn:Ha; [|discriminate].
  cbn [s0 set_txdb adapterList currentAdapterIndex world] in Hrun.
  destruct (length (adapterList s)) as [|n] eqn:Hlen; [lia|].
  rewrite (attempts_step file _ _ n _ a Ha) in Hrun.
  destruct (upload a file (Some (originalname file)) (world s)) as [[r|e] w1];
    [|discriminate].
  rewrite Hrun in Hreg. cbn [snd] in Hreg.
  destruct Hreg as (_ & Hl & Hc' & Hw & Hev).
  rewrite Hl, Hc', Hw, Hev, afterAttempts_positions. cbn. rewrite Hlen. auto.
Qed.

Lemma served_app (l : list (CloudStorageAdapter W)) ps1 : forall fs1 ps2 fs2 w,
  length ps1 = length fs1 ->
  Forall (fun p => is_Some (l !! p)) ps1 ->
  served l (ps1 ++ ps2) (fs1 ++ fs2) w = served l ps2 fs2 (served l ps1 fs1 w).
Proof.
  induction ps1 as [|p ps1 IH]; intros [|f fs1] ps2 fs2 w Hlen Hok; try discriminate.
  - reflexivity.
  - cbn [app served]. inversion Hok as [|? ? [a Ha] Hok']; subst. rewrite Ha.
    apply IH; [cbn in Hlen; lia|exact Hok'].
Qed.

Lemma uploadFiles_served uploads : forall s,
  (0 < length (adapterList s))%nat ->
  (currentAdapterIndex s < length (adapterList s))%nat ->
  noFailures Date_now uploads s = true ->
  let N := length (adapterList s) in
  let c := currentAdapterIndex s in
  let s' := uploadFiles Date_now uploads s in
  adapterList s' = adapterList s
  /\ currentAdapterIndex s' = cursorAfter N c (length uploads)
  /\ world s' = served (adapterList s) (cursorTrace N c (length uploads))
                  (map snd uploads) (world s)
  /\ uploadPositions (events s')
     = uploadPositions (events s) ++ cursorTrace N c (length uploads).
Proof.
  induction uploads as [|[dto file] rest IH]; intros s HN Hc Hok; cbn zeta.
  - cbn. rewrite app_nil_r. auto.
  - cbn [noFailures] in Hok. apply andb_prop in Hok. destruct Hok as [Htakes Hrest].
    cbn [uploadFiles length cursorAfter cursorTrace map snd].
    destruct (uploadFile_takes dto file s HN Hc Htakes) as (Hl & Hc1 & Hw & Hev).
    destruct (IH (snd (uploadFile Date_now dto file s))) as (Hl2 & Hc2 & Hw2 & Hev2).
    + rewrite Hl. exact HN.
    + rewrite Hl, Hc1. now apply advance_lt.
    + exact Hrest.
    + rewrite Hl2, Hc2, Hw2, Hev2, Hl, Hc1, Hw, Hev, <- app_assoc.
      split; [reflexivity|]. split; [reflexivity|]. split; [|reflexivity].
      cbn [served].
      destruct (lookup_lt_is_Some_2 (adapterList s) (currentAdapterIndex s) Hc) as [a ->].
      reflexivity.
Qed.

(** C6. With N >= 1 adapters and the cursor inside the list:
    - [getNextAdapter] returns the adapter at the cursor and moves the
      cursor to [(cursor + 1) mod N];
    - an upload that nothing interrupts makes its attempts on the
      adapters at the cursor positions [i0], [i0 + 1], ... modulo N, each
      on the providers as the attempt before left them, and leaves the
      cursor as many positions further as it made attempts, whether they
      returned or threw;
    - over K uploads, one after the other, none of which fails on the
      storage side, the providers have taken the K files from the adapters
      at the positions [i0 mod N], [(i0 + 1) mod N], ... from the cursor
      [i0] the first upload found, one file each in this order and no
      other upload, and every position is among them floor(K/N) or
      ceil(K/N) times. *)
Theorem round_robin_fairness s :
  (0 < length (adapterList s))%nat ->
  (currentAdapterIndex s < length (adapterList s))%nat ->
  let N := length (adapterList s) in
  let i0 := currentAdapterIndex s in
  (exists a, adapterList s !! i0 = Some a
             /\ getNextAdapter s
                = (Return (Some a), set_currentAdapterIndex ((i0 + 1) mod N)%nat s))
  /\ (forall file,
        let tr := attempts file (adapterList s) i0 N (world s) in
        let n := length tr in
        uploadToStorage file s
        = (resultOf tr, afterAttempts s n (providersAfter (world s) tr))
        /\ (1 <= n <= N)%nat
        /\ map attempt_position tr = map (fun k => ((i0 + k) mod N)%nat) (seq 0 n)
        /\ currentAdapterIndex (snd (uploadToStorage file s)) = ((i0 + n) mod N)%nat)
  /\ (forall uploads,
        noFailures Date_now uploads s = true ->
        let K := length uploads in
        let used := map (fun k => ((i0 + k) mod N)%nat) (seq 0 K) in
        let s' := uploadFiles Date_now uploads s in
        world s' = served (adapterList s) used (map snd uploads) (world s)
        /\ uploadPositions (events s') = uploadPositions (events s) ++ used
        /\ currentAdapterIndex s' = ((i0 + K) mod N)%nat
        /\ forall j, (j < N)%nat ->
             uses j used = (K / N)%nat \/ uses j used = ceilDivNat K N).
Proof.
  intros HN Hc N i0. split; [|split].
  - destruct (lookup_lt_is_Some_2 (adapterList s) i0 Hc) as [a Ha].
    exists a. split; [exact Ha|]. unfold getNextAdapter. fold N i0. now rewrite Ha.
  - intros file tr n.
    destruct (uploadToStorage_attempts file s HN Hc) as (Hrun & Hn & Hpos & _).
    fold N i0 tr n in Hrun, Hn, Hpos.
    split; [exact Hrun|]. split; [exact Hn|]. split.
    + rewrite Hpos. now apply cursorTrace_cyclic.
    + rewrite Hrun. cbn. now apply cursorAfter_mod.
  - intros uploads Hok K used s'.
    destruct (uploadFiles_served uploads s HN Hc Hok) as (_ & Hcur & Hw & Hev).
    fold N i0 K s' in Hcur, Hw, Hev.
    assert (Hused : cursorTrace N i0 K = used) by now apply cursorTrace_cyclic.
    rewrite Hused in Hw, Hev.
    split; [exact Hw|]. split; [exact Hev|].
    split; [rewrite Hcur; now apply cursorAfter_mod|].
    intros j Hj. rewrite <- Hused. now apply uses_fair.
Qed.
End Registry.

(** ** The sample providers *)

(** The classes that received an upload request, in the order of the
    requests. *)
Lemma round_robin_fairness_witness :
  omap (fun c => match Adapters.call_op c with
                 | Adapters.Put _ => Some (Adapters.call_class c)
                 | _ => None
                 end)
    (Adapters.history
       (world (uploadFiles Adapters.Date_now
                 [(Sample.request, Sample.photo); (Sample.request, Sample.photo);
                  (Sample.request, Sample.photo)]
                 (Sample.service Sample.sdkUp ["aws"; "azure"]))))
  = [Adapters.AwsS3Adapter; Adapters.AzureBlobStorageAdapter; Adapters.AwsS3Adapter]
  /\ (uses 0 [0%nat; 1%nat; 0%nat] = ceilDivNat 3 2)%nat
  /\ (uses 1 [0%nat; 1%nat; 0%nat] = 3 / 2)%nat.
Proof.
  destruct (round_robin_fairness Adapters.Date_now
              (Sample.service Sample.sdkUp ["aws"; "azure"])) as (_ & _ & Hfair).
  - vm_compute. lia.
  - vm_compute. lia.
  - destruct (Hfair [(Sample.request, Sample.photo); (Sample.request, Sample.photo);
                     (Sample.request, Sample.photo)]) as (Hw & _ & _ & _).
    + vm_compute. reflexivity.
    + split; [rewrite Hw; vm_compute; reflexivity|].
      split; vm_compute; reflexivity.
Defined.

(** ** [uploadFile] and the metadata store *)

Section UploadTransaction.
Context {JS : JsRuntime} {PS : PrismaSchema} {W : Type}.
Variable Date_now : W -> Z.
Implicit Types (s : State W) (file : MulterFile).

Ltac simpl_state :=
  cbn [attempted afterAttempts set_txdb set_db set_world set_currentAdapterIndex view
       txdb db adapters adapterList currentAdapterIndex world events fst snd].

Lemma dbWrites_uploads (l : list nat) : List.filter isDbWrite (map AdapterUpload l) = [].
Proof. induction l; cbn; auto. Qed.

(** C2, amended. With N >= 1 adapters and the cursor inside the list, if
    in this upload every attempt throws, each on the providers as the
    attempt before left them, then N attempts were made and [uploadFile]
    sends no write to the metadata store, which is unchanged, leaves the
    providers as the last attempt left them, and throws an error with code
    DATABASE_ERROR whose details are the UPLOAD_FAILED error of
    [uploadToStorage], itself the carrier of the error that the last
    adapter attempted, the one [N - 1] positions after the cursor, threw
    in this upload. *)
Theorem uploadFile_all_adapters_fail dto file s :
  (0 < length (adapterList s))%nat ->
  (currentAdapterIndex s < length (adapterList s))%nat ->
  let N := length (adapterList s) in
  let c := currentAdapterIndex s in
  forallb threw (attempts file (adapterList s) c N (world s)) = true ->
  exists a e w' s',
    length (attempts file (adapterList s) c N (world s)) = N
    /\ adapterList s !! cursorAfter N c (N - 1) = Some a
    /\ upload a file (Some (originalname file))
         (providersAfter (world s) (attempts file (adapterList s) c (N - 1) (world s)))
       = (Throw e, w')
    /\ uploadFile Date_now dto file s = (Throw (transactionFailed (allFailed e)), s')
    /\ codeOf (transactionFailed (allFailed e)) = Some DATABASE_ERROR
    /\ (detailsOf (transactionFailed (allFailed e)) ≫= codeOf) = Some UPLOAD_FAILED
    /\ world s' = w'
    /\ db s' = db s /\ txdb s' = None
    /\ List.filter isDbWrite (events s') = List.filter isDbWrite (events s).
Proof.
  intros HN Hc N c Hall.
  destruct (uploadToStorage_attempts file (set_txdb (Some (db s)) s) HN Hc) as (Hrun & _).
  cbn [set_txdb adapterList currentAdapterIndex world] in Hrun. fold N c in Hrun.
  assert (HN' : N = S (N - 1)) by (unfold N; lia).
  pose proof Hall as Hall'. rewrite HN' in Hall'.
  destruct (attempts_all_threw file (adapterList s) (N - 1) c (world s) Hc Hall')
    as (a & e & w' & Ha & Hup & _ & Hlast & Hlen).
  rewrite <- HN' in Hlast, Hlen.
  exists a, e, w'. eexists. split; [exact Hlen|]. split; [exact Ha|]. split; [exact Hup|].
  split.
  - unfold uploadFile, transaction. unfold try_catch at 1. unfold bind at 1.
    rewrite Hrun. unfold resultOf, providersAfter. rewrite Hlast. cbn. reflexivity.
  - split; [reflexivity|]. split; [reflexivity|]. split; [reflexivity|].
    split; [reflexivity|]. split; [reflexivity|].
    cbn. rewrite List.filter_app, dbWrites_uploads, app_nil_r. reflexivity.
Qed.
(** C1, the defect. [createFileRecord] creates the File row through the
    service's own client, outside the transaction that [uploadFile] opens
    for the StorageInfo row: when the storage upload succeeds, the File row
    is created and the creation of the StorageInfo row fails, [uploadFile]
    throws and the File row stays in the metadata store, without a
    StorageInfo row. *)
Theorem uploadFile_keeps_file_row dto file s a r w1 f d1 e :
  (0 < length (adapterList s))%nat ->
  adapterList s !! currentAdapterIndex s = Some a ->
  upload a file (Some (originalname file)) (world s) = (Return r, w1) ->
  Prisma.file_create (Date_now w1) (createFileRecord_data file r dto (Date_now w1)) (db s)
  = (Return f, d1) ->
  fst (Prisma.storageInfo_create (uploadFile_data f r) d1) = Throw e ->
  exists s',
    uploadFile Date_now dto file s = (Throw (transactionFailed e), s')
    /\ db s' = d1
    /\ files (db s') = files (db s) ++ [f]
    /\ storageInfos (db s') = storageInfos (db s).
Proof.
  intros HN Ha Hup Hfile Hsi.
  destruct (Prisma.storageInfo_create (uploadFile_data f r) d1) as [o d2] eqn:Hcreate.
  cbn in Hsi. subst o.
  destruct (length (adapterList s)) as [|rem] eqn:Hlen; [lia|].
  eexists. split.
  - unfold uploadFile, transaction. unfold try_catch at 1. unfold bind at 1.
    unfold uploadToStorage at 1. unfold bind at 1. cbn [get adapterList set_txdb].
    rewrite Hlen.
    rewrite (uploadToStorage_loop_step file 0 rem _ a) by exact Ha.
    cbn [world set_txdb]. rewrite Hup.
    unfold createFileRecord, try_catch, bind, now, log, write, throw, ret.
    simpl_state. rewrite Hfile. simpl_state. rewrite Hcreate. simpl_state. reflexivity.
  - cbn. split; [reflexivity|].
    unfold Prisma.file_create in Hfile.
    destruct (asInt (fci_year _)); [|discriminate].
    destruct (asInt (fci_month _)); [|discriminate].
    destruct (acceptsFile _); [|discriminate].
    inversion Hfile; subst. cbn. auto.
Qed.
End UploadTransaction.

Lemma uploadFile_all_adapters_fail_witness :
  exists e s',
    uploadFile Adapters.Date_now Sample.request Sample.photo
      (Sample.service Sample.sdkDown ["aws"; "azure"])
    = (Throw (transactionFailed (allFailed e)), s')
    /\ db s' = Sample.db0.
Proof.
  destruct (uploadFile_all_adapters_fail Adapters.Date_now Sample.request Sample.photo
              (Sample.service Sample.sdkDown ["aws"; "azure"]))
    as (a & e & w' & s' & _ & _ & _ & Hrun & _ & _ & _ & Hdb & _).
  - vm_compute. lia.
  - vm_compute. lia.
  - vm_compute. reflexivity.
  - exists e, s'. split; [exact Hrun|]. rewrite Hdb. reflexivity.
Defined.

(** C2 as stated fails: with both providers down, every adapter's upload
    fails and the caller of [uploadFile] receives DATABASE_ERROR. *)
Lemma uploadFile_all_adapters_fail_counterexample :
  Forall (fails Sample.photo) (adapterList (Sample.service Sample.sdkDown ["aws"; "azure"]))
  /\ (thrown (fst (uploadFile Adapters.Date_now Sample.request Sample.photo
                     (Sample.service Sample.sdkDown ["aws"; "azure"]))) ≫= codeOf)
     = Some DATABASE_ERROR
  /\ Some DATABASE_ERROR <> Some UPLOAD_FAILED.
Proof.
  split.
  - repeat constructor; apply sample_requests_fail.
  - split; [vm_compute; reflexivity|discriminate].
Qed.

Lemma uploadFile_keeps_file_row_witness :
  exists s' f,
    uploadFile Adapters.Date_now Sample.request Sample.photo
      (Sample.service Sample.sdkUp ["aws"]) = (Throw (transactionFailed
         (PrismaError "Invalid `prisma.storageInfo.create()` invocation")), s')
    /\ files (db s') = [f] /\ storageInfos (db s') = [].
Proof.
  edestruct (uploadFile_keeps_file_row Adapters.Date_now Sample.request Sample.photo
               (Sample.service Sample.sdkUp ["aws"])
               (Adapters.asAdapter Sample.sdkUp Sample.env
                  (Adapters.mkAdapterObject Adapters.AwsS3Adapter 0)))
    as (s' & Hrun & _ & Hfiles & Hinfos).
  - vm_compute. lia.
  - reflexivity.
  - vm_compute. reflexivity.
  - vm_compute. reflexivity.
  - vm_compute. reflexivity.
  - exists s'. eexists. split; [exact Hrun|]. split; [exact Hfiles|exact Hinfos].
Defined.

(** ** Download and delete *)

Section DownloadDelete.
Context {PS : PrismaSchema} {W : Type}.
Variable Date_now : W -> Z.
Variable Date_later : W -> Z.
Implicit Types (s : State W) (d : Db).

Ltac simpl_state :=
  cbn [attempted afterAttempts set_txdb set_db set_world set_currentAdapterIndex view
       txdb db adapters adapterList currentAdapterIndex world events fst snd].

Lemma find_updateFileRow id g (fs : list File) :
  (forall f, file_id (g f) = file_id f) ->
  find (fun f => Nat.eqb (file_id f) id) (Prisma.updateFileRow id g fs)
  = option_map g (find (fun f => Nat.eqb (file_id f) id) fs).
Proof.
  intros Hg. induction fs as [|f fs IH]; cbn; [reflexivity|].
  destruct (Nat.eqb (file_id f) id) eqn:E; cbn.
  - rewrite Hg, E. reflexivity.
  - rewrite E. exact IH.
Qed.

Lemma file_findById_file d id f osi :
  Prisma.file_findById id d = Some (f, osi) ->
  Prisma.findFileById id d = Some f /\ osi = Prisma.storageInfoOf id d.
Proof.
  unfold Prisma.file_findById. destruct (Prisma.findFileById id d); [|discriminate].
  intros [= -> ->]. auto.
Qed.

Lemma downloadFile_not_found id tag s :
  (forall f si, Prisma.file_findById id (db s) <> Some (f, Some si)) ->
  downloadFile id tag s = (Throw fileNotFound, s).
Proof.
  intros Hnone. unfold downloadFile. unfold bind at 1. unfold query at 1. simpl_state.
  destruct (Prisma.file_findById id (db s)) as [[f [si|]]|] eqn:Hfind; try reflexivity.
  now destruct (Hnone f si).
Qed.

Lemma downloadFile_no_adapter id tag s f si :
  Prisma.file_findById id (db s) = Some (f, Some si) ->
  adapters_get tag s = None ->
  downloadFile id tag s = (Throw (providerNotAvailable tag), s).
Proof.
  intros Hfind Hget. unfold downloadFile. unfold bind at 1. unfold query at 1. simpl_state.
  rewrite Hfind. unfold bind at 1. cbn [get]. rewrite Hget. reflexivity.
Qed.

Lemma downloadFile_found id tag s f si a :
  Prisma.file_findById id (db s) = Some (f, Some si) ->
  adapters_get tag s = Some a ->
  downloadFile id tag s
  = match download a with
    | Some download =>
        match download (si_storageFileId si) (world s) with
        | (Return stream, w') =>
            (Return (mkDownloadResult stream (file_name f) (file_mimeType f)),
             downloaded id tag (si_storageFileId si) w' s)
        | (Throw e, w') =>
            (Throw (downloadFailed e), downloaded id tag (si_storageFileId si) w' s)
        end
    | None =>
        (Throw (downloadFailed (TypeError "adapter.download is not a function")),
         counted id s)
    end.
Proof.
  intros Hfind Hget. unfold downloadFile. unfold bind at 1. unfold query at 1. simpl_state.
  rewrite Hfind. unfold bind at 1. cbn [get]. rewrite Hget.
  destruct (file_findById_file _ _ _ _ Hfind) as [Hf _].
  unfold try_catch, bind, transaction, log, write, Prisma.file_update, call, ret, throw.
  simpl_state. rewrite Hf. simpl_state.
  destruct (download a) as [dl|]; simpl_state; [|reflexivity].
  destruct (dl (si_storageFileId si) (world s)) as [[stream|e] w1]; reflexivity.
Qed.

Lemma counted_counter id s f :
  Prisma.findFileById id (db s) = Some f ->
  Prisma.findFileById id (db (counted id s))
  = Some (set_accessCount (file_accessCount f + 1) f).
Proof.
  intros Hf. unfold Prisma.findFileById in *. cbn [counted db files set_files].
  rewrite find_updateFileRow by reflexivity. rewrite Hf. reflexivity.
Qed.

(** C8. [downloadFile] changes the metadata store only after both lookups
    succeeded:
    - no File with a StorageInfo under the id: FILE_NOT_FOUND, and nothing
      has changed;
    - no adapter under the provider tag: VALIDATION_FAILED, and nothing has
      changed, so the access counter is as it was;
    - otherwise the access counter of the File is one more than before,
      whether the adapter then delivers the stream, throws, or has no
      [download] at all; in the last two cases DOWNLOAD_FAILED is thrown
      and the counter stays incremented. *)
Theorem downloadFile_access_counter id tag s :
  match Prisma.file_findById id (db s) with
  | Some (f, Some si) =>
      match adapters_get tag s with
      | Some a =>
          Prisma.findFileById id (db (snd (downloadFile id tag s)))
          = Some (set_accessCount (file_accessCount f + 1) f)
          /\ fst (downloadFile id tag s)
             = match download a with
               | Some download =>
                   match fst (download (si_storageFileId si) (world s)) with
                   | Return stream =>
                       Return (mkDownloadResult stream (file_name f) (file_mimeType f))
                   | Throw e => Throw (downloadFailed e)
                   end
               | None => Throw (downloadFailed (TypeError "adapter.download is not a function"))
               end
      | None => downloadFile id tag s = (Throw (providerNotAvailable tag), s)
      end
  | _ => downloadFile id tag s = (Throw fileNotFound, s)
  end.
Proof.
  destruct (Prisma.file_findById id (db s)) as [[f [si|]]|] eqn:Hfind;
    try (apply downloadFile_not_found; intros f' si'; rewrite Hfind; discriminate).
  destruct (adapters_get tag s) as [a|] eqn:Hget;
    [|eapply downloadFile_no_adapter; eauto].
  rewrite (downloadFile_found id tag s f si a Hfind Hget).
  destruct (file_findById_file _ _ _ _ Hfind) as [Hf _].
  pose proof (counted_counter id s f Hf) as Hcount.
  destruct (download a) as [dl|]; [|split; [exact Hcount|reflexivity]].
  destruct (dl (si_storageFileId si) (world s)) as [[stream|e] w1]; split;
    try exact Hcount; reflexivity.
Qed.
Lemma deleteFile_not_found dto s :
  Prisma.file_findById (del_storageFileId dto) (db s) = None ->
  deleteFile Date_now Date_later dto s = (Throw fileNotFound, set_txdb None s).
Proof.
  intros Hfind. unfold deleteFile, transaction. unfold bind at 1. unfold query at 1.
  simpl_state. rewrite Hfind. reflexivity.
Qed.

Lemma deleteFile_permanent_eq dto s f osi :
  del_permanent dto = Some true ->
  Prisma.file_findById (del_storageFileId dto) (db s) = Some (f, osi) ->
  deleteFile Date_now Date_later dto s
  = let id := del_storageFileId dto in
    let evs := fst (providerDeletion s osi) ++ [FileDelete TxClient id] in
    let w' := snd (providerDeletion s osi) in
    match Prisma.file_delete id (db s) with
    | (Return _, d') => (Return (mkDeleteFileResponseDto id true None), deleted s w' d' evs)
    | (Throw e, _) => (Throw e, deleted s w' (db s) evs)
    end.
Proof.
  intros Hperm Hfind. unfold deleteFile, transaction. unfold bind at 1. unfold query at 1.
  simpl_state. rewrite Hfind, Hperm. cbn [default from_option id].
  unfold providerDeletion, deleted.
  unfold bind, try_catch, get, log, call, write, ret, throw, adapters_get.
  simpl_state.
  destruct osi as [si|]; cbn [mbind option_bind].
  - destruct (si_storageType si) as [k|]; cbn [mbind option_bind].
    + destruct (adapters s !! k) as [a|]; simpl_state.
      * destruct (delete a (si_storageFileId si) (world s)) as [[[]|e] w1]; simpl_state;
          destruct (Prisma.file_delete (del_storageFileId dto) (db s)) as [[f'|e'] d'];
          simpl_state; rewrite <- ?app_assoc; reflexivity.
      * destruct (Prisma.file_delete (del_storageFileId dto) (db s)) as [[f'|e'] d'];
          simpl_state; reflexivity.
    + simpl_state.
      destruct (Prisma.file_delete (del_storageFileId dto) (db s)) as [[f'|e'] d'];
        simpl_state; reflexivity.
  - simpl_state.
    destruct (Prisma.file_delete (del_storageFileId dto) (db s)) as [[f'|e'] d'];
      simpl_state; reflexivity.
Qed.

Lemma deleteFile_soft_eq dto s f osi :
  default false (del_permanent dto) = false ->
  Prisma.file_findById (del_storageFileId dto) (db s) = Some (f, osi) ->
  deleteFile Date_now Date_later dto s
  = let id := del_storageFileId dto in
    let t := Date_now (world s) in
    match Prisma.file_update_nested id (set_deletedAt (Some t)) (set_isActive false) (db s) with
    | (Return _, d') =>
        (Return (mkDeleteFileResponseDto id true (Some (Date_later (world s)))),
         deleted s (world s) d' [FileUpdate TxClient id])
    | (Throw e, _) => (Throw e, deleted s (world s) (db s) [FileUpdate TxClient id])
    end.
Proof.
  intros Hperm Hfind. unfold deleteFile, transaction. unfold bind at 1. unfold query at 1.
  simpl_state. rewrite Hfind, Hperm.
  unfold bind, now, later, log, write, ret, deleted. simpl_state.
  destruct (Prisma.file_update_nested _ _ _ (db s)) as [[f'|e'] d']; simpl_state; reflexivity.
Qed.

Lemma file_delete_removes id d f d' :
  Prisma.file_delete id d = (Return f, d') -> Prisma.findFileById id d' = None.
Proof.
  unfold Prisma.file_delete, Prisma.findFileById.
  assert (Hgone : find (fun f => Nat.eqb (file_id f) id)
                    (List.filter (fun f => negb (Nat.eqb (file_id f) id)) (files d)) = None).
  { induction (files d) as [|x l IH]; cbn; [reflexivity|].
    destruct (Nat.eqb (file_id x) id) eqn:E; cbn; [exact IH|]. now rewrite E. }
  destruct (find _ (files d)); [|discriminate].
  destruct (Prisma.storageInfoOf id d).
  - destruct onDeleteCascade; [|discriminate]. intros [= _ <-]. exact Hgone.
  - intros [= _ <-]. exact Hgone.
Qed.

(** C10. A permanent delete of an existing File always sends the deletion
    of the row to the metadata store, after at most one call of the
    adapter registered under the stored provider tag, and what it returns
    or throws is what the row deletion returns or throws: an error thrown
    by the adapter's [delete] is dropped.  When [deleteFile] returns, the
    File row is gone. *)
Theorem permanent_delete_removes_row dto s f osi :
  del_permanent dto = Some true ->
  Prisma.file_findById (del_storageFileId dto) (db s) = Some (f, osi) ->
  let id := del_storageFileId dto in
  let out := fst (deleteFile Date_now Date_later dto s) in
  let s' := snd (deleteFile Date_now Date_later dto s) in
  events s' = events s ++ fst (providerDeletion s osi) ++ [FileDelete TxClient id]
  /\ out = match fst (Prisma.file_delete id (db s)) with
           | Return _ => Return (mkDeleteFileResponseDto id true None)
           | Throw e => Throw e
           end
  /\ db s' = match fst (Prisma.file_delete id (db s)) with
             | Return _ => snd (Prisma.file_delete id (db s))
             | Throw _ => db s
             end
  /\ (forall r, out = Return r -> Prisma.findFileById id (db s') = None).
Proof.
  intros Hperm Hfind id out s'. subst out s'.
  rewrite (deleteFile_permanent_eq dto s f osi Hperm Hfind). cbn zeta. fold id.
  destruct (Prisma.file_delete id (db s)) as [[f'|e] d'] eqn:Hdel; cbn [fst snd deleted events db].
  - repeat split; try reflexivity. intros r _. eapply file_delete_removes. exact Hdel.
  - repeat split; try reflexivity. intros r Hr. discriminate.
Qed.
Lemma adapterCalls_app (l1 l2 : list Event) :
  adapterCalls (l1 ++ l2) = adapterCalls l1 ++ adapterCalls l2.
Proof. apply List.filter_app. Qed.

Lemma adapterCalls_providerDeletion s osi :
  adapterCalls (fst (providerDeletion s osi)) = fst (providerDeletion s osi).
Proof.
  unfold providerDeletion. destruct osi as [si|]; [|reflexivity].
  destruct (adapters_get _ s); reflexivity.
Qed.

(** C4, amended. For a File found with its StorageInfo:
    - [downloadFile] looks the adapter up under the provider tag its
      caller passes.  Without an adapter under that tag it throws
      VALIDATION_FAILED and nothing has happened; with one, the only
      adapter call is the [download] of that adapter, and the providers
      are as that call leaves them.
    - a permanent [deleteFile] looks the adapter up under the provider tag
      of the StorageInfo.  With one, the only adapter call is the [delete]
      of that adapter; without one, no adapter is called and the outcome
      is that of the deletion of the row.
    - a soft [deleteFile] calls no adapter. *)
Theorem dispatch_by_provider_tag s :
  (forall id tag f si,
     Prisma.file_findById id (db s) = Some (f, Some si) ->
     let s' := snd (downloadFile id tag s) in
     match adapters_get tag s with
     | None => downloadFile id tag s = (Throw (providerNotAvailable tag), s)
     | Some a =>
         match download a with
         | Some download =>
             adapterCalls (events s')
             = adapterCalls (events s) ++ [AdapterDownload (tagText tag) (si_storageFileId si)]
             /\ world s' = snd (download (si_storageFileId si) (world s))
         | None => adapterCalls (events s') = adapterCalls (events s) /\ world s' = world s
         end
     end)
  /\ (forall dto f osi,
        Prisma.file_findById (del_storageFileId dto) (db s) = Some (f, osi) ->
        let s' := snd (deleteFile Date_now Date_later dto s) in
        match del_permanent dto with
        | Some true =>
            adapterCalls (events s') = adapterCalls (events s) ++ fst (providerDeletion s osi)
            /\ world s' = snd (providerDeletion s osi)
            /\ (adapters_get (osi ≫= si_storageType) s = None ->
                adapterCalls (events s') = adapterCalls (events s)
                /\ world s' = world s
                /\ fst (deleteFile Date_now Date_later dto s)
                   = match fst (Prisma.file_delete (del_storageFileId dto) (db s)) with
                     | Return _ => Return (mkDeleteFileResponseDto (del_storageFileId dto) true None)
                     | Throw e => Throw e
                     end)
        | _ => adapterCalls (events s') = adapterCalls (events s) /\ world s' = world s
        end).
Proof.
  split.
  - intros id tag f si Hfind s'. subst s'.
    destruct (adapters_get tag s) as [a|] eqn:Hget;
      [|eapply downloadFile_no_adapter; eauto].
    rewrite (downloadFile_found id tag s f si a Hfind Hget).
    destruct (download a) as [dl|].
    + destruct (dl (si_storageFileId si) (world s)) as [[stream|e] w1];
        cbn [snd downloaded counted events world];
        rewrite !adapterCalls_app; cbn; rewrite app_nil_r; auto.
    + cbn [snd counted events world]. rewrite adapterCalls_app. cbn.
      rewrite app_nil_r. auto.
  - intros dto f osi Hfind s'. subst s'.
    destruct (del_permanent dto) as [[|]|] eqn:Hperm.
    + rewrite (deleteFile_permanent_eq dto s f osi Hperm Hfind). cbn zeta.
      assert (Hcalls : forall w' d' ,
                 adapterCalls (events (deleted s w' d'
                    (fst (providerDeletion s osi) ++ [FileDelete TxClient (del_storageFileId dto)])))
                 = adapterCalls (events s) ++ fst (providerDeletion s osi)).
      { intros w' d'. cbn [deleted events]. rewrite !adapterCalls_app.
        rewrite adapterCalls_providerDeletion. cbn. now rewrite app_nil_r. }
      destruct (Prisma.file_delete (del_storageFileId dto) (db s)) as [[f'|e] d'];
        cbn [fst snd]; rewrite Hcalls; (split; [reflexivity|]); (split; [reflexivity|]);
        intros Hnone; unfold providerDeletion; destruct osi; rewrite ?Hnone;
        cbn; rewrite app_nil_r; auto.
    + rewrite (deleteFile_soft_eq dto s f osi) by (first [exact Hfind | rewrite Hperm; reflexivity]).
      cbn zeta.
      destruct (Prisma.file_update_nested _ _ _ (db s)) as [[f'|e] d'];
        cbn [snd deleted events world]; rewrite adapterCalls_app; cbn;
        rewrite app_nil_r; auto.
    + rewrite (deleteFile_soft_eq dto s f osi) by (first [exact Hfind | rewrite Hperm; reflexivity]).
      cbn zeta.
      destruct (Prisma.file_update_nested _ _ _ (db s)) as [[f'|e] d'];
        cbn [snd deleted events world]; rewrite adapterCalls_app; cbn;
        rewrite app_nil_r; auto.
Qed.
End DownloadDelete.

Lemma permanent_delete_removes_row_witness :
  (thrown (fst (Adapters.delete Sample.sdkDown
                  (Adapters.mkAdapterObject Adapters.AwsS3Adapter 0)
                  "2024_3_seoul_a.jpg" Sample.world0)) ≫= codeOf) = Some DELETE_FAILED
  /\ fst (deleteFile Adapters.Date_now Sample.Date_later (mkDeleteFileRequestDto 0 (Some true))
            (Sample.serviceOver (Sample.dbStored "aws") Sample.sdkDown ["aws"]))
     = Return (mkDeleteFileResponseDto 0 true None)
  /\ Prisma.findFileById 0
       (db (snd (deleteFile Adapters.Date_now Sample.Date_later (mkDeleteFileRequestDto 0 (Some true))
                   (Sample.serviceOver (Sample.dbStored "aws") Sample.sdkDown ["aws"]))))
     = None.
Proof.
  destruct (permanent_delete_removes_row Adapters.Date_now Sample.Date_later (mkDeleteFileRequestDto 0 (Some true))
              (Sample.serviceOver (Sample.dbStored "aws") Sample.sdkDown ["aws"])
              Sample.storedFile (Some (Sample.storedInfo "aws")))
    as (_ & Hout & _ & Hgone).
  - reflexivity.
  - vm_compute. reflexivity.
  - split; [vm_compute; reflexivity|].
    assert (Hret : fst (deleteFile Adapters.Date_now Sample.Date_later (mkDeleteFileRequestDto 0 (Some true))
                          (Sample.serviceOver (Sample.dbStored "aws") Sample.sdkDown ["aws"]))
                   = Return (mkDeleteFileResponseDto 0 true None)).
    { etransitivity; [exact Hout|]. vm_compute. reflexivity. }
    split; [exact Hret|]. eapply Hgone. exact Hret.
Defined.

Lemma dispatch_by_provider_tag_witness :
  downloadFile 0 (Some "google")
    (Sample.serviceOver (Sample.dbStored "aws") Sample.sdkUp ["aws"; "azure"])
  = (Throw (providerNotAvailable (Some "google")),
     Sample.serviceOver (Sample.dbStored "aws") Sample.sdkUp ["aws"; "azure"])
  /\ adapterCalls
       (events (snd (deleteFile Adapters.Date_now Sample.Date_later (mkDeleteFileRequestDto 0 (Some true))
                       (Sample.serviceOver (Sample.dbStored "aws") Sample.sdkUp
                          ["aws"; "azure"]))))
     = [AdapterDelete "aws" "2024_3_seoul_a.jpg"].
Proof.
  destruct (dispatch_by_provider_tag Adapters.Date_now Sample.Date_later
              (Sample.serviceOver (Sample.dbStored "aws") Sample.sdkUp ["aws"; "azure"]))
    as [Hdownload Hdelete].
  split.
  - exact (Hdownload 0%nat (Some "google") Sample.storedFile (Sample.storedInfo "aws")
             eq_refl).
  - destruct (Hdelete (mkDeleteFileRequestDto 0 (Some true)) Sample.storedFile
                (Some (Sample.storedInfo "aws")) eq_refl) as (Hcalls & _).
    etransitivity; [exact Hcalls|]. reflexivity.
Defined.

(** C4 as stated fails.  A File bound to the provider "aws" is downloaded
    with the provider tag "azure": the Azure adapter's [download] is
    called, with the key of the S3 object.  A File bound to "azure" is
    deleted permanently while only "aws" is configured: no adapter is
    called and the call returns normally, not with VALIDATION_FAILED. *)
Lemma dispatch_by_provider_tag_counterexample :
  si_storageType (Sample.storedInfo "aws") = Some "aws"
  /\ adapterCalls
       (events (snd (downloadFile 0 (Some "azure")
                       (Sample.serviceOver (Sample.dbStored "aws") Sample.sdkUp
                          ["aws"; "azure"]))))
     = [AdapterDownload "azure" "2024_3_seoul_a.jpg"]
  /\ Adapters.history
       (world (snd (downloadFile 0 (Some "azure")
                      (Sample.serviceOver (Sample.dbStored "aws") Sample.sdkUp
                         ["aws"; "azure"]))))
     = [Adapters.mkSdkCall Adapters.AzureBlobStorageAdapter Adapters.Fetch "2024_3_seoul_a.jpg"]
  /\ returned (fst (downloadFile 0 (Some "azure")
                      (Sample.serviceOver (Sample.dbStored "aws") Sample.sdkUp
                         ["aws"; "azure"])))
     = Some (mkDownloadResult [] "2024_3_seoul_a.jpg" "image/jpeg")
  /\ (adapters (Sample.serviceOver (Sample.dbStored "azure") Sample.sdkUp ["aws"])
        !! "azure" ≫= fun _ => Some tt) = None
  /\ fst (deleteFile Adapters.Date_now Sample.Date_later (mkDeleteFileRequestDto 0 (Some true))
            (Sample.serviceOver (Sample.dbStored "azure") Sample.sdkUp ["aws"]))
     = Return (mkDeleteFileResponseDto 0 true None).
Proof.
  repeat (match goal with |- _ /\ _ => split end); vm_compute; reflexivity.
Qed.

(** ** Soft-deleted files *)

Section Visibility.
Context {JS : JsRuntime} {W : Type}.
Implicit Types (s : State W) (d : Db).

Lemma In_takeRows {A} t (l : list A) x : In x (Prisma.takeRows t l) -> In x l.
Proof.
  unfold Prisma.takeRows. destruct t as [t|]; [|auto].
  destruct (t <? 0).
  - intros Hin. apply in_rev in Hin. apply list_elem_of_In in Hin.
    apply (subseteq_take (Z.to_nat (- t)) (rev l)) in Hin.
    apply list_elem_of_In in Hin. now apply in_rev in Hin.
  - intros Hin. apply list_elem_of_In in Hin. apply subseteq_take in Hin.
    now apply list_elem_of_In.
Qed.

Lemma In_skipn {A} n (l : list A) x : In x (skipn n l) -> In x l.
Proof.
  intros Hin. apply list_elem_of_In in Hin. apply subseteq_drop in Hin.
  now apply list_elem_of_In.
Qed.

Lemma In_insertDesc x y l : In x (Prisma.insertDesc y l) -> x = y \/ In x l.
Proof.
  induction l as [|z l IH]; cbn.
  - intuition.
  - destruct (file_createdAt (fst z) <? file_createdAt (fst y)); cbn; intuition.
Qed.

Lemma In_orderByCreatedAtDesc x l : In x (Prisma.orderByCreatedAtDesc l) -> In x l.
Proof.
  unfold Prisma.orderByCreatedAtDesc. induction l as [|y l IH]; cbn; [auto|].
  intros Hin. apply In_insertDesc in Hin. intuition.
Qed.

Lemma In_selectFiles where_ d r :
  In r (Prisma.selectFiles where_ d) ->
  where_ (fst r) (snd r) = true /\ In (fst r) (files d).
Proof.
  unfold Prisma.selectFiles. rewrite filter_In, in_map_iff.
  intros [(f & <- & Hf) Hw]. auto.
Qed.

Lemma In_file_findMany where_ take skip d rows r :
  Prisma.file_findMany where_ take skip d = Return rows ->
  In r rows -> where_ (fst r) (snd r) = true /\ In (fst r) (files d).
Proof.
  unfold Prisma.file_findMany. destruct skip as [|k| |]; try discriminate.
  destruct (k <? 0); [discriminate|]. intros [= <-] Hin.
  apply In_selectFiles. apply In_orderByCreatedAtDesc.
  eapply In_skipn. eapply In_takeRows. exact Hin.
Qed.

Lemma listFiles_where_visible dto f osi :
  listFiles_where dto f osi = true -> file_deletedAt f = None.
Proof.
  unfold listFiles_where. destruct (file_deletedAt f); [|reflexivity].
  rewrite andb_false_r. discriminate.
Qed.

Lemma getFileByUrl_where_visible y m b n f osi :
  getFileByUrl_where y m b n f osi = true -> file_deletedAt f = None.
Proof.
  unfold getFileByUrl_where. destruct (asInt y), (asInt m); try discriminate.
  destruct (file_deletedAt f); [|reflexivity].
  rewrite andb_false_r. discriminate.
Qed.

(** C9, amended. [deletedAt IS NULL] is the visibility predicate of the
    listing and of the lookup by path: every entry [listFiles] returns, and
    the entry [getFileByUrl] returns, is that of a File of the metadata
    store whose [deletedAt] is not set.  (The lookups by id have no such
    condition.) *)
Theorem soft_deleted_invisible_to_listing s :
  (forall dto r s' x,
     listFiles dto s = (Return r, s') ->
     In x (lresp_files r) ->
     dto_deletedAt x = None
     /\ exists f, In f (files (db s)) /\ file_id f = dto_storageFileId x
                  /\ file_deletedAt f = None)
  /\ (forall path x s',
        getFileByUrl path s = (Return x, s') ->
        dto_deletedAt x = None
        /\ exists f, In f (files (db s)) /\ file_id f = dto_storageFileId x
                     /\ file_deletedAt f = None).
Proof.
  split.
  - intros dto r s' x. unfold listFiles, bind, query, ret, throw. cbn [view].
    destruct (Prisma.file_findMany _ _ _ (db s)) as [rows|e] eqn:Hrows; [|discriminate].
    intros [= <- _]. cbn [lresp_files]. rewrite in_map_iff.
    intros ([f osi] & <- & Hin).
    destruct (In_file_findMany _ _ _ _ _ _ Hrows Hin) as [Hw Hf]. cbn [fst snd] in *.
    apply listFiles_where_visible in Hw. cbn. split; [exact Hw|].
    exists f. auto.
  - intros path x s'. unfold getFileByUrl.
    destruct (split slash path) as [|year [|month [|branchName [|filename [|]]]]];
      try discriminate.
    destruct (_ || _ || _ || _); [discriminate|].
    unfold bind, query, ret, throw. cbn [view].
    destruct (Prisma.branch_findFirst branchName (db s)) as [branch|]; [|discriminate].
    destruct (asInt (toNumber (Some year))) eqn:Hy; [|discriminate].
    destruct (asInt (toNumber (Some month))) eqn:Hm; [|discriminate].
    destruct (Prisma.file_findFirst _ (db s)) as [[f osi]|] eqn:Hfind; [|discriminate].
    intros [= <- _].
    unfold Prisma.file_findFirst in Hfind.
    assert (Hin : In (f, osi) (Prisma.selectFiles
                   (getFileByUrl_where (toNumber (Some year)) (toNumber (Some month))
                      (branch_id branch)
                      (numToString (toNumber (Some year)) +:+ "_"
                       +:+ numToString (toNumber (Some month)) +:+ "_" +:+ branchName
                       +:+ "_" +:+ filename)) (db s))).
    { destruct (Prisma.selectFiles _ (db s)); [discriminate|].
      cbn in Hfind. injection Hfind as ->. now left. }
    apply In_selectFiles in Hin. destruct Hin as [Hw Hf]. cbn [fst snd] in *.
    apply getFileByUrl_where_visible in Hw. cbn. split; [exact Hw|]. exists f. auto.
Qed.
End Visibility.

Lemma soft_deleted_invisible_to_listing_witness :
  (exists r,
     fst (listFiles (mkListFilesRequestDto None (Some 1) (Some 10) (Some "branch1"))
            (Sample.serviceOver Sample.dbTwo Sample.sdkUp ["azure"])) = Return r
     /\ map dto_storageFileId (lresp_files r) = [0%nat]
     /\ forall x, In x (lresp_files r) -> dto_deletedAt x = None)
  /\ (exists x,
        fst (getFileByUrl "2024/3/seoul/a.jpg"
               (Sample.serviceOver Sample.dbTwo Sample.sdkUp ["azure"])) = Return x
        /\ dto_storageFileId x = 0%nat /\ dto_deletedAt x = None)
  /\ thrown (fst (getFileByUrl "2024/3/seoul/b.jpg"
                    (Sample.serviceOver Sample.dbTwo Sample.sdkUp ["azure"])))
     = Some (HttpException "File not found" 404).
Proof.
  destruct (soft_deleted_invisible_to_listing
              (Sample.serviceOver Sample.dbTwo Sample.sdkUp ["azure"])) as [Hlist Hpath].
  split; [|split].
  - destruct (listFiles (mkListFilesRequestDto None (Some 1) (Some 10) (Some "branch1"))
                (Sample.serviceOver Sample.dbTwo Sample.sdkUp ["azure"]))
      as [[r|e] s'] eqn:Hrun.
    + exists r. split; [reflexivity|]. split.
      * change r with (default r (returned (fst (Return r, s')))). rewrite <- Hrun.
        vm_compute. reflexivity.
      * intros x Hx. eapply Hlist; [exact Hrun|exact Hx].
    + exfalso.
      assert (Hnone : thrown (fst (listFiles
                (mkListFilesRequestDto None (Some 1) (Some 10) (Some "branch1"))
                (Sample.serviceOver Sample.dbTwo Sample.sdkUp ["azure"]))) = None)
        by (vm_compute; reflexivity).
      rewrite Hrun in Hnone. discriminate.
  - destruct (getFileByUrl "2024/3/seoul/a.jpg"
                (Sample.serviceOver Sample.dbTwo Sample.sdkUp ["azure"]))
      as [[x|e] s'] eqn:Hrun.
    + exists x. split; [reflexivity|]. split.
      * change x with (default x (returned (fst (Return x, s')))). rewrite <- Hrun.
        vm_compute. reflexivity.
      * eapply Hpath. exact Hrun.
    + exfalso.
      assert (Hnone : thrown (fst (getFileByUrl "2024/3/seoul/a.jpg"
                (Sample.serviceOver Sample.dbTwo Sample.sdkUp ["azure"]))) = None)
        by (vm_compute; reflexivity).
      rewrite Hrun in Hnone. discriminate.
  - vm_compute. reflexivity.
Defined.

(** C9 as stated fails.  After a soft delete the File has [deletedAt] set,
    and [downloadFile] still finds it by id, counts the access and returns
    the stream; [getFileUrl] finds it too and returns its entry, with
    [deletedAt] set. *)
Lemma soft_deleted_counterexample :
  (file_deletedAt
     <$> Prisma.findFileById 0
           (db (snd (deleteFile Adapters.Date_now Sample.Date_later (mkDeleteFileRequestDto 0 None)
                       (Sample.serviceOver (Sample.dbStored "azure") Sample.sdkUp ["azure"])))))
  = Some (Some 1000000000)
  /\ returned
       (fst (downloadFile 0 (Some "azure")
               (snd (deleteFile Adapters.Date_now Sample.Date_later (mkDeleteFileRequestDto 0 None)
                       (Sample.serviceOver (Sample.dbStored "azure") Sample.sdkUp
                          ["azure"])))))
     = Some (mkDownloadResult [] "2024_3_seoul_a.jpg" "image/jpeg")
  /\ (file_accessCount
        <$> Prisma.findFileById 0
              (db (snd (downloadFile 0 (Some "azure")
                          (snd (deleteFile Adapters.Date_now Sample.Date_later (mkDeleteFileRequestDto 0 None)
                                  (Sample.serviceOver (Sample.dbStored "azure") Sample.sdkUp
                                     ["azure"])))))))
     = Some 1
  /\ (dto_deletedAt
        <$> returned
              (fst (getFileUrl 0 (Some "azure")
                      (snd (deleteFile Adapters.Date_now Sample.Date_later (mkDeleteFileRequestDto 0 None)
                              (Sample.serviceOver (Sample.dbStored "azure") Sample.sdkUp
                                 ["azure"]))))))
     = Some (Some 1000000000).
Proof.
  repeat (match goal with |- _ /\ _ => split end); vm_compute; reflexivity.
Qed.

(** ** The signed-URL cache *)

Section UrlCache.
Import Adapters.
Variable sdk : Sdk.
Implicit Types (this : AdapterObject) (w : World).

Lemma urlCache_set_urlCache this c w : urlCache this (set_urlCache this c w) = c.
Proof. unfold urlCache, set_urlCache. cbn. now rewrite lookup_insert_eq. Qed.

Lemma getPublicUrl_hit this id expiresIn w u :
  cacheHit (urlCache this w !! id) (clock w) = Some u ->
  getPublicUrl sdk this id expiresIn w = (Return u, w).
Proof.
  intros Hhit. unfold getPublicUrl, try_catch, bind, get, dateNow, Date_now. cbn.
  rewrite Hhit. reflexivity.
Qed.

Lemma getPublicUrl_miss this id expiresIn w u w1 :
  cacheHit (urlCache this w !! id) (clock w) = None ->
  getPublicUrl sdk this id expiresIn w = (Return u, w1) ->
  exists expires,
    history w1
    = history w ++ probeCalls this id ++ [mkSdkCall (class this) (Sign expires) id]
    /\ urlCache this w1 !! id
       = Some (mkSignedUrlCache u (clock w1 + expiresInOrDefault expiresIn * 1000))
    /\ clock w <= clock w1.
Proof.
  intros Hmiss. unfold getPublicUrl, try_catch, bind, get, dateNow, Date_now. cbn.
  rewrite Hmiss. unfold probeCalls.
  destruct this as [c h]. cbn [class].
  destruct c; cbn [ensureFileExists exists_ class].
  - unfold request, ret, urlCache_set, throw. cbn.
    destruct (answer_url sdk (history w) _) as [u'|e]; [|discriminate].
    intros [= <- <-]. eexists. cbn. split; [reflexivity|]. split; [|lia].
    rewrite urlCache_set_urlCache. now rewrite lookup_insert_eq.
  - unfold ensureFileExists, exists_, request, ret, urlCache_set, throw, try_catch, bind. cbn.
    destruct (answer_bool sdk (history w) _) as [[|]|e]; cbn.
    + destruct (answer_url sdk _ _) as [u'|e]; cbn.
      * intros [= <- <-]. eexists. cbn. rewrite <- app_assoc. cbn.
        split; [reflexivity|]. split; [|lia].
        rewrite urlCache_set_urlCache. now rewrite lookup_insert_eq.
      * destruct (isStorageError e); discriminate.
    + discriminate.
    + discriminate.
  - unfold request, ret, urlCache_set, throw. cbn.
    destruct (answer_url sdk (history w) _) as [u'|e]; [|discriminate].
    intros [= <- <-]. eexists. cbn. split; [reflexivity|]. split; [|lia].
    rewrite urlCache_set_urlCache. now rewrite lookup_insert_eq.
Qed.

Lemma signingRequests_miss this id expires w w1 :
  history w1 = history w ++ probeCalls this id ++ [mkSdkCall (class this) (Sign expires) id] ->
  signingRequests w1 = S (signingRequests w).
Proof.
  intros Hhist. unfold signingRequests. rewrite Hhist, !List.filter_app, !length_app.
  unfold probeCalls. destruct (class this); cbn; lia.
Qed.

(** C7. Let a [getPublicUrl] for an object find nothing usable in the
    cache (no entry, or an entry that has expired) and return a URL.  Then
    - it made one signing request to the provider, and stored the URL with
      [expiresAt] = the time of storing + [expiresIn] seconds;
    - a call for the same object less than [expiresIn] seconds after the
      first one returns the identical URL and makes no request: the two
      calls made one signing request;
    - a call once the entry has expired makes a signing request again and
      stores what it returns with [expiresAt] = its time of storing + its
      [expiresIn] seconds.
    Times are in milliseconds, [expiresIn] in seconds. *)
Theorem signed_url_cache this id expiresIn w u w1 :
  cacheHit (urlCache this w !! id) (clock w) = None ->
  getPublicUrl sdk this id expiresIn w = (Return u, w1) ->
  let ms := expiresInOrDefault expiresIn * 1000 in
  signingRequests w1 = S (signingRequests w)
  /\ urlCache this w1 !! id = Some (mkSignedUrlCache u (clock w1 + ms))
  /\ clock w <= clock w1
  /\ (forall w2 expiresIn2,
        urlCache this w2 !! id = urlCache this w1 !! id ->
        clock w2 < clock w + ms ->
        getPublicUrl sdk this id expiresIn2 w2 = (Return u, w2))
  /\ (forall w2 expiresIn2 u2 w3,
        urlCache this w2 !! id = urlCache this w1 !! id ->
        clock w1 + ms <= clock w2 ->
        getPublicUrl sdk this id expiresIn2 w2 = (Return u2, w3) ->
        signingRequests w3 = S (signingRequests w2)
        /\ urlCache this w3 !! id
           = Some (mkSignedUrlCache u2 (clock w3 + expiresInOrDefault expiresIn2 * 1000))).
Proof.
  intros Hmiss Hrun ms.
  destruct (getPublicUrl_miss this id expiresIn w u w1 Hmiss Hrun) as (ex & Hhist & Hentry & Hclock).
  fold ms in Hentry.
  split; [eapply signingRequests_miss; exact Hhist|].
  split; [exact Hentry|]. split; [exact Hclock|]. split.
  - intros w2 e2 Hsame Hsoon. apply getPublicUrl_hit.
    rewrite Hsame, Hentry. cbn.
    destruct (Z.ltb_spec (clock w2) (clock w1 + ms)); [reflexivity|lia].
  - intros w2 e2 u2 w3 Hsame Hlate Hrun2.
    assert (Hmiss2 : cacheHit (urlCache this w2 !! id) (clock w2) = None).
    { rewrite Hsame, Hentry. cbn.
      destruct (Z.ltb_spec (clock w2) (clock w1 + ms)); [lia|reflexivity]. }
    destruct (getPublicUrl_miss this id e2 w2 u2 w3 Hmiss2 Hrun2) as (ex2 & Hhist2 & Hentry2 & _).
    split; [eapply signingRequests_miss; exact Hhist2|exact Hentry2].
Qed.
End UrlCache.

Lemma signed_url_cache_witness :
  exists u w1,
    Adapters.getPublicUrl Sample.sdkUp
      (Adapters.mkAdapterObject Adapters.GoogleCloudStorageAdapter 0)
      "2024_3_seoul_a.jpg" (Some 60) Sample.world0 = (Return u, w1)
    /\ signingRequests w1 = 1%nat
    /\ Adapters.getPublicUrl Sample.sdkUp
         (Adapters.mkAdapterObject Adapters.GoogleCloudStorageAdapter 0)
         "2024_3_seoul_a.jpg" None
         (Adapters.mkWorld (Adapters.clock Sample.world0 + 59999) (Adapters.history w1)
            (Adapters.urlCaches w1))
       = (Return u,
          Adapters.mkWorld (Adapters.clock Sample.world0 + 59999) (Adapters.history w1)
            (Adapters.urlCaches w1)).
Proof.
  destruct (Adapters.getPublicUrl Sample.sdkUp
              (Adapters.mkAdapterObject Adapters.GoogleCloudStorageAdapter 0)
              "2024_3_seoul_a.jpg" (Some 60) Sample.world0) as [[u|e] w1] eqn:Hrun.
  - destruct (signed_url_cache Sample.sdkUp
                (Adapters.mkAdapterObject Adapters.GoogleCloudStorageAdapter 0)
                "2024_3_seoul_a.jpg" (Some 60) Sample.world0 u w1 eq_refl Hrun)
      as (Hone & _ & _ & Hsoon & _).
    exists u, w1. split; [reflexivity|]. split; [exact Hone|].
    apply Hsoon; [reflexivity|]. cbn. lia.
  - exfalso. vm_compute in Hrun. discriminate.
Defined.

(** ** The adapter contract *)

Section Contract.
Context {JS : JsRuntime}.
Variables (sdk : Adapters.Sdk) (env : string -> option string).

Lemma download_defined this :
  is_Some (download (Adapters.asAdapter sdk env this))
  <-> Adapters.hasMethod (Adapters.class this) Adapters.m_download = true.
Proof.
  unfold Adapters.asAdapter. cbn. unfold Adapters.download.
  destruct (Adapters.class this); cbn; split; intros Hs; try discriminate; try reflexivity;
    try (destruct Hs; discriminate); eauto.
Qed.

(** C3, the defect. Only the Azure class defines every operation of the
    contract: the AWS and the Google class define no [download].  A
    [downloadFile] that resolves to an adapter of one of these two classes
    finds no method to call: it throws DOWNLOAD_FAILED around the
    TypeError of the missing method, after the access counter has been
    written, and the providers are not contacted. *)
Theorem download_missing this (s : State Adapters.World) id tag f si :
  Adapters.class this <> Adapters.AzureBlobStorageAdapter ->
  Prisma.file_findById id (db s) = Some (f, Some si) ->
  adapters_get tag s = Some (Adapters.asAdapter sdk env this) ->
  Adapters.hasMethod (Adapters.class this) Adapters.m_download = false
  /\ forallb (Adapters.hasMethod (Adapters.class this)) Adapters.contract = false
  /\ forallb (Adapters.hasMethod Adapters.AzureBlobStorageAdapter) Adapters.contract = true
  /\ downloadFile id tag s
     = (Throw (downloadFailed (TypeError "adapter.download is not a function")),
        counted id s)
  /\ world (counted id s) = world s.
Proof.
  intros Hclass Hfind Hget.
  assert (Hno : Adapters.download sdk this = None).
  { unfold Adapters.download. destruct (Adapters.class this); try reflexivity. contradiction. }
  split; [destruct (Adapters.class this); try reflexivity; contradiction|].
  split; [destruct (Adapters.class this); try reflexivity; contradiction|].
  split; [reflexivity|]. split; [|reflexivity].
  rewrite (downloadFile_found id tag s f si _ Hfind Hget).
  cbn [download Adapters.asAdapter]. rewrite Hno. reflexivity.
Qed.
End Contract.

Lemma download_missing_witness :
  Adapters.hasMethod (Adapters.classOf AWS) Adapters.m_download = false
  /\ (thrown (fst (downloadFile 0 (Some "aws")
                     (Sample.serviceOver (Sample.dbStored "aws") Sample.sdkUp ["aws"]))))
     = Some (downloadFailed (TypeError "adapter.download is not a function"))
  /\ (file_accessCount
        <$> Prisma.findFileById 0
              (db (snd (downloadFile 0 (Some "aws")
                          (Sample.serviceOver (Sample.dbStored "aws") Sample.sdkUp
                             ["aws"])))))
     = Some 1.
Proof.
  destruct (download_missing Sample.sdkUp Sample.env
              (Adapters.mkAdapterObject Adapters.AwsS3Adapter 0)
              (Sample.serviceOver (Sample.dbStored "aws") Sample.sdkUp ["aws"])
              0%nat (Some "aws") Sample.storedFile (Sample.storedInfo "aws"))
    as (Hmethod & _ & _ & Hrun & _).
  - discriminate.
  - reflexivity.
  - reflexivity.
  - split; [exact Hmethod|]. rewrite Hrun. split; reflexivity.
Defined.

(** ** Scenarios *)

(** Two providers A (Azure, up) and B (S3, down), cursor at A.  The first
    upload is stored by A and leaves the cursor at B; the second is tried
    on B, fails, is retried on A and stored there, and leaves the cursor at
    B again. *)
Example failover_scenario :
  let s0 := Sample.service Sample.sdkAwsDown ["azure"; "aws"] in
  let s1 := snd (uploadFile Adapters.Date_now Sample.request Sample.photo s0) in
  let s2 := snd (uploadFile Adapters.Date_now Sample.request Sample.photo s1) in
  uploadPositions (events s1) = [0%nat]
  /\ currentAdapterIndex s1 = 1%nat
  /\ uploadPositions (events s2) = [0%nat; 1%nat; 0%nat]
  /\ currentAdapterIndex s2 = 1%nat
  /\ map (fun f => file_name f) (files (db s2)) = ["2024_3_seoul_a.jpg"; "2024_3_seoul_a.jpg"]
  /\ map si_storageType (storageInfos (db s2)) = [Some "AZURE"; Some "AZURE"].
Proof.
  cbv zeta. repeat (match goal with |- _ /\ _ => split end); vm_compute; reflexivity.
Qed.

(** The Azure adapter reports the provider as "AZURE" and is registered
    under "azure": the permanent delete of a File it stored finds no
    adapter under the stored tag and leaves the blob where it is. *)
Example azure_blob_outlives_permanent_delete :
  let s0 := Sample.service Sample.sdkUp ["azure"] in
  let s1 := snd (uploadFile Adapters.Date_now Sample.request Sample.photo s0) in
  let s2 := snd (deleteFile Adapters.Date_now Sample.Date_later (mkDeleteFileRequestDto 0 (Some true)) s1) in
  map si_storageType (storageInfos (db s1)) = [Some "AZURE"]
  /\ adapterCalls (events s2) = adapterCalls (events s1)
  /\ Adapters.history (world s2) = Adapters.history (world s1)
  /\ files (db s2) = [].
Proof.
  cbv zeta. repeat (match goal with |- _ /\ _ => split end); vm_compute; reflexivity.
Qed.

(** The listing after a soft delete. *)
Example soft_delete_scenario :
  let s0 := Sample.serviceOver (Sample.dbStored "azure") Sample.sdkUp ["azure"] in
  let s1 := snd (deleteFile Adapters.Date_now Sample.Date_later (mkDeleteFileRequestDto 0 None) s0) in
  let dto := mkListFilesRequestDto None (Some 1) (Some 10) (Some "branch1") in
  (length ∘ lresp_files <$> returned (fst (listFiles dto s0))) = Some 1%nat
  /\ (length ∘ lresp_files <$> returned (fst (listFiles dto s1))) = Some 0%nat
  /\ map si_isActive (storageInfos (db s1)) = [false]
  /\ Adapters.history (world s1) = [].
Proof.
  cbv zeta. repeat (match goal with |- _ /\ _ => split end); vm_compute; reflexivity.
Qed.
(** ** What computations keep and throw *)

Section Combinators.
Context {S : Type}.

Lemma throwsOnly_ret {A} P (a : A) : throwsOnly (S := S) P (ret a).
Proof. intros s e s' [=]. Qed.

Lemma throwsOnly_throw {A} (P : Thrown -> Prop) e : P e -> throwsOnly (S := S) (A := A) P (throw e).
Proof. intros He s e' s' [= <- _]. exact He. Qed.

Lemma throwsOnly_bind {A B} P (m : M S A) (k : A -> M S B) :
  throwsOnly P m -> (forall a, throwsOnly P (k a)) -> throwsOnly P (bind m k).
Proof.
  intros Hm Hk s e s'. unfold bind. destruct (m s) as [[a|e1] s1] eqn:Hms.
  - apply Hk.
  - intros [= <- _]. eapply Hm. exact Hms.
Qed.

Lemma throwsOnly_try_catch {A} P (m : M S A) h :
  (forall e, throwsOnly P (h e)) -> throwsOnly P (try_catch m h).
Proof.
  intros Hh s e s'. unfold try_catch. destruct (m s) as [[a|e1] s1]; [discriminate|].
  apply Hh.
Qed.

Lemma throwsOnly_get P : throwsOnly (S := S) P get.
Proof. intros s e s' [=]. Qed.

Lemma throwsOnly_weaken {A} (P Q : Thrown -> Prop) (m : M S A) :
  (forall e, P e -> Q e) -> throwsOnly P m -> throwsOnly Q m.
Proof. intros HPQ Hm s e s' Hrun. apply HPQ. eapply Hm. exact Hrun. Qed.

Context {X : Type}.
Variable proj : S -> X.

Lemma keeps_ret {A} (a : A) : keeps proj (ret a).
Proof. intros s. reflexivity. Qed.

Lemma keeps_throw {A} e : keeps (A := A) proj (throw e).
Proof. intros s. reflexivity. Qed.

Lemma keeps_get : keeps proj get.
Proof. intros s. reflexivity. Qed.

Lemma keeps_bind {A B} (m : M S A) (k : A -> M S B) :
  keeps proj m -> (forall a, keeps proj (k a)) -> keeps proj (bind m k).
Proof.
  intros Hm Hk s. unfold bind. specialize (Hm s).
  destruct (m s) as [[a|e] s1]; cbn in *; [|exact Hm].
  rewrite <- Hm. apply Hk.
Qed.

Lemma keeps_try_catch {A} (m : M S A) h :
  keeps proj m -> (forall e, keeps proj (h e)) -> keeps proj (try_catch m h).
Proof.
  intros Hm Hh s. unfold try_catch. specialize (Hm s).
  destruct (m s) as [[a|e] s1]; cbn in *; [exact Hm|].
  rewrite <- Hm. apply Hh.
Qed.

Lemma keeps_run {A} (m : M S A) s o s' : keeps proj m -> m s = (o, s') -> proj s' = proj s.
Proof. intros Hm Hrun. specialize (Hm s). now rewrite Hrun in Hm. Qed.

Lemma keepsOnThrow_keeps {A} (m : M S A) : keeps proj m -> keepsOnThrow proj m.
Proof. intros Hm s e s' Hrun. eapply keeps_run; eauto. Qed.

Lemma keepsOnThrow_neverThrows {A} (m : M S A) : neverThrows m -> keepsOnThrow proj m.
Proof. intros Hm s e s' Hrun. specialize (Hm s). rewrite Hrun in Hm. discriminate. Qed.

Lemma keepsOnThrow_bind {A B} (m : M S A) (k : A -> M S B) :
  keeps proj m -> (forall a, keepsOnThrow proj (k a)) -> keepsOnThrow proj (bind m k).
Proof.
  intros Hm Hk s e s'. unfold bind. specialize (Hm s).
  destruct (m s) as [[a|e1] s1]; cbn in *.
  - intros Hrun. rewrite <- Hm. eapply Hk. exact Hrun.
  - intros [= _ <-]. exact Hm.
Qed.

Lemma keepsOnThrow_bind_last {A B} (m : M S A) (k : A -> M S B) :
  keepsOnThrow proj m -> (forall a, neverThrows (k a)) -> keepsOnThrow proj (bind m k).
Proof.
  intros Hm Hk s e s'. unfold bind. destruct (m s) as [[a|e1] s1] eqn:Hms.
  - intros Hrun. specialize (Hk a s1). rewrite Hrun in Hk. discriminate.
  - intros [= _ <-]. eapply Hm. exact Hms.
Qed.

Lemma keepsOnThrow_try_catch {A} (m : M S A) h :
  keepsOnThrow proj m -> (forall e, keeps proj (h e)) -> keepsOnThrow proj (try_catch m h).
Proof.
  intros Hm Hh s e s'. unfold try_catch. destruct (m s) as [[a|e1] s1] eqn:Hms; [discriminate|].
  intros Hrun. rewrite <- (Hm _ _ _ Hms). eapply keeps_run; [apply Hh|exact Hrun].
Qed.
End Combinators.

Lemma neverThrows_ret {S A} (a : A) : neverThrows (S := S) (ret a).
Proof. intros s. reflexivity. Qed.

Lemma neverThrows_bind {S A B} (m : M S A) (k : A -> M S B) :
  neverThrows m -> (forall a, neverThrows (k a)) -> neverThrows (bind m k).
Proof.
  intros Hm Hk s. unfold bind. specialize (Hm s).
  destruct (m s) as [[a|e] s1]; [apply Hk|discriminate].
Qed.
(** ** The provider classes: errors and the cache *)

Section AdapterFacts.
Import Adapters.
Context {JS : JsRuntime}.
Variable sdk : Sdk.
Variable env : string -> option string.
Implicit Types (this : AdapterObject) (w : World).

Lemma keeps_request {A} (answer : Sdk -> list SdkCall -> SdkCall -> Outcome A) c :
  keeps urlCaches (request sdk answer c).
Proof. intros w. reflexivity. Qed.

Lemma request_run {A} (answer : Sdk -> list SdkCall -> SdkCall -> Outcome A) c w o w1 :
  request sdk answer c w = (o, w1) ->
  o = answer sdk (history w) c
  /\ history w1 = history w ++ [c]
  /\ urlCaches w1 = urlCaches w
  /\ clock w <= clock w1.
Proof. unfold request. intros [= <- <-]. cbn. repeat split; lia. Qed.

Lemma keeps_dateNow : keeps urlCaches dateNow.
Proof. intros w. reflexivity. Qed.

(** The [catch] of the S3 [exists]: status 404 means absent. *)
Lemma exists_catch (error : Thrown) :
  let h := fun error : Thrown =>
             match error with
             | SdkError _ (Some 404) _ => ret (S := World) false
             | _ => throw (failed AwsS3Adapter "Failed to check file existence"
                             VALIDATION_FAILED error)
             end in
  (h error = ret false /\ exists m p, error = SdkError m (Some 404) p)
  \/ (h error = throw (failed AwsS3Adapter "Failed to check file existence"
                         VALIDATION_FAILED error)
      /\ forall m p, error <> SdkError m (Some 404) p).
Proof.
  cbv zeta.
  destruct error as [m c d|m st|m|m [[|p|p]|] pl|m|t];
    try (right; split; [reflexivity|discriminate]).
  do 9 (destruct p as [p|p|]; try (right; split; [reflexivity|discriminate])).
  left. split; [reflexivity|]. eauto.
Qed.

Lemma keeps_exists this id : keeps urlCaches (exists_ sdk this id).
Proof.
  unfold exists_. destruct (class this).
  - apply keeps_try_catch.
    + apply keeps_bind; [apply keeps_request|]. intros _. apply keeps_ret.
    + intros e. destruct (exists_catch e) as [[-> _]|[-> _]];
        [apply keeps_ret|apply keeps_throw].
  - apply keeps_try_catch; [apply keeps_request|]. intros e. apply keeps_throw.
  - apply keeps_try_catch; [apply keeps_request|]. intros e. apply keeps_throw.
Qed.

Lemma keeps_ensureFileExists this id : keeps urlCaches (ensureFileExists sdk this id).
Proof.
  unfold ensureFileExists. apply keeps_bind; [apply keeps_exists|].
  intros [|]; [apply keeps_ret|apply keeps_throw].
Qed.

Lemma throwsOnly_exists this id :
  throwsOnly (hasCode VALIDATION_FAILED) (exists_ sdk this id).
Proof.
  unfold exists_. destruct (class this); apply throwsOnly_try_catch; intros e.
  - destruct (exists_catch e) as [[-> _]|[-> _]];
      [apply throwsOnly_ret|now apply throwsOnly_throw].
  - now apply throwsOnly_throw.
  - now apply throwsOnly_throw.
Qed.

Lemma keepsOnThrow_getPublicUrl this id expiresIn :
  keepsOnThrow urlCaches (getPublicUrl sdk this id expiresIn).
Proof.
  unfold getPublicUrl. apply keepsOnThrow_try_catch.
  - apply keepsOnThrow_bind; [apply keeps_get|]. intros w0.
    apply keepsOnThrow_bind; [apply keeps_dateNow|]. intros t.
    destruct (cacheHit _ t); [apply keepsOnThrow_neverThrows, neverThrows_ret|].
    apply keepsOnThrow_bind.
    { destruct (class this); try apply keeps_ret. apply keeps_ensureFileExists. }
    intros _. apply keepsOnThrow_bind.
    { destruct (class this); try apply keeps_request;
        (apply keeps_bind; [apply keeps_dateNow|]; intros t1; apply keeps_request). }
    intros u. apply keepsOnThrow_bind; [apply keeps_dateNow|]. intros t2.
    apply keepsOnThrow_neverThrows. intros w. reflexivity.
  - intros e. destruct (class this); try apply keeps_throw.
    destruct (isStorageError e); apply keeps_throw.
Qed.

Lemma keeps_finalDestinationOf file destination :
  keeps urlCaches (finalDestinationOf file destination).
Proof.
  unfold finalDestinationOf. destruct (nonEmpty destination); [apply keeps_ret|].
  apply keeps_bind; [apply keeps_dateNow|]. intros t. apply keeps_ret.
Qed.

Lemma throwsOnly_finalDestinationOf P file destination :
  throwsOnly P (finalDestinationOf file destination).
Proof.
  unfold finalDestinationOf. destruct (nonEmpty destination); [apply throwsOnly_ret|].
  apply throwsOnly_bind; [intros w e w1 [=]|]. intros t. apply throwsOnly_ret.
Qed.

(** X1. Whatever [upload] of a provider class throws is a storage error
    with code UPLOAD_FAILED, and a failed upload leaves the signed-URL
    caches as they were. *)
Theorem upload_failure this file destination w e w1 :
  upload sdk env this file destination w = (Throw e, w1) ->
  codeOf e = Some UPLOAD_FAILED /\ urlCaches w1 = urlCaches w.
Proof.
  intros Hrun. split.
  - revert w e w1 Hrun. change (throwsOnly (hasCode UPLOAD_FAILED)
                                  (upload sdk env this file destination)).
    unfold upload. destruct (class this).
    + apply throwsOnly_try_catch. intros e. now apply throwsOnly_throw.
    + apply throwsOnly_bind; [apply throwsOnly_finalDestinationOf|]. intros d.
      apply throwsOnly_bind.
      * apply throwsOnly_try_catch. intros e. now apply throwsOnly_throw.
      * intros _. apply throwsOnly_try_catch. intros e. now apply throwsOnly_throw.
    + apply throwsOnly_try_catch. intros e. now apply throwsOnly_throw.
  - revert w e w1 Hrun. change (keepsOnThrow urlCaches (upload sdk env this file destination)).
    unfold upload. destruct (class this).
    + apply keepsOnThrow_try_catch; [|intros e; apply keeps_throw].
      apply keepsOnThrow_bind; [apply keeps_finalDestinationOf|]. intros d.
      apply keepsOnThrow_bind; [apply keeps_request|]. intros _.
      apply keepsOnThrow_bind; [apply keeps_request|]. intros metadata.
      apply keepsOnThrow_bind_last; [apply keepsOnThrow_getPublicUrl|].
      intros u. apply neverThrows_ret.
    + apply keepsOnThrow_keeps.
      apply keeps_bind; [apply keeps_finalDestinationOf|]. intros d.
      apply keeps_bind.
      * apply keeps_try_catch; [apply keeps_request|]. intros e. apply keeps_throw.
      * intros _. apply keeps_try_catch; [|intros e; apply keeps_throw].
        apply keeps_bind; [apply keeps_request|]. intros metadata. apply keeps_ret.
    + apply keepsOnThrow_try_catch; [|intros e; apply keeps_throw].
      apply keepsOnThrow_bind; [apply keeps_finalDestinationOf|]. intros d.
      apply keepsOnThrow_bind; [apply keeps_request|]. intros _.
      apply keepsOnThrow_bind; [apply keeps_request|]. intros properties.
      apply keepsOnThrow_bind_last; [apply keepsOnThrow_getPublicUrl|].
      intros u. apply neverThrows_ret.
Qed.

Lemma addsRequests_ret {A} (a : A) : addsRequests (ret a).
Proof. intros w. exists []. cbn. now rewrite app_nil_r. Qed.

Lemma addsRequests_pure {A} (m : M World A) : (forall w, snd (m w) = w) -> addsRequests m.
Proof. intros Hm w. exists []. now rewrite Hm, app_nil_r. Qed.

Lemma addsRequests_throw {A} e : addsRequests (A := A) (throw e).
Proof. intros w. exists []. cbn. now rewrite app_nil_r. Qed.

Lemma addsRequests_bind {A B} (m : M World A) (k : A -> M World B) :
  addsRequests m -> (forall a, addsRequests (k a)) -> addsRequests (bind m k).
Proof.
  intros Hm Hk w. unfold bind. destruct (Hm w) as [l Hl].
  destruct (m w) as [[a|e] w1]; cbn in *; [|eauto].
  destruct (Hk a w1) as [l' Hl']. exists (l ++ l'). now rewrite Hl', Hl, app_assoc.
Qed.

Lemma addsRequests_try_catch {A} (m : M World A) h :
  addsRequests m -> (forall e, addsRequests (h e)) -> addsRequests (try_catch m h).
Proof.
  intros Hm Hh w. unfold try_catch. destruct (Hm w) as [l Hl].
  destruct (m w) as [[a|e] w1]; cbn in *; [eauto|].
  destruct (Hh e w1) as [l' Hl']. exists (l ++ l'). now rewrite Hl', Hl, app_assoc.
Qed.

Lemma addsRequests_request {A} (answer : Sdk -> list SdkCall -> SdkCall -> Outcome A) c :
  addsRequests (request sdk answer c).
Proof. intros w. exists [c]. reflexivity. Qed.

Lemma addsRequests_exists this id : addsRequests (exists_ sdk this id).
Proof.
  unfold exists_. destruct (class this).
  - apply addsRequests_try_catch.
    + apply addsRequests_bind; [apply addsRequests_request|]. intros _. apply addsRequests_ret.
    + intros e. destruct (exists_catch e) as [[-> _]|[-> _]];
        [apply addsRequests_ret|apply addsRequests_throw].
  - apply addsRequests_try_catch; [apply addsRequests_request|]. intros e. apply addsRequests_throw.
  - apply addsRequests_try_catch; [apply addsRequests_request|]. intros e. apply addsRequests_throw.
Qed.

Lemma addsRequests_ensureFileExists this id : addsRequests (ensureFileExists sdk this id).
Proof.
  unfold ensureFileExists. apply addsRequests_bind; [apply addsRequests_exists|].
  intros [|]; [apply addsRequests_ret|apply addsRequests_throw].
Qed.

Lemma addsRequests_getPublicUrl this id expiresIn : addsRequests (getPublicUrl sdk this id expiresIn).
Proof.
  unfold getPublicUrl. apply addsRequests_try_catch.
  - apply addsRequests_bind; [now apply addsRequests_pure|]. intros w0.
    apply addsRequests_bind; [now apply addsRequests_pure|]. intros t.
    destruct (cacheHit _ t); [apply addsRequests_ret|].
    apply addsRequests_bind.
    { destruct (class this); try apply addsRequests_ret.
      unfold ensureFileExists. apply addsRequests_bind; [apply addsRequests_exists|].
      intros [|]; [apply addsRequests_ret|apply addsRequests_throw]. }
    intros _. apply addsRequests_bind.
    { destruct (class this); try apply addsRequests_request;
        (apply addsRequests_bind; [now apply addsRequests_pure|]; intros t1; apply addsRequests_request). }
    intros u. apply addsRequests_bind; [now apply addsRequests_pure|]. intros t2.
    apply addsRequests_bind; [|intros _; apply addsRequests_ret].
    intros w. exists []. cbn. now rewrite app_nil_r.
  - intros e. destruct (class this); try apply addsRequests_throw.
    destruct (isStorageError e); apply addsRequests_throw.
Qed.

(** A URL that [getPublicUrl] returned is in the cache and still valid at
    that moment. *)
Lemma getPublicUrl_leaves_hit this id expiresIn w u w1 :
  0 < expiresInOrDefault expiresIn ->
  getPublicUrl sdk this id expiresIn w = (Return u, w1) ->
  cacheHit (urlCache this w1 !! id) (clock w1) = Some u.
Proof.
  intros Hpos Hrun.
  destruct (cacheHit (urlCache this w !! id) (clock w)) as [u0|] eqn:Hhit.
  - rewrite (getPublicUrl_hit sdk this id expiresIn w u0 Hhit) in Hrun.
    injection Hrun as <- <-. exact Hhit.
  - destruct (getPublicUrl_miss sdk this id expiresIn w u w1 Hhit Hrun) as (ex & _ & Hentry & _).
    rewrite Hentry. cbn.
    destruct (Z.ltb_spec (clock w1) (clock w1 + expiresInOrDefault expiresIn * 1000));
      [reflexivity|lia].
Qed.

(** X2. What a successful [upload] reports: the object key is the
    destination it was given, or the time of the call and the original
    name when there is none; the first request it made is the transfer
    of the file under that key with the file's content type; and only
    the Azure class names its provider in the result. *)
Theorem upload_result this file destination w r w1 :
  upload sdk env this file destination w = (Return r, w1) ->
  storageFileId r
  = default (numToString (Int (clock w)) +:+ "-" +:+ originalname file) (nonEmpty destination)
  /\ (exists rest,
        history w1
        = history w ++ mkSdkCall (class this) (Put (mimetype file)) (storageFileId r) :: rest)
  /\ storageType r
     = match class this with AzureBlobStorageAdapter => Some "AZURE" | _ => None end.
Proof.
  unfold upload. destruct this as [c h]. cbn [class].
  assert (Hdest : finalDestinationOf file destination w
                  = (Return (default (numToString (Int (clock w)) +:+ "-" +:+ originalname file)
                               (nonEmpty destination)), w)).
  { unfold finalDestinationOf. destruct (nonEmpty destination); reflexivity. }
  set (d := default _ (nonEmpty destination)) in *.
  destruct c.
  - unfold try_catch. unfold bind at 1. rewrite Hdest.
    unfold bind at 1.
    destruct (request sdk answer_unit _ w) as [[[]|] w2] eqn:Hput; [|discriminate].
    apply request_run in Hput. destruct Hput as (_ & Hput & _).
    unfold bind at 1.
    destruct (request sdk answer_properties _ w2) as [[metadata|] w3] eqn:Hhead; [|discriminate].
    apply request_run in Hhead. destruct Hhead as (_ & Hhead & _).
    unfold bind at 1.
    match goal with
    | |- context [getPublicUrl sdk ?t d None w3] =>
        destruct (addsRequests_getPublicUrl t d None w3) as [l Hl];
        destruct (getPublicUrl sdk t d None w3) as [[u|e] w4]; [|discriminate]
    end.
    cbn in Hl. intros [= <- <-]. cbn [storageFileId storageType].
    split; [reflexivity|]. split; [|reflexivity].
    rewrite Hl, Hhead, Hput, <- !app_assoc. cbn. eauto.
  - unfold bind at 1. rewrite Hdest.
    unfold bind at 1. unfold try_catch at 1.
    destruct (request sdk answer_unit _ w) as [[[]|] w2] eqn:Hput; [|discriminate].
    apply request_run in Hput. destruct Hput as (_ & Hput & _).
    unfold try_catch, bind.
    destruct (request sdk answer_properties _ w2) as [[metadata|] w3] eqn:Hhead; [|discriminate].
    apply request_run in Hhead. destruct Hhead as (_ & Hhead & _).
    intros [= <- <-]. cbn [storageFileId storageType].
    split; [reflexivity|]. split; [|reflexivity].
    rewrite Hhead, Hput, <- !app_assoc. cbn. eauto.
  - unfold try_catch. unfold bind at 1. rewrite Hdest.
    unfold bind at 1.
    destruct (request sdk answer_unit _ w) as [[[]|] w2] eqn:Hput; [|discriminate].
    apply request_run in Hput. destruct Hput as (_ & Hput & _).
    unfold bind at 1.
    destruct (request sdk answer_properties _ w2) as [[metadata|] w3] eqn:Hhead; [|discriminate].
    apply request_run in Hhead. destruct Hhead as (_ & Hhead & _).
    unfold bind at 1.
    match goal with
    | |- context [getPublicUrl sdk ?t d None w3] =>
        destruct (addsRequests_getPublicUrl t d None w3) as [l Hl];
        destruct (getPublicUrl sdk t d None w3) as [[u|e] w4]; [|discriminate]
    end.
    cbn in Hl. intros [= <- <-]. cbn [storageFileId storageType].
    split; [reflexivity|]. split; [|reflexivity].
    rewrite Hl, Hhead, Hput, <- !app_assoc. cbn. eauto.
Qed.

(** X3. The URL in the result of an [upload] of the S3 or the Azure class
    is in the object's signed-URL cache when the upload returns: a
    [getPublicUrl] for the new key at that moment returns the same URL
    and makes no request. *)
Theorem upload_url_cached this file destination w r w1 :
  class this <> GoogleCloudStorageAdapter ->
  upload sdk env this file destination w = (Return r, w1) ->
  exists u,
    storageUrl r = Some u
    /\ forall expiresIn, getPublicUrl sdk this (storageFileId r) expiresIn w1 = (Return u, w1).
Proof.
  intros Hclass. unfold upload. destruct this as [c h]. cbn [class] in *.
  destruct c; [|contradiction|].
  - unfold try_catch. unfold bind at 1.
    destruct (finalDestinationOf file destination w) as [[d|] w0]; [|discriminate].
    unfold bind at 1. destruct (request sdk answer_unit _ w0) as [[|] w0']; [|discriminate].
    unfold bind at 1. destruct (request sdk answer_properties _ w0') as [[metadata|] w0''];
      [|discriminate].
    unfold bind at 1.
    destruct (getPublicUrl sdk _ d None w0'') as [[u|e] w2] eqn:Hurl; [|discriminate].
    intros [= <- <-]. exists u. cbn [storageUrl storageFileId]. split; [reflexivity|].
    intros expiresIn. apply getPublicUrl_hit.
    eapply getPublicUrl_leaves_hit; [|exact Hurl]. reflexivity.
  - unfold try_catch. unfold bind at 1.
    destruct (finalDestinationOf file destination w) as [[d|] w0]; [|discriminate].
    unfold bind at 1. destruct (request sdk answer_unit _ w0) as [[|] w0']; [|discriminate].
    unfold bind at 1. destruct (request sdk answer_properties _ w0') as [[metadata|] w0''];
      [|discriminate].
    unfold bind at 1.
    destruct (getPublicUrl sdk _ d None w0'') as [[u|e] w2] eqn:Hurl; [|discriminate].
    intros [= <- <-]. exists u. cbn [storageUrl storageFileId]. split; [reflexivity|].
    intros expiresIn. apply getPublicUrl_hit.
    eapply getPublicUrl_leaves_hit; [|exact Hurl]. reflexivity.
Qed.

Lemma urlCache_keeps this w w1 : urlCaches w1 = urlCaches w -> urlCache this w1 = urlCache this w.
Proof. unfold urlCache. now intros ->. Qed.

Lemma urlCache_other this other c w :
  handle other <> handle this -> urlCache other (set_urlCache this c w) = urlCache other w.
Proof. intros Hne. unfold urlCache, set_urlCache. cbn. now rewrite lookup_insert_ne. Qed.

Lemma ensureFileExists_run this id w o w1 :
  ensureFileExists sdk this id w = (o, w1) ->
  match o with
  | Return _ => exists_ sdk this id w = (Return true, w1)
  | Throw e =>
      exists_ sdk this id w = (Throw e, w1)
      \/ (exists_ sdk this id w = (Return false, w1)
          /\ e = StorageError ("File not found: " +:+ id) FILE_NOT_FOUND None)
  end.
Proof.
  unfold ensureFileExists, bind.
  destruct (exists_ sdk this id w) as [[[|]|e] w2]; cbn; intros [= <- <-]; auto.
Qed.

(** What [delete] leaves when it returns. *)
Lemma delete_returns this id w w1 :
  delete sdk this id w = (Return tt, w1) ->
  exists w0,
    urlCaches w0 = urlCaches w
    /\ (exists before, history w0 = history w ++ before ++ [mkSdkCall (class this) Remove id])
    /\ w1 = set_urlCache this (base.delete id (urlCache this w0)) w0.
Proof.
  unfold delete.
  destruct (class this); unfold try_catch; unfold bind at 1.
  - destruct (ensureFileExists sdk this id w) as [[[]|e] w2] eqn:Hprobe; [|discriminate].
    pose proof (keeps_run urlCaches _ _ _ _ (keeps_ensureFileExists _ _) Hprobe) as Hc2.
    destruct (addsRequests_ensureFileExists this id w) as [l Hl]. rewrite Hprobe in Hl. cbn in Hl.
    unfold bind at 1.
    destruct (request sdk answer_unit _ w2) as [[[]|e] w3] eqn:Hrm; [|discriminate].
    apply request_run in Hrm. destruct Hrm as (_ & Hh3 & Hc3 & _).
    unfold urlCache_delete. intros [= <-]. exists w3.
    split; [congruence|]. split; [|reflexivity]. exists l. now rewrite Hh3, Hl, app_assoc.
  - destruct (ensureFileExists sdk this id w) as [[[]|e] w2] eqn:Hprobe;
      [|destruct (isStorageError e); discriminate].
    pose proof (keeps_run urlCaches _ _ _ _ (keeps_ensureFileExists _ _) Hprobe) as Hc2.
    destruct (addsRequests_ensureFileExists this id w) as [l Hl]. rewrite Hprobe in Hl. cbn in Hl.
    unfold bind at 1.
    destruct (request sdk answer_unit _ w2) as [[[]|e] w3] eqn:Hrm;
      [|destruct (isStorageError e); discriminate].
    apply request_run in Hrm. destruct Hrm as (_ & Hh3 & Hc3 & _).
    unfold urlCache_delete. intros [= <-]. exists w3.
    split; [congruence|]. split; [|reflexivity]. exists l. now rewrite Hh3, Hl, app_assoc.
  - destruct (request sdk answer_unit _ w) as [[[]|e] w3] eqn:Hrm; [|discriminate].
    apply request_run in Hrm. destruct Hrm as (_ & Hh3 & Hc3 & _).
    unfold urlCache_delete. intros [= <-]. exists w3.
    split; [congruence|]. split; [|reflexivity]. exists []. now rewrite Hh3.
Qed.

(** X4. When [delete] of a provider class returns, its last request was
    the removal of the object, the entry of the object is gone from the
    signed-URL cache of this adapter object, every other entry and every
    other object's cache is as before, and a later [getPublicUrl] for the
    object that returns a URL has made a signing request for it. *)
Theorem delete_evicts_cache this id w w1 :
  delete sdk this id w = (Return tt, w1) ->
  (exists before, history w1 = history w ++ before ++ [mkSdkCall (class this) Remove id])
  /\ urlCache this w1 !! id = None
  /\ (forall id', id' <> id -> urlCache this w1 !! id' = urlCache this w !! id')
  /\ (forall other, handle other <> handle this -> urlCache other w1 = urlCache other w)
  /\ (forall expiresIn u w2,
        getPublicUrl sdk this id expiresIn w1 = (Return u, w2) ->
        signingRequests w2 = S (signingRequests w1)).
Proof.
  intros Hrun. destruct (delete_returns this id w w1 Hrun) as (w0 & Hc & Hh & ->).
  assert (Hgone : urlCache this (set_urlCache this (base.delete id (urlCache this w0)) w0) !! id
                  = None).
  { rewrite urlCache_set_urlCache. apply lookup_delete_eq. }
  split; [exact Hh|]. split; [exact Hgone|]. split; [|split].
  - intros id' Hne. rewrite urlCache_set_urlCache, lookup_delete_ne by congruence.
    now rewrite (urlCache_keeps this w w0 Hc).
  - intros other Hne. rewrite urlCache_other by exact Hne. now apply urlCache_keeps.
  - intros expiresIn u w2 Hurl.
    assert (Hmiss : cacheHit
              (urlCache this (set_urlCache this (base.delete id (urlCache this w0)) w0) !! id)
              (clock (set_urlCache this (base.delete id (urlCache this w0)) w0)) = None)
      by now rewrite Hgone.
    destruct (getPublicUrl_miss sdk this id expiresIn _ u w2 Hmiss Hurl) as (ex & Hhist & _).
    eapply signingRequests_miss. exact Hhist.
Qed.

(** X5. When [delete] of a provider class throws, the signed-URL caches
    are as they were.  The S3 and the Azure class throw DELETE_FAILED
    whatever went wrong; the Google class passes on an error that has a
    code of its own.  The S3 and the Google class ask first whether the
    object exists: for an absent object they send no removal, and the
    Google class throws FILE_NOT_FOUND, the S3 class DELETE_FAILED with
    the not-found message as details. *)
Theorem delete_failure this id w e w1 :
  delete sdk this id w = (Throw e, w1) ->
  urlCaches w1 = urlCaches w
  /\ match class this with
     | GoogleCloudStorageAdapter =>
         isStorageError e = true
         /\ (forall w2, exists_ sdk this id w = (Return false, w2) ->
               e = fileNotFoundAt id /\ w1 = w2)
     | AwsS3Adapter =>
         codeOf e = Some DELETE_FAILED
         /\ (forall w2, exists_ sdk this id w = (Return false, w2) ->
               detailsOf e = Some (JsValue ("File not found: " +:+ id)) /\ w1 = w2)
     | AzureBlobStorageAdapter => codeOf e = Some DELETE_FAILED
     end.
Proof.
  unfold delete. destruct (class this) eqn:Hclass; unfold try_catch; unfold bind at 1.
  - destruct (ensureFileExists sdk this id w) as [[[]|e0] w2] eqn:Hprobe.
    + pose proof (keeps_run urlCaches _ _ _ _ (keeps_ensureFileExists _ _) Hprobe) as Hc2.
      apply ensureFileExists_run in Hprobe.
      unfold bind at 1.
      destruct (request sdk answer_unit _ w2) as [[[]|e1] w3] eqn:Hrm; [discriminate|].
      apply request_run in Hrm. destruct Hrm as (_ & _ & Hc3 & _).
      intros [= <- <-]. split; [congruence|]. split; [reflexivity|].
      intros w4 Hex. rewrite Hex in Hprobe. discriminate.
    + pose proof (keeps_run urlCaches _ _ _ _ (keeps_ensureFileExists _ _) Hprobe) as Hc2.
      apply ensureFileExists_run in Hprobe.
      intros [= <- <-]. split; [exact Hc2|]. split; [reflexivity|].
      intros w4 Hex. destruct Hprobe as [Hthrow|[Hfalse ->]]; [congruence|].
      split; [reflexivity|congruence].
  - destruct (ensureFileExists sdk this id w) as [[[]|e0] w2] eqn:Hprobe.
    + pose proof (keeps_run urlCaches _ _ _ _ (keeps_ensureFileExists _ _) Hprobe) as Hc2.
      apply ensureFileExists_run in Hprobe.
      unfold bind at 1.
      destruct (request sdk answer_unit _ w2) as [[[]|e1] w3] eqn:Hrm; [discriminate|].
      apply request_run in Hrm. destruct Hrm as (_ & _ & Hc3 & _).
      destruct (isStorageError e1) eqn:Hse; intros [= <- <-];
        (split; [congruence|]); (split; [first [exact Hse|reflexivity]|]);
        intros w4 Hex; rewrite Hex in Hprobe; discriminate.
    + pose proof (keeps_run urlCaches _ _ _ _ (keeps_ensureFileExists _ _) Hprobe) as Hc2.
      apply ensureFileExists_run in Hprobe.
      destruct (isStorageError e0) eqn:Hse; intros [= <- <-];
        (split; [exact Hc2|]); (split; [first [exact Hse|reflexivity]|]);
        intros w4 Hex; (destruct Hprobe as [Hthrow|[Hfalse ->]]; [congruence|]).
      * split; [reflexivity|congruence].
      * discriminate.
  - destruct (request sdk answer_unit _ w) as [[[]|e1] w3] eqn:Hrm; [discriminate|].
    apply request_run in Hrm. destruct Hrm as (_ & _ & Hc3 & _).
    intros [= <- <-]. split; [exact Hc3|reflexivity].
Qed.

(** X6. [getPublicUrl] throws only when the cache has no valid entry for
    the object, and then it leaves the caches as they were.  The S3 and
    the Azure class throw URL_GENERATION_FAILED; the Google class asks
    first whether the object exists, and for an absent object throws
    FILE_NOT_FOUND without a signing request. *)
Theorem getPublicUrl_failure this id expiresIn w e w1 :
  getPublicUrl sdk this id expiresIn w = (Throw e, w1) ->
  cacheHit (urlCache this w !! id) (clock w) = None
  /\ urlCaches w1 = urlCaches w
  /\ match class this with
     | GoogleCloudStorageAdapter =>
         isStorageError e = true
         /\ (forall w2, exists_ sdk this id w = (Return false, w2) ->
               e = fileNotFoundAt id /\ w1 = w2)
     | _ => codeOf e = Some URL_GENERATION_FAILED
     end.
Proof.
  intros Hrun.
  destruct (cacheHit (urlCache this w !! id) (clock w)) as [u|] eqn:Hhit.
  { rewrite (getPublicUrl_hit sdk this id expiresIn w u Hhit) in Hrun. discriminate. }
  split; [reflexivity|].
  split; [exact (keepsOnThrow_getPublicUrl this id expiresIn w e w1 Hrun)|].
  revert Hrun. unfold getPublicUrl, try_catch. unfold bind at 1. cbn [get].
  unfold bind at 1. cbn [dateNow]. unfold Date_now. rewrite Hhit.
  destruct (class this) eqn:Hclass.
  - match goal with |- context [bind ?m ?k w] => destruct (bind m k w) as [[u|e0] w2] end;
      [discriminate|]. intros [= <- <-]. reflexivity.
  - unfold bind at 1.
    destruct (ensureFileExists sdk this id w) as [[[]|e0] w2] eqn:Hprobe.
    + apply ensureFileExists_run in Hprobe.
      match goal with |- context [bind ?m ?k w2] => destruct (bind m k w2) as [[u|e1] w3] end;
        [discriminate|].
      destruct (isStorageError e1) eqn:Hse; intros [= <- <-];
        (split; [first [exact Hse|reflexivity]|]);
        intros w4 Hex; rewrite Hex in Hprobe; discriminate.
    + apply ensureFileExists_run in Hprobe.
      destruct (isStorageError e0) eqn:Hse; intros [= <- <-];
        (split; [first [exact Hse|reflexivity]|]);
        intros w4 Hex; (destruct Hprobe as [Hthrow|[Hfalse ->]]; [congruence|]).
      * split; [reflexivity|congruence].
      * discriminate.
  - match goal with |- context [bind ?m ?k w] => destruct (bind m k w) as [[u|e0] w2] end;
      [discriminate|]. intros [= <- <-]. reflexivity.
Qed.

(** X7. [exists] makes one request and leaves the caches alone; whatever
    it throws has code VALIDATION_FAILED.  The S3 class, which has no
    existence request, asks for the object's metadata: it answers [true]
    when the request succeeds and [false] exactly when it fails with
    HTTP status 404. *)
Theorem exists_probe this id w o w1 :
  exists_ sdk this id w = (o, w1) ->
  urlCaches w1 = urlCaches w
  /\ length (history w1) = S (length (history w))
  /\ (forall e, o = Throw e -> codeOf e = Some VALIDATION_FAILED)
  /\ (class this = AwsS3Adapter ->
      let answer := answer_properties sdk (history w) (mkSdkCall AwsS3Adapter Head id) in
      (o = Return true <-> exists properties, answer = Return properties)
      /\ (o = Return false <-> exists m p, answer = Throw (SdkError m (Some 404) p))).
Proof.
  intros Hrun.
  split; [exact (keeps_run urlCaches _ _ _ _ (keeps_exists this id) Hrun)|].
  split; [|split].
  - revert Hrun. unfold exists_.
    destruct (class this); unfold try_catch; [unfold bind|..];
      match goal with
      | |- context [request sdk ?a ?c w] =>
          destruct (request sdk a c w) as [[r|e0] w2] eqn:Hreq;
          apply request_run in Hreq; destruct Hreq as (_ & Hh & _)
      end.
    + intros [= <- <-]. rewrite Hh, length_app. cbn. lia.
    + destruct (exists_catch e0) as [[-> _]|[-> _]]; intros [= <- <-];
        rewrite Hh, length_app; cbn; lia.
    + intros [= <- <-]. rewrite Hh, length_app. cbn. lia.
    + intros [= <- <-]. rewrite Hh, length_app. cbn. lia.
    + intros [= <- <-]. rewrite Hh, length_app. cbn. lia.
    + intros [= <- <-]. rewrite Hh, length_app. cbn. lia.
  - intros e ->. exact (throwsOnly_exists this id w e w1 Hrun).
  - intros Hclass. cbv zeta. revert Hrun. unfold exists_. rewrite Hclass.
    unfold try_catch, bind.
    destruct (request sdk answer_properties _ w) as [[r|e0] w2] eqn:Hreq.
    + apply request_run in Hreq. destruct Hreq as (<- & _).
      intros [= <- <-]. split; split; eauto; try discriminate.
      intros (m & p & [=]).
    + apply request_run in Hreq. destruct Hreq as (<- & _).
      destruct (exists_catch e0) as [[-> (m & p & ->)]|[-> Hne]]; intros [= <- <-].
      * split; split; eauto; try discriminate. intros (pr & [=]).
      * split; split; try discriminate.
        -- intros (pr & [=]).
        -- intros (m & p & [= ->]). now destruct (Hne m p).
Qed.

Lemma countChar_stripQuotes s : countChar doubleQuote (stripQuotes s) = O.
Proof.
  induction s as [|c s IH]; cbn; [reflexivity|].
  change (Ascii.ascii_of_nat 34) with doubleQuote.
  destruct (Ascii.eqb c doubleQuote) eqn:E; [exact IH|]. cbn. now rewrite E, IH.
Qed.

Lemma keeps_ensureBlobExists id : keeps urlCaches (Hashing.ensureBlobExists sdk id).
Proof.
  unfold Hashing.ensureBlobExists. apply keeps_try_catch; [|intros e; apply keeps_throw].
  apply keeps_bind; [apply keeps_request|]. intros [|]; [apply keeps_ret|apply keeps_throw].
Qed.

(** X8. [getFileHash] leaves the caches alone.  The S3 and the Azure class
    return the ETag without its double quotes, and every failure, a
    missing object included, has code VALIDATION_FAILED: the Azure class
    wraps the FILE_NOT_FOUND of its own existence check.  The Google
    class asks first whether the object exists and throws FILE_NOT_FOUND
    for an absent object. *)
Theorem getFileHash_outcome this id w o w1 :
  Hashing.getFileHash sdk this id w = (o, w1) ->
  urlCaches w1 = urlCaches w
  /\ match class this with
     | GoogleCloudStorageAdapter =>
         forall w2, exists_ sdk this id w = (Return false, w2) ->
           o = Throw (fileNotFoundAt id) /\ w1 = w2
     | _ =>
         match o with
         | Return hash => countChar doubleQuote hash = O
         | Throw e => codeOf e = Some VALIDATION_FAILED
         end
     end.
Proof.
  intros Hrun. split.
  - revert Hrun. generalize w, o, w1. intros w' o' w1'. apply keeps_run.
    unfold Hashing.getFileHash. destruct (class this); apply keeps_try_catch.
    + apply keeps_bind; [apply keeps_request|]. intros r.
      destruct (nonEmpty (etag r)); [apply keeps_ret|apply keeps_throw].
    + intros e. apply keeps_throw.
    + apply keeps_bind; [apply keeps_ensureFileExists|]. intros _.
      apply keeps_bind; [apply keeps_request|]. intros r.
      destruct (nonEmpty (md5Hash r)); [apply keeps_ret|apply keeps_throw].
    + intros e. destruct (isStorageError e); apply keeps_throw.
    + apply keeps_bind; [apply keeps_ensureBlobExists|]. intros _.
      apply keeps_bind; [apply keeps_request|]. intros r.
      destruct (nonEmpty (etag r)); [apply keeps_ret|apply keeps_throw].
    + intros e. apply keeps_throw.
  - revert Hrun. unfold Hashing.getFileHash. destruct (class this) eqn:Hclass.
    + unfold try_catch, bind.
      destruct (request sdk answer_properties _ w) as [[r|e0] w2]; [|now intros [= <- <-]].
      destruct (nonEmpty (etag r)); intros [= <- <-]; [apply countChar_stripQuotes|reflexivity].
    + unfold try_catch. unfold bind at 1.
      destruct (ensureFileExists sdk this id w) as [[[]|e0] w2] eqn:Hprobe;
        apply ensureFileExists_run in Hprobe.
      * intros _ w3 Hex. rewrite Hex in Hprobe. discriminate.
      * intros Hrun w3 Hex. destruct Hprobe as [Hthrow|[Hfalse ->]]; [congruence|].
        cbn in Hrun. injection Hrun as <- <-. split; [reflexivity|congruence].
    + unfold try_catch. unfold bind at 1.
      destruct (Hashing.ensureBlobExists sdk id w) as [[[]|e0] w2]; [|now intros [= <- <-]].
      unfold bind.
      destruct (request sdk answer_properties _ w2) as [[r|e0] w3]; [|now intros [= <- <-]].
      destruct (nonEmpty (etag r)); intros [= <- <-]; [apply countChar_stripQuotes|reflexivity].
Qed.
End AdapterFacts.

Lemma upload_failure_witness :
  exists e w1,
    Adapters.upload Sample.sdkDown Sample.env
      (Adapters.mkAdapterObject Adapters.GoogleCloudStorageAdapter 0)
      Sample.photo (Some "2024_3_seoul_a.jpg") Sample.world0 = (Throw e, w1)
    /\ codeOf e = Some UPLOAD_FAILED
    /\ Adapters.urlCaches w1 = Adapters.urlCaches Sample.world0.
Proof.
  destruct (Adapters.upload Sample.sdkDown Sample.env
              (Adapters.mkAdapterObject Adapters.GoogleCloudStorageAdapter 0)
              Sample.photo (Some "2024_3_seoul_a.jpg") Sample.world0) as [[r|e] w1] eqn:Hrun.
  - exfalso. vm_compute in Hrun. discriminate.
  - exists e, w1. split; [reflexivity|].
    exact (upload_failure Sample.sdkDown Sample.env _ _ _ _ _ _ Hrun).
Defined.

Lemma upload_result_witness :
  exists r w1,
    Adapters.upload Sample.sdkUp Sample.env
      (Adapters.mkAdapterObject Adapters.AzureBlobStorageAdapter 0)
      Sample.photo None Sample.world0 = (Return r, w1)
    /\ storageFileId r = "1000000000-2024_3_seoul_a.jpg"
    /\ storageType r = Some "AZURE".
Proof.
  destruct (Adapters.upload Sample.sdkUp Sample.env
              (Adapters.mkAdapterObject Adapters.AzureBlobStorageAdapter 0)
              Sample.photo None Sample.world0) as [[r|e] w1] eqn:Hrun.
  - exists r, w1. split; [reflexivity|].
    destruct (upload_result Sample.sdkUp Sample.env _ _ _ _ _ _ Hrun) as (Hkey & _ & Htag).
    split; [exact Hkey|exact Htag].
  - exfalso. vm_compute in Hrun. discriminate.
Defined.

Lemma upload_url_cached_witness :
  exists r w1 u,
    Adapters.upload Sample.sdkUp Sample.env
      (Adapters.mkAdapterObject Adapters.AwsS3Adapter 0)
      Sample.photo (Some "2024_3_seoul_a.jpg") Sample.world0 = (Return r, w1)
    /\ storageUrl r = Some u
    /\ Adapters.getPublicUrl Sample.sdkUp (Adapters.mkAdapterObject Adapters.AwsS3Adapter 0)
         (storageFileId r) (Some 60) w1 = (Return u, w1).
Proof.
  destruct (Adapters.upload Sample.sdkUp Sample.env
              (Adapters.mkAdapterObject Adapters.AwsS3Adapter 0)
              Sample.photo (Some "2024_3_seoul_a.jpg") Sample.world0) as [[r|e] w1] eqn:Hrun.
  - destruct (upload_url_cached Sample.sdkUp Sample.env
                (Adapters.mkAdapterObject Adapters.AwsS3Adapter 0) _ _ _ _ _
                ltac:(discriminate) Hrun)
      as (u & Hurl & Hcached).
    exists r, w1, u. split; [reflexivity|]. split; [exact Hurl|apply Hcached].
  - exfalso. vm_compute in Hrun. discriminate.
Defined.

Lemma delete_evicts_cache_witness :
  exists w1,
    is_Some (Adapters.urlCache (Adapters.mkAdapterObject Adapters.GoogleCloudStorageAdapter 0)
               Fixture.cachedWorld !! "2024_3_seoul_a.jpg")
    /\ Adapters.delete Sample.sdkUp
         (Adapters.mkAdapterObject Adapters.GoogleCloudStorageAdapter 0)
         "2024_3_seoul_a.jpg" Fixture.cachedWorld = (Return tt, w1)
    /\ Adapters.urlCache (Adapters.mkAdapterObject Adapters.GoogleCloudStorageAdapter 0) w1
         !! "2024_3_seoul_a.jpg" = None.
Proof.
  destruct (Adapters.delete Sample.sdkUp
              (Adapters.mkAdapterObject Adapters.GoogleCloudStorageAdapter 0)
              "2024_3_seoul_a.jpg" Fixture.cachedWorld) as [[[]|e] w1] eqn:Hrun.
  - exists w1. split; [vm_compute; eauto|]. split; [reflexivity|].
    exact (proj1 (proj2 (delete_evicts_cache Sample.sdkUp _ _ _ _ Hrun))).
  - exfalso. vm_compute in Hrun. discriminate.
Defined.

Lemma delete_failure_witness :
  exists e w1,
    Adapters.delete Sample.sdkDown (Adapters.mkAdapterObject Adapters.AzureBlobStorageAdapter 0)
      "2024_3_seoul_a.jpg" Fixture.cachedWorld = (Throw e, w1)
    /\ codeOf e = Some DELETE_FAILED
    /\ Adapters.urlCaches w1 = Adapters.urlCaches Fixture.cachedWorld.
Proof.
  destruct (Adapters.delete Sample.sdkDown
              (Adapters.mkAdapterObject Adapters.AzureBlobStorageAdapter 0)
              "2024_3_seoul_a.jpg" Fixture.cachedWorld) as [[[]|e] w1] eqn:Hrun.
  - exfalso. vm_compute in Hrun. discriminate.
  - exists e, w1. split; [reflexivity|].
    destruct (delete_failure Sample.sdkDown _ _ _ _ _ Hrun) as (Hcaches & Hcode).
    split; [exact Hcode|exact Hcaches].
Defined.

Lemma getPublicUrl_failure_witness :
  exists e w1,
    Adapters.getPublicUrl Sample.sdkDown (Adapters.mkAdapterObject Adapters.AwsS3Adapter 0)
      "2024_3_seoul_a.jpg" None Sample.world0 = (Throw e, w1)
    /\ codeOf e = Some URL_GENERATION_FAILED.
Proof.
  destruct (Adapters.getPublicUrl Sample.sdkDown
              (Adapters.mkAdapterObject Adapters.AwsS3Adapter 0)
              "2024_3_seoul_a.jpg" None Sample.world0) as [[u|e] w1] eqn:Hrun.
  - exfalso. vm_compute in Hrun. discriminate.
  - exists e, w1. split; [reflexivity|].
    exact (proj2 (proj2 (getPublicUrl_failure Sample.sdkDown _ _ _ _ _ _ Hrun))).
Defined.

Lemma exists_probe_witness :
  exists e w1,
    Adapters.exists_ Sample.sdkDown (Adapters.mkAdapterObject Adapters.AwsS3Adapter 0)
      "2024_3_seoul_a.jpg" Sample.world0 = (Throw e, w1)
    /\ codeOf e = Some VALIDATION_FAILED.
Proof.
  destruct (Adapters.exists_ Sample.sdkDown (Adapters.mkAdapterObject Adapters.AwsS3Adapter 0)
              "2024_3_seoul_a.jpg" Sample.world0) as [[b|e] w1] eqn:Hrun.
  - exfalso. vm_compute in Hrun. discriminate.
  - exists e, w1. split; [reflexivity|].
    destruct (exists_probe Sample.sdkDown _ _ _ _ _ Hrun) as (_ & _ & Hcode & _).
    now apply Hcode.
Defined.

Lemma getFileHash_outcome_witness :
  exists hash w1,
    Hashing.getFileHash Sample.sdkUp (Adapters.mkAdapterObject Adapters.AzureBlobStorageAdapter 0)
      "2024_3_seoul_a.jpg" Sample.world0 = (Return hash, w1)
    /\ countChar doubleQuote hash = O.
Proof.
  destruct (Hashing.getFileHash Sample.sdkUp
              (Adapters.mkAdapterObject Adapters.AzureBlobStorageAdapter 0)
              "2024_3_seoul_a.jpg" Sample.world0) as [[hash|e] w1] eqn:Hrun.
  - exists hash, w1. split; [reflexivity|].
    exact (proj2 (getFileHash_outcome Sample.sdkUp _ _ _ _ _ Hrun)).
  - exfalso. vm_compute in Hrun. discriminate.
Defined.
(** ** The registry *)

Section Initialisation.
Context {JS : JsRuntime}.
Variable sdk : Adapters.Sdk.
Variable env : string -> option string.
Implicit Types (s : State Adapters.World).

Lemma createAdapter_returns p h this :
  Adapters.createAdapter sdk env p h = Return this
  <-> exists t, p = StorageType_value t /\ configured sdk env t = true
                /\ this = Adapters.mkAdapterObject (Adapters.classOf t) h.
Proof.
  unfold Adapters.createAdapter, Adapters.construct, configured. split.
  - destruct (String.eqb_spec p (StorageType_value GOOGLE)) as [->|_].
    { destruct (Adapters.isSet env "GCP_BUCKET_NAME") eqn:Hb; [|discriminate].
      destruct (Adapters.isSet env "GCP_CREDENTIALS") eqn:Hc; [|discriminate].
      cbn [andb Adapters.clientSetting].
      destruct (Adapters.client sdk _ _) eqn:Hcl; [|discriminate].
      intros [= <-]. exists GOOGLE. cbn [Adapters.classOf Adapters.clientSetting].
      rewrite ?Hb, ?Hc, ?Hcl. auto. }
    destruct (String.eqb_spec p (StorageType_value AWS)) as [->|_].
    { destruct (Adapters.isSet env "AWS_BUCKET_NAME") eqn:Hb; [|discriminate].
      destruct (Adapters.isSet env "AWS_REGION") eqn:Hc; [|discriminate].
      cbn [andb Adapters.clientSetting].
      destruct (Adapters.client sdk _ _) eqn:Hcl; [|discriminate].
      intros [= <-]. exists AWS. cbn [Adapters.classOf Adapters.clientSetting].
      rewrite ?Hb, ?Hc, ?Hcl. auto. }
    destruct (String.eqb_spec p (StorageType_value AZURE)) as [->|_]; [|discriminate].
    destruct (Adapters.isSet env "AZURE_STORAGE_CONNECTION_STRING") eqn:Hb; [|discriminate].
    destruct (Adapters.isSet env "AZURE_CONTAINER_NAME") eqn:Hc; [|discriminate].
    cbn [andb Adapters.clientSetting].
    destruct (Adapters.client sdk _ _) eqn:Hcl; [|discriminate].
    intros [= <-]. exists AZURE. cbn [Adapters.classOf Adapters.clientSetting].
    rewrite ?Hb, ?Hc, ?Hcl. auto.
  - intros (t & -> & Hconf & ->).
    apply andb_prop in Hconf. destruct Hconf as [Henv Hcl].
    destruct t; cbn [Adapters.classOf Adapters.clientSetting StorageType_value] in *;
      apply andb_prop in Henv; destruct Henv as [H1 H2];
      repeat match goal with
        | |- context [String.eqb ?a ?b] =>
            let v := eval vm_compute in (String.eqb a b) in change (String.eqb a b) with v
        end;
      cbv iota; rewrite ?H1, ?H2; cbn [andb];
      destruct (Adapters.client sdk _ _); (reflexivity || discriminate).
Qed.

(** What [registerProviders] leaves. *)
Lemma registerProviders_run providers : forall s oerr s',
  Adapters.registerProviders sdk env providers s = (oerr, s') ->
  currentAdapterIndex s' = currentAdapterIndex s /\ world s' = world s /\ db s' = db s
  /\ txdb s' = txdb s /\ events s' = events s
  /\ (oerr = None <-> Forall (usable sdk env) providers)
  /\ (oerr = None ->
      length (adapterList s') = (length (adapterList s) + length providers)%nat
      /\ (forall i p, providers !! i = Some p ->
            exists t, toLowerCase (trim p) = StorageType_value t
              /\ adapterList s' !! (length (adapterList s) + i)%nat
                 = Some (Adapters.asAdapter sdk env
                           (Adapters.mkAdapterObject (Adapters.classOf t)
                              (length (adapterList s) + i))))
      /\ (forall k a, adapters s' !! k = Some a ->
            adapters s !! k = Some a
            \/ exists i p, providers !! i = Some p /\ toLowerCase (trim p) = k
                 /\ adapterList s' !! (length (adapterList s) + i)%nat = Some a)
      /\ (forall k, is_Some (adapters s !! k) -> is_Some (adapters s' !! k))
      /\ (forall p, In p providers -> is_Some (adapters s' !! toLowerCase (trim p)))
      /\ (forall i a, adapterList s !! i = Some a -> adapterList s' !! i = Some a)).
Proof.
  induction providers as [|p rest IH]; intros s oerr s'.
  - cbn. intros [= <- <-]. repeat (split; [reflexivity|]). split; [split; auto|].
    intros _. split; [lia|]. split; [intros i p' Hp; discriminate|].
    split; [auto|]. split; [auto|]. split; [intros p' []|auto].
  - cbn [Adapters.registerProviders].
    destruct (Adapters.createAdapter sdk env (toLowerCase (trim p)) (length (adapterList s)))
      as [this|error] eqn:Hcreate.
    + intros Hrun. apply IH in Hrun. cbn [adapterList adapters currentAdapterIndex world db
                                           txdb events] in Hrun.
      destruct Hrun as (Hc & Hw & Hd & Ht & He & Hiff & Hok).
      repeat (split; [assumption|]).
      apply createAdapter_returns in Hcreate. destruct Hcreate as (t & Htag & Hconf & ->).
      split.
      { rewrite Hiff. split; [intros Hall; constructor; [exists t; auto|exact Hall]|].
        intros Hall. now inversion Hall. }
      intros Hnone. destruct (Hok Hnone) as (Hlen & Hlist & Hmap & Hkeep & Hin & Hprefix).
      rewrite length_app in *. cbn [length] in *.
      split; [lia|]. split; [|split; [|split; [|split]]].
      * intros [|i] p' Hp; cbn in Hp.
        -- injection Hp as <-. exists t. split; [exact Htag|].
           rewrite Nat.add_0_r. apply Hprefix.
           rewrite lookup_app_r by lia. now rewrite Nat.sub_diag.
        -- destruct (Hlist i p' Hp) as (t' & Ht' & Hat). exists t'. split; [exact Ht'|].
           replace (length (adapterList s) + S i)%nat
             with (length (adapterList s) + 1 + i)%nat by lia. exact Hat.
      * intros k a Hk. destruct (Hmap k a Hk) as [Hold|(i & p' & Hp & Hn & Hat)].
        -- destruct (decide (toLowerCase (trim p) = k)) as [Heq|Hne].
           ++ subst k. rewrite lookup_insert_eq in Hold. injection Hold as <-.
              right. exists 0%nat, p. split; [reflexivity|]. split; [reflexivity|].
              rewrite Nat.add_0_r. apply Hprefix.
              rewrite lookup_app_r by lia. now rewrite Nat.sub_diag.
           ++ rewrite lookup_insert_ne in Hold by exact Hne. now left.
        -- right. exists (S i), p'. split; [exact Hp|]. split; [exact Hn|].
           replace (length (adapterList s) + S i)%nat
             with (length (adapterList s) + 1 + i)%nat by lia. exact Hat.
      * intros k Hk. apply Hkeep.
        destruct (decide (toLowerCase (trim p) = k)) as [Heq|Hne].
        -- subst k. rewrite lookup_insert_eq. eauto.
        -- now rewrite lookup_insert_ne.
      * intros p' [<-|Hp']; [|now apply Hin].
        apply Hkeep. rewrite lookup_insert_eq. eauto.
      * intros i a Hi. apply Hprefix. apply lookup_app_l_Some. exact Hi.
    + destruct (Adapters.registerProviders sdk env rest s) as [oerr' s1] eqn:Hrest.
      intros [= <- <-]. apply IH in Hrest.
      destruct Hrest as (Hc & Hw & Hd & Ht & He & _).
      repeat (split; [assumption|]).
      split; [|discriminate]. split; [discriminate|].
      intros Hall. inversion Hall as [|x l (t & Htag & Hconf) _]; subst. exfalso.
      assert (Hret : Adapters.createAdapter sdk env (toLowerCase (trim p)) (length (adapterList s))
                     = Return (Adapters.mkAdapterObject (Adapters.classOf t)
                                 (length (adapterList s)))).
      { apply createAdapter_returns. eauto. }
      congruence.
Qed.

(** X9. When [initializeAdapters] returns on a new service, there is one
    adapter object per configured provider entry, in the order of the
    entries and of the class of the entry's provider, the cursor is at the
    start, every entry's provider has an adapter under its normalised
    name, and the adapter under a name is one of the objects of the list,
    created for an entry of that name.  The providers and the metadata
    store are not touched. *)
Theorem initializeAdapters_registry providers w d s' :
  Adapters.initializeAdapters sdk env providers (Adapters.newService w d) = (Return tt, s') ->
  registryOk s'
  /\ length (adapterList s') = length providers
  /\ currentAdapterIndex s' = 0%nat
  /\ world s' = w /\ db s' = d /\ txdb s' = None /\ events s' = []
  /\ (forall i p, providers !! i = Some p ->
        exists t, toLowerCase (trim p) = StorageType_value t
          /\ adapterList s' !! i
             = Some (Adapters.asAdapter sdk env
                       (Adapters.mkAdapterObject (Adapters.classOf t) i)))
  /\ (forall p, In p providers -> is_Some (adapters s' !! toLowerCase (trim p)))
  /\ (forall k a, adapters s' !! k = Some a ->
        exists i p, providers !! i = Some p /\ toLowerCase (trim p) = k
                    /\ adapterList s' !! i = Some a).
Proof.
  unfold Adapters.initializeAdapters.
  destruct providers as [|p0 rest] eqn:Hp; [discriminate|]. rewrite <- Hp.
  destruct (Adapters.registerProviders sdk env providers (Adapters.newService w d))
    as [[error|] s1] eqn:Hrun; [discriminate|].
  apply registerProviders_run in Hrun.
  destruct Hrun as (Hc & Hw & Hd & Ht & He & _ & Hok).
  destruct (Hok eq_refl) as (Hlen & Hlist & Hmap & _ & Hin & _).
  cbn [Adapters.newService adapterList adapters length] in *.
  destruct (adapterList s1) as [|a0 l0] eqn:Hl; [discriminate|]. rewrite <- Hl in *.
  intros [= <-].
  assert (HN : (0 < length providers)%nat) by (rewrite Hp; cbn; lia).
  cbn [Nat.add] in Hlen.
  split; [unfold registryOk; rewrite Hc, Hlen; cbn; lia|].
  split; [exact Hlen|]. split; [exact Hc|]. split; [exact Hw|]. split; [exact Hd|].
  split; [exact Ht|]. split; [exact He|].
  split; [exact Hlist|]. split; [exact Hin|].
  intros k a Hk. destruct (Hmap k a Hk) as [Hold|Hnew]; [|exact Hnew].
  rewrite lookup_empty in Hold. discriminate.
Qed.

(** X10. [initializeAdapters] returns on a new service exactly when there
    is at least one provider entry and every entry is usable: it names a
    provider of the factory, whatever its case and the white space around
    it, the environment variables of that provider are set, and the SDK
    client of its class can be built from its setting (for Azure: the
    connection string is one the SDK reads). *)
Theorem initializeAdapters_returns_iff providers w d :
  (exists s', Adapters.initializeAdapters sdk env providers (Adapters.newService w d)
              = (Return tt, s'))
  <-> providers <> [] /\ Forall (usable sdk env) providers.
Proof.
  unfold Adapters.initializeAdapters.
  destruct providers as [|p0 rest] eqn:Hp.
  { split; [intros [s' [=]]|intros [[] _]; reflexivity]. }
  rewrite <- Hp.
  destruct (Adapters.registerProviders sdk env providers (Adapters.newService w d))
    as [oerr s1] eqn:Hrun.
  apply registerProviders_run in Hrun. destruct Hrun as (_ & _ & _ & _ & _ & Hiff & Hok).
  split.
  - intros [s' Hret]. split; [rewrite Hp; discriminate|]. apply Hiff.
    destruct oerr; [discriminate|reflexivity].
  - intros [_ Hall]. apply Hiff in Hall. subst oerr.
    destruct (Hok eq_refl) as (Hlen & _).
    destruct (adapterList s1) as [|a0 l0]; [|eauto].
    rewrite Hp in Hlen. cbn in Hlen. lia.
Qed.
End Initialisation.

Section RegistryInvariant.
Context {JS : JsRuntime} {PS : PrismaSchema} {W : Type}.
Variable Date_now : W -> Z.
Variable Date_later : W -> Z.
Implicit Types (s : State W).

Lemma keeps_registry_call {A} (m : M W A) : keeps registry (call m).
Proof. intros s. unfold call. destruct (m (world s)). reflexivity. Qed.

Lemma keeps_registry_log e : keeps (@registry W) (log e).
Proof. intros s. reflexivity. Qed.

Lemma keeps_registry_now : keeps registry (now Date_now).
Proof. intros s. reflexivity. Qed.

Lemma keeps_registry_later : keeps registry (later Date_later).
Proof. intros s. reflexivity. Qed.

Lemma keeps_registry_query {A} c (q : Db -> A) : keeps (@registry W) (query c q).
Proof. intros s. reflexivity. Qed.

Lemma keeps_registry_write {A} c (op : M Db A) : keeps (@registry W) (write c op).
Proof.
  intros s. unfold write. destruct c, (txdb s); cbn;
    repeat match goal with |- context [op ?d] => destruct (op d) end; reflexivity.
Qed.

Lemma keeps_registry_transaction {A} (body : M (State W) A) :
  keeps registry body -> keeps registry (transaction body).
Proof.
  intros Hb s. unfold transaction. specialize (Hb (set_txdb (Some (db s)) s)).
  destruct (body (set_txdb (Some (db s)) s)) as [[a|e] s1]; exact Hb.
Qed.

Ltac keeps_registry :=
  repeat match goal with
    | |- forall _, _ => intro
    | |- keeps _ (ret _) => apply keeps_ret
    | |- keeps _ (throw _) => apply keeps_throw
    | |- keeps _ get => apply keeps_get
    | |- keeps _ (call _) => apply keeps_registry_call
    | |- keeps _ (log _) => apply keeps_registry_log
    | |- keeps _ (now _) => apply keeps_registry_now
    | |- keeps _ (later _) => apply keeps_registry_later
    | |- keeps _ (query _ _) => apply keeps_registry_query
    | |- keeps _ (write _ _) => apply keeps_registry_write
    | |- keeps _ (transaction _) => apply keeps_registry_transaction
    | |- keeps _ (bind _ _) => apply keeps_bind
    | |- keeps _ (try_catch _ _) => apply keeps_try_catch
    | |- keeps _ (match ?x with _ => _ end) => destruct x
    end.

Lemma keeps_registry_downloadFile id tag : keeps (@registry W) (downloadFile id tag).
Proof. unfold downloadFile. keeps_registry. Qed.

Lemma keeps_registry_deleteFile dto : keeps registry (deleteFile Date_now Date_later dto).
Proof. unfold deleteFile. keeps_registry. Qed.

Lemma keeps_registry_getFileUrl id tag : keeps (@registry W) (getFileUrl id tag).
Proof. unfold getFileUrl. keeps_registry. Qed.

Lemma keeps_registry_listFiles dto : keeps (@registry W) (listFiles dto).
Proof. unfold listFiles. keeps_registry. Qed.

Lemma keeps_registry_getFileByUrl path : keeps (@registry W) (getFileByUrl path).
Proof. unfold getFileByUrl. keeps_registry. Qed.

(** X11. The registry is an invariant of the service.  No operation
    changes the adapters registered under the provider names or the list
    of adapters; only [uploadFile] moves the round-robin cursor, and it
    leaves it inside the list: [getNextAdapter] always finds an adapter
    at the cursor. *)
Theorem registry_invariant s :
  registryOk s ->
  (forall dto file,
     let s' := snd (uploadFile Date_now dto file s) in
     adapters s' = adapters s /\ adapterList s' = adapterList s /\ registryOk s'
     /\ is_Some (adapterList s' !! currentAdapterIndex s'))
  /\ (forall id tag, registry (snd (downloadFile id tag s)) = registry s)
  /\ (forall dto, registry (snd (deleteFile Date_now Date_later dto s)) = registry s)
  /\ (forall id tag, registry (snd (getFileUrl id tag s)) = registry s)
  /\ (forall dto, registry (snd (listFiles dto s)) = registry s)
  /\ (forall path, registry (snd (getFileByUrl path s)) = registry s).
Proof.
  intros [HN Hc]. split; [|split; [|split; [|split; [|split]]]].
  - intros dto file. cbv zeta.
    destruct (uploadFile_registry Date_now dto file s) as (Ha & Hl & Hcur & _).
    destruct (uploadToStorage_attempts file (set_txdb (Some (db s)) s) HN Hc)
      as (Hrun & _).
    rewrite Hrun in Ha, Hl, Hcur. cbn [snd afterAttempts adapters adapterList
                                        currentAdapterIndex set_txdb] in Ha, Hl, Hcur.
    assert (Hok : registryOk (snd (uploadFile Date_now dto file s))).
    { unfold registryOk. rewrite Hl, Hcur. split; [exact HN|]. now apply cursorAfter_lt. }
    split; [exact Ha|]. split; [exact Hl|]. split; [exact Hok|].
    apply lookup_lt_is_Some_2. apply Hok.
  - intros id tag. apply keeps_registry_downloadFile.
  - intros dto. apply keeps_registry_deleteFile.
  - intros id tag. apply keeps_registry_getFileUrl.
  - intros dto. apply keeps_registry_listFiles.
  - intros path. apply keeps_registry_getFileByUrl.
Qed.
End RegistryInvariant.

Lemma initializeAdapters_run_sample :
  exists s', Adapters.initializeAdapters Sample.sdkUp Sample.env ["google"; "aws"; "azure"]
               (Adapters.newService Sample.world0 Sample.db0) = (Return tt, s').
Proof.
  destruct (Adapters.initializeAdapters Sample.sdkUp Sample.env ["google"; "aws"; "azure"]
              (Adapters.newService Sample.world0 Sample.db0)) as [o s'] eqn:Hrun.
  assert (Ho : o = Return tt).
  { change o with (fst (o, s')). rewrite <- Hrun. vm_compute. reflexivity. }
  subst o. eauto.
Qed.

Lemma initializeAdapters_registry_witness :
  registryOk Fixture.emptyService
  /\ length (adapterList Fixture.emptyService) = 3%nat
  /\ is_Some (adapters Fixture.emptyService !! "azure").
Proof.
  destruct initializeAdapters_run_sample as [s' Hrun].
  destruct (initializeAdapters_registry Sample.sdkUp Sample.env _ _ _ _ Hrun)
    as (Hok & Hlen & _ & _ & _ & _ & _ & _ & Hmap & _).
  unfold Fixture.emptyService, Sample.service, Sample.serviceOver. rewrite Hrun. cbn [snd].
  split; [exact Hok|]. split; [exact Hlen|]. apply (Hmap "azure"). cbn. auto.
Defined.

Lemma initializeAdapters_returns_iff_witness :
  exists s', Adapters.initializeAdapters (JS := Fixture.trimming) Sample.sdkUp Sample.env
               [" Azure"; "aws"] (Adapters.newService Sample.world0 Sample.db0)
             = (Return tt, s').
Proof.
  apply (proj2 (initializeAdapters_returns_iff (JS := Fixture.trimming) Sample.sdkUp
                  Sample.env [" Azure"; "aws"] Sample.world0 Sample.db0)).
  split; [discriminate|].
  repeat constructor; [exists AZURE|exists AWS]; split; reflexivity.
Defined.

Lemma registryOk_emptyService : registryOk Fixture.emptyService.
Proof. split; vm_compute; lia. Qed.

Lemma registry_invariant_witness :
  registryOk (snd (uploadFile Adapters.Date_now Sample.request Sample.photo
                     Fixture.emptyService))
  /\ registry (snd (deleteFile Adapters.Date_now Sample.Date_later (mkDeleteFileRequestDto 0 (Some true))
                      Fixture.emptyService))
     = registry Fixture.emptyService.
Proof.
  destruct (registry_invariant Adapters.Date_now Sample.Date_later Fixture.emptyService registryOk_emptyService)
    as (Hup & _ & Hdel & _).
  split; [apply Hup|apply Hdel].
Defined.

(** With the variables set but a connection string the SDK cannot read,
    the Azure adapter is not created and [initializeAdapters] throws what
    the SDK threw. *)
Example initializeAdapters_malformed_connection_string :
  fst (Adapters.initializeAdapters Sample.sdkUp Fixture.malformed ["azure"]
         (Adapters.newService Sample.world0 Sample.db0))
  = Throw (JsValue ("Error: Connection string must be either an Account connection "
                    +:+ "string or a SAS connection string")).
Proof. vm_compute. reflexivity. Qed.
(** ** Integrity of the metadata store *)

Section StoreIntegrity.
Context {PS : PrismaSchema}.
Implicit Types (d : Db).

Lemma findFileById_In fid d f :
  Prisma.findFileById fid d = Some f -> In f (files d) /\ file_id f = fid.
Proof.
  unfold Prisma.findFileById. intros Hf. apply find_some in Hf.
  destruct Hf as [Hin Heq]. split; [exact Hin|]. now apply Nat.eqb_eq.
Qed.

Lemma findFileById_None fid d :
  Prisma.findFileById fid d = None <-> ~ In fid (map file_id (files d)).
Proof.
  unfold Prisma.findFileById. split.
  - intros Hnone Hin. apply in_map_iff in Hin. destruct Hin as (f & Hid & Hin).
    pose proof (find_none _ _ Hnone f Hin) as Hne. cbn in Hne.
    rewrite Hid, Nat.eqb_refl in Hne. discriminate.
  - intros Hnot. destruct (find _ (files d)) as [f|] eqn:Hf; [|reflexivity].
    apply find_some in Hf. destruct Hf as [Hin Heq]. apply Nat.eqb_eq in Heq.
    destruct Hnot. apply in_map_iff. eauto.
Qed.

Lemma storageInfoOf_In fid d si :
  Prisma.storageInfoOf fid d = Some si -> In si (storageInfos d) /\ si_fileId si = fid.
Proof.
  unfold Prisma.storageInfoOf. intros Hf. apply find_some in Hf.
  destruct Hf as [Hin Heq]. split; [exact Hin|]. now apply Nat.eqb_eq.
Qed.

Lemma storageInfoOf_None fid d :
  Prisma.storageInfoOf fid d = None <-> ~ In fid (map si_fileId (storageInfos d)).
Proof.
  unfold Prisma.storageInfoOf. split.
  - intros Hnone Hin. apply in_map_iff in Hin. destruct Hin as (f & Hid & Hin).
    pose proof (find_none _ _ Hnone f Hin) as Hne. cbn in Hne.
    rewrite Hid, Nat.eqb_refl in Hne. discriminate.
  - intros Hnot. destruct (find _ (storageInfos d)) as [f|] eqn:Hf; [|reflexivity].
    apply find_some in Hf. destruct Hf as [Hin Heq]. apply Nat.eqb_eq in Heq.
    destruct Hnot. apply in_map_iff. eauto.
Qed.

Lemma Forall_lt_S (n : nat) (l : list nat) :
  Forall (fun i => (i < n)%nat) l -> Forall (fun i => (i < S n)%nat) l.
Proof. apply List.Forall_impl. intros; lia. Qed.

Lemma NoDup_snoc_fresh (n : nat) (l : list nat) :
  NoDup l -> Forall (fun i => (i < n)%nat) l -> NoDup (l ++ [n]).
Proof.
  intros Hnd Hlt. apply NoDup_app. split; [exact Hnd|]. split; [|apply NoDup_singleton].
  intros x Hx Hn. apply list_elem_of_singleton in Hn. subst x.
  rewrite List.Forall_forall in Hlt. apply list_elem_of_In in Hx. specialize (Hlt n Hx). lia.
Qed.

Lemma map_id_updateFileRow fid g (fs : list File) :
  (forall f, file_id (g f) = file_id f) ->
  map file_id (Prisma.updateFileRow fid g fs) = map file_id fs.
Proof.
  intros Hg. unfold Prisma.updateFileRow. rewrite map_map. apply map_ext.
  intros f. destruct (Nat.eqb (file_id f) fid); [apply Hg|reflexivity].
Qed.

Lemma filter_map_comm {A} (key : A -> nat) fid (l : list A) :
  map key (List.filter (fun x => negb (Nat.eqb (key x) fid)) l)
  = List.filter (fun i => negb (Nat.eqb i fid)) (map key l).
Proof.
  induction l as [|x l IH]; cbn; [reflexivity|].
  destruct (negb (Nat.eqb (key x) fid)); cbn; now rewrite IH.
Qed.

Lemma NoDup_List_filter {A} (p : A -> bool) (l : list A) : NoDup l -> NoDup (List.filter p l).
Proof.
  induction 1 as [|x l Hx Hnd IH]; cbn; [constructor|].
  destruct (p x); [|exact IH]. constructor; [|exact IH].
  rewrite list_elem_of_In, filter_In. intros [Hin _]. apply Hx. now apply list_elem_of_In.
Qed.

Lemma Forall_List_filter {A} (P : A -> Prop) (p : A -> bool) (l : list A) :
  Forall P l -> Forall P (List.filter p l).
Proof.
  rewrite !List.Forall_forall. intros Hall x Hx. apply filter_In in Hx. apply Hall, Hx.
Qed.

Lemma wellFormed_file_create t data d o d' :
  Prisma.file_create t data d = (o, d') -> wellFormed d -> wellFormed d'.
Proof.
  unfold Prisma.file_create.
  destruct (asInt (fci_year data)), (asInt (fci_month data));
    try (intros [= <- <-]; auto; fail).
  destruct (acceptsFile data); intros [= <- <-]; auto.
  intros (HF & HS & HR & HFlt & HSlt & Hincl). unfold wellFormed. cbn.
  rewrite map_app. cbn.
  split; [now apply NoDup_snoc_fresh|]. split; [exact HS|]. split; [exact HR|].
  split; [apply Forall_app; split; [now apply Forall_lt_S|repeat constructor]|].
  split; [now apply Forall_lt_S|].
  intros x Hx. apply in_or_app. left. now apply Hincl.
Qed.

Lemma wellFormed_storageInfo_create data d o d' :
  Prisma.storageInfo_create data d = (o, d') -> wellFormed d -> wellFormed d'.
Proof.
  unfold Prisma.storageInfo_create.
  destruct (acceptsStorageInfo data); [|intros [= <- <-]; auto].
  destruct (Prisma.findFileById (sici_fileId data) d) as [f|] eqn:Hf;
    [|intros [= <- <-]; auto].
  destruct (Prisma.storageInfoOf (sici_fileId data) d) as [si|] eqn:Hsi;
    intros [= <- <-]; auto.
  intros (HF & HS & HR & HFlt & HSlt & Hincl). unfold wellFormed. cbn.
  rewrite !map_app. cbn.
  apply findFileById_In in Hf. destruct Hf as [Hin Hid].
  apply storageInfoOf_None in Hsi.
  split; [exact HF|]. split; [now apply NoDup_snoc_fresh|]. split.
  { apply NoDup_app. split; [exact HR|]. split; [|apply NoDup_singleton].
    intros x Hx Hn. apply list_elem_of_singleton in Hn. subst x.
    apply Hsi. now apply list_elem_of_In. }
  split; [now apply Forall_lt_S|].
  split; [apply Forall_app; split; [now apply Forall_lt_S|repeat constructor]|].
  intros x Hx. apply in_app_or in Hx. destruct Hx as [Hx|[<-|[]]]; [now apply Hincl|].
  apply in_map_iff. eauto.
Qed.

Lemma wellFormed_file_update fid g d o d' :
  (forall f, file_id (g f) = file_id f) ->
  Prisma.file_update fid g d = (o, d') -> wellFormed d -> wellFormed d'.
Proof.
  intros Hg. unfold Prisma.file_update.
  destruct (Prisma.findFileById fid d); intros [= <- <-]; auto.
  unfold wellFormed. cbn. now rewrite map_id_updateFileRow.
Qed.

Lemma map_updateStorageInfoRow {X} (key : StorageInfo -> X) fid h (sis : list StorageInfo) :
  (forall si, key (h si) = key si) ->
  map key (Prisma.updateStorageInfoRow fid h sis) = map key sis.
Proof.
  intros Hh. unfold Prisma.updateStorageInfoRow. rewrite map_map. apply map_ext.
  intros si. destruct (Nat.eqb (si_fileId si) fid); [apply Hh|reflexivity].
Qed.

Lemma wellFormed_file_update_nested fid g h d o d' :
  (forall f, file_id (g f) = file_id f) ->
  (forall si, si_id (h si) = si_id si) ->
  (forall si, si_fileId (h si) = si_fileId si) ->
  Prisma.file_update_nested fid g h d = (o, d') -> wellFormed d -> wellFormed d'.
Proof.
  intros Hg Hh1 Hh2. unfold Prisma.file_update_nested.
  destruct (Prisma.findFileById fid d); [|intros [= <- <-]; auto].
  destruct (Prisma.storageInfoOf fid d); intros [= <- <-]; auto.
  unfold wellFormed. cbn.
  now rewrite map_id_updateFileRow, !map_updateStorageInfoRow.
Qed.

Lemma wellFormed_file_delete fid d o d' :
  Prisma.file_delete fid d = (o, d') -> wellFormed d -> wellFormed d'.
Proof.
  unfold Prisma.file_delete.
  destruct (Prisma.findFileById fid d); [|intros [= <- <-]; auto].
  destruct (Prisma.storageInfoOf fid d) as [si|] eqn:Hsi.
  - destruct onDeleteCascade; intros [= <- <-]; auto.
    intros (HF & HS & HR & HFlt & HSlt & Hincl). unfold wellFormed. cbn.
    rewrite !(filter_map_comm file_id), !(filter_map_comm si_fileId).
    split; [now apply NoDup_List_filter|]. split.
    { clear -HS. induction (storageInfos d) as [|x l IH]; cbn in *; [constructor|].
      apply NoDup_cons in HS. destruct HS as [Hx Hnd].
      destruct (negb (Nat.eqb (si_fileId x) fid)); cbn; [|now apply IH].
      constructor; [|now apply IH].
      rewrite list_elem_of_In, in_map_iff. intros (y & Hy & Hin). apply filter_In in Hin.
      apply Hx. rewrite list_elem_of_In, in_map_iff. exists y. tauto. }
    split; [now apply NoDup_List_filter|].
    split; [now apply Forall_List_filter|]. split.
    { rewrite List.Forall_forall in *. intros i Hi. apply in_map_iff in Hi.
      destruct Hi as (y & <- & Hin). apply filter_In in Hin. apply HSlt.
      apply in_map_iff. exists y. tauto. }
    intros x Hx. apply filter_In in Hx. apply filter_In. split; [|tauto].
    apply Hincl. tauto.
  - intros [= <- <-].
    intros (HF & HS & HR & HFlt & HSlt & Hincl). unfold wellFormed. cbn.
    rewrite !(filter_map_comm file_id).
    split; [now apply NoDup_List_filter|]. split; [exact HS|]. split; [exact HR|].
    split; [now apply Forall_List_filter|]. split; [exact HSlt|].
    intros x Hx. apply filter_In. split; [now apply Hincl|].
    apply storageInfoOf_None in Hsi.
    destruct (Nat.eqb_spec x fid) as [->|]; [contradiction|reflexivity].
Qed.

Lemma wellFormed_storageInfo_update sid h d o d' :
  (forall si, si_id (h si) = si_id si) ->
  (forall si, si_fileId (h si) = si_fileId si) ->
  Prisma.storageInfo_update sid h d = (o, d') -> wellFormed d -> wellFormed d'.
Proof.
  intros Hh1 Hh2. unfold Prisma.storageInfo_update.
  destruct (find _ (storageInfos d)) as [si|]; [|intros [= <- <-]; auto].
  destruct (Prisma.findFileById (si_fileId si) d); intros [= <- <-]; auto.
  unfold wellFormed. cbn. rewrite !map_map.
  assert (E1 : map (fun x => si_id (if Nat.eqb (si_id x) sid then h x else x)) (storageInfos d)
               = map si_id (storageInfos d)).
  { apply map_ext. intros x. destruct (Nat.eqb (si_id x) sid); auto. }
  assert (E2 : map (fun x => si_fileId (if Nat.eqb (si_id x) sid then h x else x))
                 (storageInfos d)
               = map si_fileId (storageInfos d)).
  { apply map_ext. intros x. destruct (Nat.eqb (si_id x) sid); auto. }
  now rewrite E1, E2.
Qed.
End StoreIntegrity.

Section StoreInvariant.
Context {JS : JsRuntime} {PS : PrismaSchema} {W : Type}.
Variable Date_now : W -> Z.
Variable Date_later : W -> Z.
Implicit Types (s : State W).

Lemma keepsStore_ret {A} (a : A) : keepsStore (W := W) (ret a).
Proof. intros s Hs. exact Hs. Qed.

Lemma keepsStore_throw {A} e : keepsStore (W := W) (A := A) (throw e).
Proof. intros s Hs. exact Hs. Qed.

Lemma keepsStore_get : keepsStore (W := W) get.
Proof. intros s Hs. exact Hs. Qed.

Lemma keepsStore_log e : keepsStore (W := W) (log e).
Proof. intros s Hs. exact Hs. Qed.

Lemma keepsStore_now : keepsStore (now Date_now).
Proof. intros s Hs. exact Hs. Qed.

Lemma keepsStore_later : keepsStore (later Date_later).
Proof. intros s Hs. exact Hs. Qed.

Lemma keepsStore_query {A} c (q : Db -> A) : keepsStore (W := W) (query c q).
Proof. intros s Hs. exact Hs. Qed.

Lemma keepsStore_call {A} (m : M W A) : keepsStore (call m).
Proof. intros s Hs. unfold call. destruct (m (world s)). exact Hs. Qed.

Lemma keepsStore_getNextAdapter : keepsStore (W := W) getNextAdapter.
Proof. intros s Hs. exact Hs. Qed.

Lemma keepsStore_bind {A B} (m : M (State W) A) (k : A -> M (State W) B) :
  keepsStore m -> (forall a, keepsStore (k a)) -> keepsStore (bind m k).
Proof.
  intros Hm Hk s Hs. unfold bind. specialize (Hm s Hs).
  destruct (m s) as [[a|e] s1]; cbn in *; [|exact Hm]. now apply Hk.
Qed.

Lemma keepsStore_try_catch {A} (m : M (State W) A) h :
  keepsStore m -> (forall e, keepsStore (h e)) -> keepsStore (try_catch m h).
Proof.
  intros Hm Hh s Hs. unfold try_catch. specialize (Hm s Hs).
  destruct (m s) as [[a|e] s1]; cbn in *; [exact Hm|]. now apply Hh.
Qed.

Lemma keepsStore_write {A} c (op : M Db A) : keepsWellFormed op -> keepsStore (W := W) (write c op).
Proof.
  intros Hop s [Hd Ht]. unfold write, storeOk.
  destruct c, (txdb s) as [t|] eqn:Htx.
  - destruct (op (db s)) as [r d'] eqn:Hrun. cbn [snd db txdb set_db set_txdb]. split.
    + eapply Hop; eauto.
    + intros t1 [= <-]. destruct (op t) as [r2 t2] eqn:Hrun2. cbn. eapply Hop; eauto.
  - destruct (op (db s)) as [r d'] eqn:Hrun. cbn [snd db txdb set_db set_txdb].
    rewrite Htx. split; [eapply Hop; eauto|discriminate].
  - destruct (op t) as [r t2] eqn:Hrun. cbn [snd db txdb set_db set_txdb].
    split; [exact Hd|]. intros t1 [= <-]. eapply Hop; eauto.
  - destruct (op (db s)) as [r d'] eqn:Hrun. cbn [snd db txdb set_db set_txdb].
    rewrite Htx. split; [eapply Hop; eauto|discriminate].
Qed.

Lemma keepsStore_transaction {A} (body : M (State W) A) :
  keepsStore body -> keepsStore (transaction body).
Proof.
  intros Hb s [Hd Ht]. unfold transaction.
  assert (Hs0 : storeOk (set_txdb (Some (db s)) s)).
  { split; [exact Hd|]. cbn. now intros t [= <-]. }
  specialize (Hb _ Hs0).
  destruct (body (set_txdb (Some (db s)) s)) as [[a|e] s1]; cbn in *.
  - destruct Hb as [Hd1 Ht1]. split; cbn; [|discriminate].
    unfold view. destruct (txdb s1) as [t|]; [now apply Ht1|exact Hd1].
  - destruct Hb as [Hd1 Ht1]. split; cbn; [exact Hd1|discriminate].
Qed.

Lemma keepsStore_uploadToStorage_loop file rem : forall i,
  keepsStore (W := W) (uploadToStorage_loop file i rem).
Proof.
  induction rem as [|rem IH]; intros i; cbn [uploadToStorage_loop].
  - apply keepsStore_ret.
  - apply keepsStore_bind; [apply keepsStore_get|]. intros s0.
    apply keepsStore_bind; [apply keepsStore_getNextAdapter|]. intros [a|];
      [|apply keepsStore_throw].
    apply keepsStore_bind; [apply keepsStore_log|]. intros _.
    apply keepsStore_try_catch.
    + apply keepsStore_bind; [apply keepsStore_call|]. intros r. apply keepsStore_ret.
    + intros e. destruct (Nat.eqb _ _); [apply keepsStore_throw|apply IH].
Qed.

Ltac keeps_store :=
  repeat match goal with
    | |- forall _, _ => intro
    | |- keepsStore (ret _) => apply keepsStore_ret
    | |- keepsStore (throw _) => apply keepsStore_throw
    | |- keepsStore get => apply keepsStore_get
    | |- keepsStore (call _) => apply keepsStore_call
    | |- keepsStore (log _) => apply keepsStore_log
    | |- keepsStore (now _) => apply keepsStore_now
    | |- keepsStore (later _) => apply keepsStore_later
    | |- keepsStore (query _ _) => apply keepsStore_query
    | |- keepsStore (uploadToStorage_loop _ _ _) => apply keepsStore_uploadToStorage_loop
    | |- keepsStore (write _ _) =>
        apply keepsStore_write; intros ? ? ?;
        first [ apply wellFormed_file_create | apply wellFormed_storageInfo_create
              | apply wellFormed_file_delete | now apply wellFormed_file_update
              | now apply wellFormed_file_update_nested
              | now apply wellFormed_storageInfo_update ]
    | |- keepsStore (transaction _) => apply keepsStore_transaction
    | |- keepsStore (bind _ _) => apply keepsStore_bind
    | |- keepsStore (try_catch _ _) => apply keepsStore_try_catch
    | |- keepsStore (match ?x with _ => _ end) => destruct x
    end.

Lemma keepsStore_uploadFile dto file : keepsStore (uploadFile Date_now dto file).
Proof. unfold uploadFile, uploadToStorage, createFileRecord. keeps_store. Qed.

Lemma keepsStore_downloadFile id tag : keepsStore (W := W) (downloadFile id tag).
Proof. unfold downloadFile. keeps_store. Qed.

Lemma keepsStore_deleteFile dto : keepsStore (deleteFile Date_now Date_later dto).
Proof. unfold deleteFile. keeps_store. Qed.

Lemma keepsStore_getFileUrl id tag : keepsStore (W := W) (getFileUrl id tag).
Proof. unfold getFileUrl. keeps_store. Qed.

Lemma closes_keeps {A} (m : M (State W) A) : keeps txdb m -> closes m.
Proof. intros Hm s Hs. now rewrite Hm. Qed.

Lemma closes_bind {A B} (m : M (State W) A) (k : A -> M (State W) B) :
  closes m -> (forall a, closes (k a)) -> closes (bind m k).
Proof.
  intros Hm Hk s Hs. unfold bind. specialize (Hm s Hs).
  destruct (m s) as [[a|e] s1]; cbn in *; [|exact Hm]. now apply Hk.
Qed.

Lemma closes_try_catch {A} (m : M (State W) A) h :
  closes m -> (forall e, closes (h e)) -> closes (try_catch m h).
Proof.
  intros Hm Hh s Hs. unfold try_catch. specialize (Hm s Hs).
  destruct (m s) as [[a|e] s1]; cbn in *; [exact Hm|]. now apply Hh.
Qed.

Lemma closes_transaction {A} (body : M (State W) A) : closes (transaction body).
Proof.
  intros s _. unfold transaction.
  now destruct (body (set_txdb (Some (db s)) s)) as [[a|e] s1].
Qed.

Lemma closes_write {A} c (op : M Db A) : closes (W := W) (write c op).
Proof.
  intros s Hs. unfold write. rewrite Hs.
  destruct c; destruct (op (db s)); exact Hs.
Qed.

Lemma closes_call {A} (m : M W A) : closes (call m).
Proof. intros s Hs. unfold call. now destruct (m (world s)). Qed.

Ltac closes :=
  repeat match goal with
    | |- forall _, _ => intro
    | |- closes (ret _) => now apply closes_keeps
    | |- closes (throw _) => now apply closes_keeps
    | |- closes get => now apply closes_keeps
    | |- closes (log _) => now apply closes_keeps
    | |- closes (query _ _) => now apply closes_keeps
    | |- closes (call _) => apply closes_call
    | |- closes (write _ _) => apply closes_write
    | |- closes (transaction _) => apply closes_transaction
    | |- closes (bind _ _) => apply closes_bind
    | |- closes (try_catch _ _) => apply closes_try_catch
    | |- closes (match ?x with _ => _ end) => destruct x
    end.

Lemma closes_downloadFile id tag : closes (W := W) (downloadFile id tag).
Proof. unfold downloadFile. closes. Qed.

Lemma closes_getFileUrl id tag : closes (W := W) (getFileUrl id tag).
Proof. unfold getFileUrl. closes. Qed.

(** X12. Every writing operation of the service keeps the metadata store
    well-formed, whether it returns or throws, and leaves no transaction
    open: ids stay unique and below the id counter, a File keeps at most
    one StorageInfo, and no StorageInfo is left without its File. *)
Theorem store_integrity s :
  wellFormed (db s) -> txdb s = None ->
  (forall dto file,
     let s' := snd (uploadFile Date_now dto file s) in wellFormed (db s') /\ txdb s' = None)
  /\ (forall id tag,
        let s' := snd (downloadFile id tag s) in wellFormed (db s') /\ txdb s' = None)
  /\ (forall dto,
        let s' := snd (deleteFile Date_now Date_later dto s) in wellFormed (db s') /\ txdb s' = None)
  /\ (forall id tag,
        let s' := snd (getFileUrl id tag s) in wellFormed (db s') /\ txdb s' = None).
Proof.
  intros Hd Ht.
  assert (Hs : storeOk s) by (split; [exact Hd|rewrite Ht; discriminate]).
  split; [|split; [|split]].
  - intros dto file. cbv zeta. split; [apply keepsStore_uploadFile, Hs|].
    unfold uploadFile, transaction.
    now destruct (try_catch _ _ (set_txdb (Some (db s)) s)) as [[a|e] s1].
  - intros id tag. cbv zeta. split; [apply keepsStore_downloadFile, Hs|].
    now apply closes_downloadFile.
  - intros dto. cbv zeta. split; [apply keepsStore_deleteFile, Hs|].
    unfold deleteFile, transaction.
    now destruct (bind _ _ (set_txdb (Some (db s)) s)) as [[a|e] s1].
  - intros id tag. cbv zeta. split; [apply keepsStore_getFileUrl, Hs|].
    now apply closes_getFileUrl.
Qed.
End StoreInvariant.
(** ** A successful upload *)

Section UploadSuccess.
Context {JS : JsRuntime} {PS : PrismaSchema} {W : Type}.
Variable Date_now : W -> Z.
Implicit Types (s : State W) (d : Db).

Ltac simpl_state :=
  cbn [attempted afterAttempts set_txdb set_db set_world set_currentAdapterIndex view
       txdb db adapters adapterList currentAdapterIndex world events fst snd].

Lemma find_snoc_fresh {A} (p : A -> bool) (l : list A) (x : A) :
  (forall y, In y l -> p y = false) -> p x = true -> find p (l ++ [x]) = Some x.
Proof.
  intros Hl Hx. induction l as [|y l IH]; cbn; [now rewrite Hx|].
  rewrite (Hl y (or_introl eq_refl)). apply IH. intros z Hz. apply Hl. now right.
Qed.

Lemma find_snoc_other {A} (p : A -> bool) (l : list A) (x : A) :
  p x = false -> find p (l ++ [x]) = find p l.
Proof.
  intros Hx. induction l as [|y l IH]; cbn; [now rewrite Hx|].
  destruct (p y); [reflexivity|exact IH].
Qed.

Lemma wellFormed_fresh_file d f :
  wellFormed d -> In f (files d) -> Nat.eqb (file_id f) (nextId d) = false.
Proof.
  intros (_ & _ & _ & Hlt & _) Hin. apply Nat.eqb_neq.
  rewrite List.Forall_forall in Hlt. specialize (Hlt (file_id f) (in_map _ _ _ Hin)). lia.
Qed.

Lemma wellFormed_fresh_info d si :
  wellFormed d -> In si (storageInfos d) -> Nat.eqb (si_fileId si) (nextId d) = false.
Proof.
  intros (_ & _ & _ & Hlt & _ & Hincl) Hin. apply Nat.eqb_neq.
  rewrite List.Forall_forall in Hlt.
  specialize (Hlt (si_fileId si) (Hincl _ (in_map _ _ _ Hin))). lia.
Qed.

Lemma file_create_returns t data d f d1 :
  Prisma.file_create t data d = (Return f, d1) ->
  file_id f = nextId d
  /\ d1 = mkDb (files d ++ [f]) (storageInfos d) (branches d) (S (nextId d)).
Proof.
  unfold Prisma.file_create.
  destruct (asInt (fci_year data)); [|discriminate].
  destruct (asInt (fci_month data)); [|discriminate].
  destruct (acceptsFile data); [|discriminate].
  intros [= <- <-]. auto.
Qed.

(** The run of a successful [uploadFile]. *)
Lemma uploadFile_returns dto file s a r w1 f d1 :
  wellFormed (db s) ->
  adapterList s !! currentAdapterIndex s = Some a ->
  upload a file (Some (originalname file)) (world s) = (Return r, w1) ->
  Prisma.file_create (Date_now w1) (createFileRecord_data file r dto (Date_now w1)) (db s)
  = (Return f, d1) ->
  acceptsStorageInfo (uploadFile_data f r) = true ->
  let si := mkStorageInfo (S (nextId (db s))) (file_id f) (storageType r) (storageFileId r)
              (storageUrl r) (Some (storageMetadata r)) true in
  exists s',
    uploadFile Date_now dto file s
    = (Return (mkUploadFileResponseDto (file_id f) (storageUrl r) (storageMetadata r)), s')
    /\ world s' = w1 /\ txdb s' = None
    /\ db s' = mkDb (files (db s) ++ [f]) (storageInfos (db s) ++ [si]) (branches (db s))
                 (S (S (nextId (db s))))
    /\ file_id f = nextId (db s).
Proof.
  intros Hwf Ha Hup Hfile Hacc si.
  destruct (file_create_returns _ _ _ _ _ Hfile) as [Hid Hd1].
  assert (Hf1 : Prisma.findFileById (file_id f) d1 = Some f).
  { rewrite Hd1. unfold Prisma.findFileById. cbn [files]. apply find_snoc_fresh.
    - intros y Hy. rewrite Hid. now apply wellFormed_fresh_file.
    - apply Nat.eqb_refl. }
  assert (Hs1 : Prisma.storageInfoOf (file_id f) d1 = None).
  { rewrite Hd1. unfold Prisma.storageInfoOf. cbn [storageInfos].
    destruct (find _ (storageInfos (db s))) as [x|] eqn:Hx; [|reflexivity].
    apply find_some in Hx. destruct Hx as [Hin Heq].
    rewrite Hid, (wellFormed_fresh_info _ _ Hwf Hin) in Heq. discriminate. }
  assert (Hcreate : Prisma.storageInfo_create (uploadFile_data f r) d1
                    = (Return si, mkDb (files d1) (storageInfos d1 ++ [si]) (branches d1)
                                   (S (nextId d1)))).
  { unfold Prisma.storageInfo_create. rewrite Hacc. cbn [uploadFile_data sici_fileId].
    rewrite Hf1, Hs1. subst si. rewrite Hd1. reflexivity. }
  assert (HN : (0 < length (adapterList s))%nat).
  { apply lookup_lt_Some in Ha. lia. }
  destruct (length (adapterList s)) as [|rem] eqn:Hlen; [lia|].
  eexists. split; [|split; [|split; [|split]]].
  - unfold uploadFile, transaction. unfold try_catch at 1. unfold bind at 1.
    unfold uploadToStorage at 1. unfold bind at 1. cbn [get adapterList set_txdb].
    rewrite Hlen.
    rewrite (uploadToStorage_loop_step file 0 rem _ a) by exact Ha.
    cbn [world set_txdb]. rewrite Hup.
    unfold createFileRecord, try_catch, bind, now, log, write, throw, ret.
    simpl_state. rewrite Hfile. simpl_state. rewrite Hcreate. simpl_state. reflexivity.
  - reflexivity.
  - reflexivity.
  - simpl_state. rewrite Hd1. reflexivity.
  - exact Hid.
Qed.

(** X13. When the adapter at the cursor takes the upload and the metadata
    store, well-formed, accepts both rows, [uploadFile] returns the id of
    the new File with the adapter's URL and metadata.  The store has
    gained exactly the File row and one StorageInfo row that is active,
    belongs to the File and holds the adapter's key, URL, metadata and
    provider tag; looking the id up finds the two; every other File is as
    before. *)
Theorem uploadFile_success dto file s a r w1 f d1 :
  wellFormed (db s) ->
  adapterList s !! currentAdapterIndex s = Some a ->
  upload a file (Some (originalname file)) (world s) = (Return r, w1) ->
  Prisma.file_create (Date_now w1) (createFileRecord_data file r dto (Date_now w1)) (db s)
  = (Return f, d1) ->
  acceptsStorageInfo (uploadFile_data f r) = true ->
  let si := mkStorageInfo (S (nextId (db s))) (file_id f) (storageType r) (storageFileId r)
              (storageUrl r) (Some (storageMetadata r)) true in
  exists s',
    uploadFile Date_now dto file s
    = (Return (mkUploadFileResponseDto (file_id f) (storageUrl r) (storageMetadata r)), s')
    /\ world s' = w1 /\ txdb s' = None
    /\ files (db s') = files (db s) ++ [f]
    /\ storageInfos (db s') = storageInfos (db s) ++ [si]
    /\ Prisma.file_findById (file_id f) (db s') = Some (f, Some si)
    /\ (forall id, id <> file_id f ->
          Prisma.file_findById id (db s') = Prisma.file_findById id (db s)).
Proof.
  intros Hwf Ha Hup Hfile Hacc si.
  destruct (uploadFile_returns dto file s a r w1 f d1 Hwf Ha Hup Hfile Hacc)
    as (s' & Hrun & Hw & Htx & Hdb & Hid).
  fold si in Hdb. exists s'. rewrite Hdb. cbn [files storageInfos].
  split; [exact Hrun|]. split; [exact Hw|]. split; [exact Htx|].
  split; [reflexivity|]. split; [reflexivity|]. split.
  - unfold Prisma.file_findById, Prisma.findFileById, Prisma.storageInfoOf.
    cbn [files storageInfos].
    rewrite find_snoc_fresh.
    + f_equal. f_equal. apply find_snoc_fresh; [|apply Nat.eqb_refl].
      intros x Hx. rewrite Hid. now apply wellFormed_fresh_info.
    + intros x Hx. rewrite Hid. now apply wellFormed_fresh_file.
    + apply Nat.eqb_refl.
  - intros id Hne. unfold Prisma.file_findById, Prisma.findFileById, Prisma.storageInfoOf.
    cbn [files storageInfos].
    rewrite !find_snoc_other; [reflexivity| |].
    + cbn. apply Nat.eqb_neq. congruence.
    + apply Nat.eqb_neq. congruence.
Qed.

Lemma throwsOnly_transaction {A} P (body : M (State W) A) :
  throwsOnly P body -> throwsOnly P (transaction body).
Proof.
  intros Hb s e s'. unfold transaction.
  destruct (body (set_txdb (Some (db s)) s)) as [[a|e1] s1] eqn:Hrun; [discriminate|].
  intros [= <- _]. eapply Hb. exact Hrun.
Qed.

(** X14. Whatever goes wrong in [uploadFile], its caller sees one kind of
    error: a storage error with code DATABASE_ERROR that carries the cause
    as details, and no transaction is left open.  Without any adapter in
    the registry [uploadFile] fails in this way at once: no provider is
    contacted and nothing is written. *)
Theorem uploadFile_errors dto file s :
  (forall e s', uploadFile Date_now dto file s = (Throw e, s') ->
     codeOf e = Some DATABASE_ERROR /\ is_Some (detailsOf e) /\ txdb s' = None)
  /\ (adapterList s = [] ->
      exists e s',
        uploadFile Date_now dto file s = (Throw e, s')
        /\ world s' = world s /\ db s' = db s /\ events s' = events s).
Proof.
  split.
  - assert (Hcode : throwsOnly (fun e => codeOf e = Some DATABASE_ERROR
                                         /\ is_Some (detailsOf e))
                      (uploadFile Date_now dto file)).
    { unfold uploadFile. apply throwsOnly_transaction, throwsOnly_try_catch.
      intros e. apply throwsOnly_throw. cbn. eauto. }
    intros e s' Hrun. destruct (Hcode s e s' Hrun) as [Hc Hd].
    split; [exact Hc|]. split; [exact Hd|].
    revert Hrun. unfold uploadFile, transaction.
    destruct (try_catch _ _ (set_txdb (Some (db s)) s)) as [[x|e1] s1]; [discriminate|].
    now intros [= _ <-].
  - intros Hempty. eexists. eexists. split.
    + unfold uploadFile, transaction. unfold try_catch at 1. unfold bind at 1.
      unfold uploadToStorage at 1. unfold bind at 1. cbn [get adapterList set_txdb].
      rewrite Hempty. cbn [length uploadToStorage_loop ret].
      unfold createFileRecord, try_catch, bind, throw. reflexivity.
    + cbn. auto.
Qed.
End UploadSuccess.

Lemma wellFormed_empty bs n : wellFormed (mkDb [] [] bs n).
Proof.
  unfold wellFormed. cbn.
  repeat (split; [constructor|]). intros x [].
Qed.

Lemma uploadFile_success_witness :
  exists s' f si,
    uploadFile (PS := Sample.laxSchema) Adapters.Date_now Sample.request Sample.photo
      (Sample.service Sample.sdkUp ["google"; "aws"])
    = (Return (mkUploadFileResponseDto 0
                 (Some "https://storage.googleapis.com/configured/2024_3_seoul_a.jpg")
                 (mkStorageMetadata (Some 3) "image/jpeg" "mYwU4fJ3McvrNDRkWjmFMw=="
                    None None None None)), s')
    /\ Prisma.file_findById 0 (db s') = Some (f, Some si)
    /\ si_storageFileId si = "2024_3_seoul_a.jpg"
    /\ file_year f = 2024 /\ file_month f = 3.
Proof.
  edestruct (uploadFile_success (PS := Sample.laxSchema) Adapters.Date_now
               Sample.request Sample.photo
               (Sample.service Sample.sdkUp ["google"; "aws"])
               (Adapters.asAdapter Sample.sdkUp Sample.env
                  (Adapters.mkAdapterObject Adapters.GoogleCloudStorageAdapter 0)))
    as (s' & Hrun & _ & _ & _ & _ & Hfind & _).
  - apply wellFormed_empty.
  - reflexivity.
  - vm_compute. reflexivity.
  - vm_compute. reflexivity.
  - reflexivity.
  - exists s'. eexists. eexists. split; [exact Hrun|]. split; [exact Hfind|].
    repeat split.
Defined.
(** ** Deleting: what is left behind *)

Section DeleteEffects.
Context {JS : JsRuntime} {PS : PrismaSchema} {W : Type}.
Variable Date_now : W -> Z.
Variable Date_later : W -> Z.
Implicit Types (s : State W) (d : Db).

Lemma find_map_key {A} (key : A -> nat) (u : A -> A) k (l : list A) :
  (forall x, key (u x) = key x) ->
  find (fun x => Nat.eqb (key x) k) (map u l)
  = option_map u (find (fun x => Nat.eqb (key x) k) l).
Proof.
  intros Hu. induction l as [|x l IH]; cbn; [reflexivity|].
  rewrite Hu. destruct (Nat.eqb (key x) k); [reflexivity|exact IH].
Qed.

Lemma file_update_nested_run id g h d o d' :
  (forall f, file_id (g f) = file_id f) ->
  (forall si, si_fileId (h si) = si_fileId si) ->
  Prisma.file_update_nested id g h d = (o, d') ->
  match Prisma.file_findById id d with
  | Some (f, Some si) =>
      o = Return (g f)
      /\ Prisma.file_findById id d' = Some (g f, Some (h si))
      /\ (forall id', id' <> id -> Prisma.file_findById id' d' = Prisma.file_findById id' d)
      /\ length (files d') = length (files d)
      /\ (forall f', In f' (files d') -> file_id f' = id -> exists f0, f' = g f0)
  | _ => o = Throw (PrismaError "Record to update not found.") /\ d' = d
  end.
Proof.
  intros Hg Hh. unfold Prisma.file_update_nested, Prisma.file_findById.
  destruct (Prisma.findFileById id d) as [f|] eqn:Hf; [|now intros [= <- <-]].
  destruct (Prisma.storageInfoOf id d) as [si|] eqn:Hsi; [|now intros [= <- <-]].
  intros [= <- <-]. split; [reflexivity|].
  unfold Prisma.findFileById, Prisma.storageInfoOf, Prisma.updateFileRow,
    Prisma.updateStorageInfoRow in *. cbn [files storageInfos].
  assert (Hg' : forall k x, file_id (if Nat.eqb (file_id x) k then g x else x) = file_id x).
  { intros k x. destruct (Nat.eqb (file_id x) k); auto. }
  assert (Hh' : forall k x, si_fileId (if Nat.eqb (si_fileId x) k then h x else x)
                            = si_fileId x).
  { intros k x. destruct (Nat.eqb (si_fileId x) k); auto. }
  split; [|split; [|split]].
  - rewrite (find_map_key file_id _ id _ (Hg' id)), Hf. cbn.
    rewrite (find_map_key si_fileId _ id _ (Hh' id)), Hsi. cbn.
    apply find_some in Hf, Hsi. destruct Hf as [_ ->], Hsi as [_ ->]. reflexivity.
  - intros id' Hne.
    rewrite (find_map_key file_id _ id' _ (Hg' id)).
    rewrite (find_map_key si_fileId _ id' _ (Hh' id)).
    destruct (find (fun x => Nat.eqb (file_id x) id') (files d)) as [f'|] eqn:Hf'; cbn;
      [|reflexivity].
    apply find_some in Hf'. destruct Hf' as [_ Hid']. apply Nat.eqb_eq in Hid'.
    replace (Nat.eqb (file_id f') id) with false by (symmetry; apply Nat.eqb_neq; congruence).
    f_equal. f_equal.
    destruct (find (fun x => Nat.eqb (si_fileId x) id') (storageInfos d)) as [si'|] eqn:Hsi';
      cbn; [|reflexivity].
    apply find_some in Hsi'. destruct Hsi' as [_ Hsid']. apply Nat.eqb_eq in Hsid'.
    replace (Nat.eqb (si_fileId si') id) with false by (symmetry; apply Nat.eqb_neq; congruence).
    reflexivity.
  - apply length_map.
  - intros f' Hin Hid. apply in_map_iff in Hin. destruct Hin as (f0 & <- & _).
    destruct (Nat.eqb (file_id f0) id) eqn:E; [eauto|].
    apply Nat.eqb_neq in E. contradiction.
Qed.

Lemma file_delete_throws id d e d' :
  Prisma.file_delete id d = (Throw e, d') ->
  d' = d /\ (exists m, e = PrismaError m)
  /\ (is_Some (Prisma.findFileById id d) ->
      onDeleteCascade = false /\ is_Some (Prisma.storageInfoOf id d)).
Proof.
  unfold Prisma.file_delete.
  destruct (Prisma.findFileById id d) as [f|].
  - destruct (Prisma.storageInfoOf id d) as [si|]; [|discriminate].
    destruct onDeleteCascade; [discriminate|]. intros [= <- <-]. eauto.
  - intros [= <- <-]. split; [reflexivity|]. split; [eauto|]. intros [f [=]].
Qed.

(** X15. A [deleteFile] that throws has changed nothing in the metadata
    store.  It throws FILE_NOT_FOUND exactly when there is no File under
    the id, and then nothing was called; otherwise the error is the one of
    the metadata store, never one of the adapter.  A soft delete fails
    only for a File without StorageInfo; a permanent delete fails only
    when the schema does not cascade and the File has a StorageInfo, and
    the provider side of the deletion has then already run. *)
Theorem deleteFile_failure dto s e s' :
  deleteFile Date_now Date_later dto s = (Throw e, s') ->
  db s' = db s /\ txdb s' = None
  /\ match Prisma.file_findById (del_storageFileId dto) (db s) with
     | None => e = fileNotFound /\ world s' = world s /\ events s' = events s
     | Some (f, osi) =>
         (exists m, e = PrismaError m)
         /\ if default false (del_permanent dto)
            then onDeleteCascade = false /\ is_Some osi
                 /\ world s' = snd (providerDeletion s osi)
            else osi = None /\ world s' = world s
     end.
Proof.
  destruct (Prisma.file_findById (del_storageFileId dto) (db s)) as [[f osi]|] eqn:Hfind.
  - destruct (default false (del_permanent dto)) eqn:Hperm.
    + assert (Hp : del_permanent dto = Some true).
      { destruct (del_permanent dto) as [[|]|]; try discriminate. reflexivity. }
      rewrite (deleteFile_permanent_eq Date_now Date_later dto s f osi Hp Hfind). cbv zeta.
      destruct (Prisma.file_delete _ (db s)) as [[f'|e'] d'] eqn:Hdel; [discriminate|].
      intros [= <- <-]. cbn [deleted db txdb world].
      destruct (file_delete_throws _ _ _ _ Hdel) as (_ & Hm & Hwhy).
      destruct (file_findById_file _ _ _ _ Hfind) as [Hf ->].
      destruct Hwhy as [Hcascade Hsi]; [rewrite Hf; eauto|]. auto 10.
    + rewrite (deleteFile_soft_eq Date_now Date_later dto s f osi Hperm Hfind). cbv zeta.
      destruct (Prisma.file_update_nested _ _ _ (db s)) as [[f'|e'] d'] eqn:Hupd;
        [discriminate|].
      intros [= <- <-]. cbn [deleted db txdb world].
      apply file_update_nested_run in Hupd; [|reflexivity|reflexivity].
      rewrite Hfind in Hupd. destruct osi as [si|].
      * destruct Hupd as ([=] & _).
      * destruct Hupd as ([= ->] & _). eauto 10.
  - rewrite (deleteFile_not_found Date_now Date_later dto s Hfind). intros [= <- <-]. cbn. auto 10.
Qed.

(** X16. A soft delete of a File that has a StorageInfo calls no
    provider and keeps every row: the File has [deletedAt] set to the
    time read before the update is sent, its StorageInfo is inactive,
    every other File is as before.  The answer reports success and the
    time read once the update has returned, which need not be the
    [deletedAt] of the row.  From then on no [listFiles] and no
    [getFileByUrl] returns the File, while it can still be looked up by
    its id. *)
Theorem soft_delete_effect dto s f si :
  default false (del_permanent dto) = false ->
  Prisma.file_findById (del_storageFileId dto) (db s) = Some (f, Some si) ->
  let id := del_storageFileId dto in
  let t := Date_now (world s) in
  let t' := Date_later (world s) in
  exists s',
    deleteFile Date_now Date_later dto s
    = (Return (mkDeleteFileResponseDto id true (Some t')), s')
    /\ world s' = world s
    /\ Prisma.file_findById id (db s')
       = Some (set_deletedAt (Some t) f, Some (set_isActive false si))
    /\ (forall id', id' <> id ->
          Prisma.file_findById id' (db s') = Prisma.file_findById id' (db s))
    /\ length (files (db s')) = length (files (db s))
    /\ (forall q r s2 x,
          listFiles q s' = (Return r, s2) -> In x (lresp_files r) -> dto_storageFileId x <> id)
    /\ (forall path x s2,
          getFileByUrl path s' = (Return x, s2) -> dto_storageFileId x <> id).
Proof.
  intros Hperm Hfind. cbv zeta.
  rewrite (deleteFile_soft_eq Date_now Date_later dto s f (Some si) Hperm Hfind). cbv zeta.
  destruct (Prisma.file_update_nested _ _ _ (db s)) as [o d'] eqn:Hupd.
  apply file_update_nested_run in Hupd; [|reflexivity|reflexivity].
  rewrite Hfind in Hupd. destruct Hupd as (-> & Hnew & Hother & Hlen & Hrows).
  eexists. split; [reflexivity|]. cbn [deleted world db].
  split; [reflexivity|]. split; [exact Hnew|]. split; [exact Hother|]. split; [exact Hlen|].
  assert (Hgone : forall f', In f' (files d') -> file_deletedAt f' = None ->
                         file_id f' <> del_storageFileId dto).
  { intros f' Hin Hvis Hid. destruct (Hrows f' Hin Hid) as [f0 ->]. discriminate. }
  split.
  - intros q r s2 x. unfold listFiles, bind, query, ret, throw. cbn [view db txdb deleted].
    destruct (Prisma.file_findMany _ _ _ d') as [rows|e] eqn:Hq; [|discriminate].
    intros [= <- _]. cbn [lresp_files]. rewrite in_map_iff.
    intros ([f' osi'] & <- & Hin).
    destruct (In_file_findMany _ _ _ _ _ _ Hq Hin) as [Hw Hf']. cbn [fst snd] in *.
    apply listFiles_where_visible in Hw. cbn. now apply Hgone.
  - intros path x s2. unfold getFileByUrl.
    destruct (split slash path) as [|year [|month [|branchName [|filename [|]]]]];
      try discriminate.
    destruct (_ || _ || _ || _); [discriminate|].
    unfold bind, query, ret, throw. cbn [view db txdb deleted].
    destruct (Prisma.branch_findFirst branchName d') as [branch|]; [|discriminate].
    destruct (asInt (toNumber (Some year))) eqn:Hy; [|discriminate].
    destruct (asInt (toNumber (Some month))) eqn:Hm; [|discriminate].
    cbn [view db txdb deleted].
    destruct (Prisma.file_findFirst _ d') as [[f' osi']|] eqn:Hq; [|discriminate].
    intros [= <- _]. unfold Prisma.file_findFirst in Hq.
    match type of Hq with
    | head (Prisma.selectFiles ?wh _) = _ =>
        assert (Hin : In (f', osi') (Prisma.selectFiles wh d'))
    end.
    { destruct (Prisma.selectFiles _ d'); [discriminate|].
      cbn in Hq. injection Hq as ->. now left. }
    apply In_selectFiles in Hin. destruct Hin as [Hw Hf']. cbn [fst snd] in *.
    apply getFileByUrl_where_visible in Hw. cbn. now apply Hgone.
Qed.
End DeleteEffects.
(** ** Refreshing the URL of a File *)

Section FileUrl.
Context {JS : JsRuntime} {PS : PrismaSchema} {W : Type}.
Implicit Types (s : State W) (d : Db).

Ltac simpl_state :=
  cbn [set_txdb set_db set_world set_currentAdapterIndex view
       txdb db adapters adapterList currentAdapterIndex world events fst snd].

Lemma NoDup_map_In_inj {A} (key : A -> nat) (l : list A) x y :
  NoDup (map key l) -> In x l -> In y l -> key x = key y -> x = y.
Proof.
  induction l as [|z l IH]; cbn; [intros _ []|].
  intros Hnd Hx Hy Hk. apply NoDup_cons in Hnd. destruct Hnd as [Hz Hnd].
  rewrite list_elem_of_In, in_map_iff in Hz.
  destruct Hx as [->|Hx], Hy as [->|Hy]; auto.
  - destruct Hz. eauto.
  - destruct Hz. eauto.
Qed.

Lemma find_unique_key {A} (key : A -> nat) (l : list A) x :
  NoDup (map key l) -> In x l -> find (fun y => Nat.eqb (key y) (key x)) l = Some x.
Proof.
  intros Hnd Hin. destruct (find _ l) as [y|] eqn:Hy.
  - apply find_some in Hy. destruct Hy as [Hyin Hk]. apply Nat.eqb_eq in Hk.
    f_equal. eapply NoDup_map_In_inj; eauto.
  - pose proof (find_none _ _ Hy x Hin) as Hne. cbn in Hne.
    rewrite Nat.eqb_refl in Hne. discriminate.
Qed.

(** [storageInfo.update] on the StorageInfo of a File of a well-formed
    store. *)
Lemma storageInfo_update_run id h d f si :
  (forall x, si_id (h x) = si_id x) ->
  (forall x, si_fileId (h x) = si_fileId x) ->
  wellFormed d ->
  Prisma.file_findById id d = Some (f, Some si) ->
  exists d',
    Prisma.storageInfo_update (si_id si) h d = (Return (h si, f), d')
    /\ files d' = files d
    /\ Prisma.file_findById id d' = Some (f, Some (h si))
    /\ (forall id', id' <> id -> Prisma.file_findById id' d' = Prisma.file_findById id' d).
Proof.
  intros Hh1 Hh2 (_ & HS & _) Hfind.
  destruct (file_findById_file _ _ _ _ Hfind) as [Hf Hsi]. symmetry in Hsi.
  destruct (storageInfoOf_In _ _ _ Hsi) as [Hin Hfid].
  unfold Prisma.storageInfo_update.
  rewrite (find_unique_key si_id _ si HS Hin), Hfid, Hf.
  eexists. split; [reflexivity|]. cbn [set_storageInfos files storageInfos].
  split; [reflexivity|].
  assert (Hu : forall x, si_fileId (if Nat.eqb (si_id x) (si_id si) then h x else x)
                         = si_fileId x).
  { intros x. destruct (Nat.eqb (si_id x) (si_id si)); auto. }
  unfold Prisma.file_findById, Prisma.findFileById, Prisma.storageInfoOf in *.
  cbn [set_storageInfos files storageInfos]. split.
  - rewrite Hf. rewrite (find_map_key si_fileId _ id _ Hu), Hsi. cbn.
    now rewrite Nat.eqb_refl.
  - intros id' Hne.
    destruct (find (fun x => Nat.eqb (file_id x) id') (files d)) as [f'|]; [|reflexivity].
    rewrite (find_map_key si_fileId _ id' _ Hu).
    destruct (find (fun x => Nat.eqb (si_fileId x) id') (storageInfos d)) as [si'|] eqn:Hsi';
      cbn; [|reflexivity].
    apply find_some in Hsi'. destruct Hsi' as [Hin' Hfid']. apply Nat.eqb_eq in Hfid'.
    destruct (Nat.eqb_spec (si_id si') (si_id si)) as [Heq|_]; [|reflexivity].
    assert (si' = si) by (eapply NoDup_map_In_inj; eauto). subst si'. congruence.
Qed.

Lemma getFileUrl_not_found id tag s :
  (forall f si, Prisma.file_findById id (db s) <> Some (f, Some si)) ->
  getFileUrl id tag s = (Throw fileNotFound, s).
Proof.
  intros Hnone. unfold getFileUrl. unfold bind at 1. unfold query at 1. simpl_state.
  destruct (Prisma.file_findById id (db s)) as [[f [si|]]|] eqn:Hfind; try reflexivity.
  now destruct (Hnone f si).
Qed.

Lemma getFileUrl_no_adapter id tag s f si :
  Prisma.file_findById id (db s) = Some (f, Some si) ->
  adapters_get tag s = None ->
  getFileUrl id tag s
  = (Throw (StorageError "Storage provider not available" VALIDATION_FAILED None), s).
Proof.
  intros Hfind Hget. unfold getFileUrl. unfold bind at 1. unfold query at 1. simpl_state.
  rewrite Hfind. unfold bind at 1. cbn [get]. rewrite Hget. reflexivity.
Qed.

Lemma getFileUrl_found id tag s f si a :
  txdb s = None ->
  Prisma.file_findById id (db s) = Some (f, Some si) ->
  adapters_get tag s = Some a ->
  getFileUrl id tag s
  = let called := events s ++ [AdapterGetPublicUrl (tagText tag) (si_storageFileId si)] in
    match getPublicUrl a (si_storageFileId si) None (world s) with
    | (Return u, w1) =>
        let written := called ++ [StorageInfoUpdate RootClient (si_id si)] in
        match Prisma.storageInfo_update (si_id si) (set_storageUrl (Some u)) (db s) with
        | (Return updated, d') =>
            (Return (mapToFileInfoDto (snd updated) (Some (fst updated))),
             mkState (adapters s) (adapterList s) (currentAdapterIndex s) w1 d' None written)
        | (Throw e, d') =>
            (Throw e,
             mkState (adapters s) (adapterList s) (currentAdapterIndex s) w1 d' None written)
        end
    | (Throw e, w1) =>
        (Throw e,
         mkState (adapters s) (adapterList s) (currentAdapterIndex s) w1 (db s) None called)
    end.
Proof.
  intros Htx Hfind Hget. unfold getFileUrl. unfold bind at 1. unfold query at 1. simpl_state.
  rewrite Hfind. unfold bind at 1. cbn [get]. rewrite Hget.
  unfold bind, log, call, write, ret. simpl_state.
  destruct (getPublicUrl a (si_storageFileId si) None (world s)) as [[u|e] w1]; simpl_state;
    [|rewrite ?Htx; reflexivity].
  rewrite Htx.
  destruct (Prisma.storageInfo_update _ _ (db s)) as [[updated|e] d']; simpl_state;
    rewrite ?Htx, <- ?app_assoc; reflexivity.
Qed.

(** What [getFileUrl] leaves when the adapter returns a URL. *)
Lemma getFileUrl_returns id tag s f si a u w1 :
  wellFormed (db s) -> txdb s = None ->
  Prisma.file_findById id (db s) = Some (f, Some si) ->
  adapters_get tag s = Some a ->
  getPublicUrl a (si_storageFileId si) None (world s) = (Return u, w1) ->
  exists s',
    getFileUrl id tag s = (Return (mapToFileInfoDto f (Some (set_storageUrl (Some u) si))), s')
    /\ world s' = w1
    /\ Prisma.file_findById id (db s') = Some (f, Some (set_storageUrl (Some u) si))
    /\ (forall id', id' <> id ->
          Prisma.file_findById id' (db s') = Prisma.file_findById id' (db s)).
Proof.
  intros Hwf Htx Hfind Hget Hurl.
  rewrite (getFileUrl_found id tag s f si a Htx Hfind Hget). cbv zeta. rewrite Hurl.
  destruct (storageInfo_update_run id (set_storageUrl (Some u)) (db s) f si)
    as (d' & Hupd & _ & Hnew & Hother); try reflexivity; try assumption.
  rewrite Hupd. eexists. split; [reflexivity|]. cbn [world db]. auto.
Qed.

(** X17. For a File with its StorageInfo in a well-formed store and an
    adapter under the provider name: when the adapter's [getPublicUrl]
    returns a URL, [getFileUrl] stores it in the StorageInfo of the File,
    touches no other File, and returns the File's entry with that URL;
    when the adapter throws, [getFileUrl] throws the adapter's error as it
    is and the store is unchanged.  The adapter is asked for the key of
    the StorageInfo, without an expiry of its own. *)
Theorem getFileUrl_refresh id tag s f si a :
  wellFormed (db s) -> txdb s = None ->
  Prisma.file_findById id (db s) = Some (f, Some si) ->
  adapters_get tag s = Some a ->
  let s' := snd (getFileUrl id tag s) in
  match getPublicUrl a (si_storageFileId si) None (world s) with
  | (Return u, w1) =>
      fst (getFileUrl id tag s)
      = Return (mapToFileInfoDto f (Some (set_storageUrl (Some u) si)))
      /\ dto_storageUrl (mapToFileInfoDto f (Some (set_storageUrl (Some u) si))) = Some u
      /\ world s' = w1
      /\ Prisma.file_findById id (db s') = Some (f, Some (set_storageUrl (Some u) si))
      /\ (forall id', id' <> id ->
            Prisma.file_findById id' (db s') = Prisma.file_findById id' (db s))
  | (Throw e, w1) =>
      fst (getFileUrl id tag s) = Throw e /\ world s' = w1 /\ db s' = db s
      /\ adapterCalls (events s')
         = adapterCalls (events s)
           ++ [AdapterGetPublicUrl (tagText tag) (si_storageFileId si)]
  end.
Proof.
  intros Hwf Htx Hfind Hget. cbv zeta.
  destruct (getPublicUrl a (si_storageFileId si) None (world s)) as [[u|e] w1] eqn:Hurl.
  - destruct (getFileUrl_returns id tag s f si a u w1 Hwf Htx Hfind Hget Hurl)
      as (s' & Hrun & Hw & Hnew & Hother).
    rewrite Hrun. cbn [fst snd]. auto.
  - rewrite (getFileUrl_found id tag s f si a Htx Hfind Hget). cbv zeta. rewrite Hurl.
    cbn [fst snd world db events]. rewrite adapterCalls_app. auto.
Qed.
End FileUrl.

Section FileUrlCached.
Context {JS : JsRuntime} {PS : PrismaSchema}.
Variable sdk : Adapters.Sdk.
Variable env : string -> option string.
Implicit Types (s : State Adapters.World).

(** X18. Through an adapter of a provider class, a [getFileUrl] that has
    returned the entry of a File is repeatable at once: asked again in the
    state it left, it returns the same entry, the URL coming from the
    adapter's cache, and no request goes to the provider. *)
Theorem getFileUrl_again this id tag s f si x s1 :
  wellFormed (db s) -> txdb s = None ->
  Prisma.file_findById id (db s) = Some (f, Some si) ->
  adapters_get tag s = Some (Adapters.asAdapter sdk env this) ->
  getFileUrl id tag s = (Return x, s1) ->
  exists s2,
    getFileUrl id tag s1 = (Return x, s2)
    /\ world s2 = world s1
    /\ Prisma.file_findById id (db s2) = Prisma.file_findById id (db s1).
Proof.
  intros Hwf Htx Hfind Hget Hrun.
  destruct (Adapters.getPublicUrl sdk this (si_storageFileId si) None (world s))
    as [[u|e] w1] eqn:Hurl.
  2:{ rewrite (getFileUrl_found id tag s f si _ Htx Hfind Hget) in Hrun. cbv zeta in Hrun.
      cbn [getPublicUrl Adapters.asAdapter] in Hrun. rewrite Hurl in Hrun. discriminate. }
  destruct (getFileUrl_returns id tag s f si _ u w1 Hwf Htx Hfind Hget Hurl)
    as (s1' & Hrun1 & Hw1 & Hfind1 & _).
  rewrite Hrun in Hrun1. injection Hrun1 as -> <-.
  assert (Hwf1 : wellFormed (db s1)).
  { assert (Hs : storeOk s) by (split; [exact Hwf|rewrite Htx; discriminate]).
    pose proof (keepsStore_getFileUrl id tag s Hs) as Hk. rewrite Hrun in Hk.
    exact (proj1 Hk). }
  assert (Htx1 : txdb s1 = None).
  { pose proof (closes_getFileUrl id tag s Htx) as Hc. now rewrite Hrun in Hc. }
  assert (Hget1 : adapters_get tag s1 = Some (Adapters.asAdapter sdk env this)).
  { pose proof (keeps_registry_getFileUrl id tag s) as Hk. rewrite Hrun in Hk.
    cbn [snd] in Hk. injection Hk as Ha _ _.
    unfold adapters_get in *. destruct tag; [|discriminate]. now rewrite Ha. }
  assert (Hhit : Adapters.getPublicUrl sdk this (si_storageFileId si) None (world s1)
                 = (Return u, world s1)).
  { apply getPublicUrl_hit. rewrite Hw1.
    eapply getPublicUrl_leaves_hit; [|exact Hurl]. reflexivity. }
  destruct (getFileUrl_returns id tag s1 f (set_storageUrl (Some u) si) _ u (world s1)
              Hwf1 Htx1 Hfind1 Hget1 Hhit)
    as (s2 & Hrun2 & Hw2 & Hfind2 & _).
  exists s2. split; [exact Hrun2|]. split; [exact Hw2|]. now rewrite Hfind2, Hfind1.
Qed.
End FileUrlCached.
(** ** Listing and paging *)

Section Listing.
Context {JS : JsRuntime} {PS : PrismaSchema} {W : Type}.
Implicit Types (s : State W) (d : Db).

Lemma listFiles_eq dto s :
  listFiles dto s
  = match Prisma.file_findMany (listFiles_where dto) (list_limit dto)
            (js_skip (list_page dto) (list_limit dto)) (db s) with
    | Return rows =>
        (Return (mkListFilesResponseDto
                   (map (fun r => mapToFileInfoDto (fst r) (snd r)) rows)
                   (Prisma.file_count (listFiles_where dto) (db s))
                   (orDefault (list_page dto) 1)
                   (ceilDiv (Prisma.file_count (listFiles_where dto) (db s))
                      (orDefault (list_limit dto) 10))), s)
    | Throw e => (Throw e, s)
    end.
Proof.
  unfold listFiles, bind, query, ret, throw. cbn [view].
  destruct (Prisma.file_findMany _ _ _ (db s)); reflexivity.
Qed.

Lemma length_insertDesc x l : length (Prisma.insertDesc x l) = S (length l).
Proof.
  induction l as [|y l IH]; cbn; [reflexivity|].
  destruct (_ <? _); cbn; [reflexivity|]. now rewrite IH.
Qed.

Lemma length_orderByCreatedAtDesc l : length (Prisma.orderByCreatedAtDesc l) = length l.
Proof.
  unfold Prisma.orderByCreatedAtDesc.
  induction l as [|x l IH]; cbn; [reflexivity|].
  now rewrite length_insertDesc, IH.
Qed.

Lemma length_listing dto d :
  Z.of_nat (length (listing dto d)) = Prisma.file_count (listFiles_where dto) d.
Proof.
  unfold listing, Prisma.file_count. now rewrite length_map, length_orderByCreatedAtDesc.
Qed.

Lemma ceilDiv_bounds a b :
  0 <= a -> 0 < b ->
  (a = 0 -> ceilDiv a b = 0)
  /\ (0 < a -> 0 < ceilDiv a b /\ (ceilDiv a b - 1) * b < a <= ceilDiv a b * b).
Proof.
  intros Ha Hb. unfold ceilDiv.
  pose proof (Z.div_mod (- a) b ltac:(lia)) as Hdm.
  pose proof (Z.mod_pos_bound (- a) b Hb) as Hmod.
  split.
  - intros ->. cbn. now rewrite Z.div_0_l by lia.
  - intros Hpos. nia.
Qed.

(** A page is a window of the listing. *)
Lemma listFiles_window dto s p l :
  list_page dto = Some p -> list_limit dto = Some l -> 1 <= p -> 1 <= l ->
  listFiles dto s
  = (Return (mkListFilesResponseDto
               (firstn (Z.to_nat l) (skipn (Z.to_nat ((p - 1) * l)) (listing dto (db s))))
               (Z.of_nat (length (listing dto (db s))))
               p
               (ceilDiv (Z.of_nat (length (listing dto (db s)))) l)), s).
Proof.
  intros Hp Hl Hp1 Hl1. rewrite listFiles_eq, Hp, Hl.
  unfold Prisma.file_findMany, js_skip.
  destruct (Z.ltb_spec ((p - 1) * l) 0) as [Hneg|_]; [nia|].
  unfold Prisma.takeRows. destruct (Z.ltb_spec l 0) as [Hneg|_]; [lia|].
  rewrite <- length_listing. unfold listing at 1 2.
  rewrite <- firstn_map, <- skipn_map. fold (listing dto (db s)).
  assert (Hp' : orDefault (Some p) 1 = p) by (unfold orDefault; destruct p; lia).
  assert (Hl' : orDefault (Some l) 10 = l) by (unfold orDefault; destruct l; lia).
  now rewrite Hp', Hl'.
Qed.

(** X19. With a page number and a page size from 1 on, [listFiles]
    returns, without changing anything, the entries of that page of the
    listing (the entries selected by branch and prefix that are not
    soft-deleted, newest first): the page holds [limit] entries, or what is
    left of the listing, or nothing beyond its end.  [totalCount] is the
    length of the listing whatever the page, and [totalPages] is the
    number of the last page that is not empty. *)
Theorem listFiles_page dto s p l :
  list_page dto = Some p -> list_limit dto = Some l -> 1 <= p -> 1 <= l ->
  exists r,
    listFiles dto s = (Return r, s)
    /\ lresp_files r
       = firstn (Z.to_nat l) (skipn (Z.to_nat ((p - 1) * l)) (listing dto (db s)))
    /\ lresp_totalCount r = Z.of_nat (length (listing dto (db s)))
    /\ lresp_currentPage r = p
    /\ Z.of_nat (length (lresp_files r))
       = Z.min l (Z.max 0 (lresp_totalCount r - (p - 1) * l))
    /\ 0 <= lresp_totalPages r
    /\ lresp_totalCount r <= lresp_totalPages r * l < lresp_totalCount r + l
    /\ (lresp_files r <> [] <-> p <= lresp_totalPages r).
Proof.
  intros Hp Hl Hp1 Hl1. rewrite (listFiles_window dto s p l Hp Hl Hp1 Hl1).
  eexists. split; [reflexivity|]. cbn [lresp_files lresp_totalCount lresp_currentPage
                                        lresp_totalPages].
  set (L := listing dto (db s)).
  assert (Hlen : Z.of_nat (length (firstn (Z.to_nat l) (skipn (Z.to_nat ((p - 1) * l)) L)))
                 = Z.min l (Z.max 0 (Z.of_nat (length L) - (p - 1) * l))).
  { rewrite length_firstn, length_skipn. nia. }
  pose proof (ceilDiv_bounds (Z.of_nat (length L)) l ltac:(lia) ltac:(lia)) as (Hc0 & Hc1).
  set (c := ceilDiv (Z.of_nat (length L)) l) in *.
  split; [reflexivity|]. split; [reflexivity|]. split; [reflexivity|].
  split; [exact Hlen|].
  assert (Hprod : 0 <= (p - 1) * l) by nia.
  destruct (Z.eqb_spec (Z.of_nat (length L)) 0) as [Hz|Hnz].
  - rewrite (Hc0 Hz) in *. rewrite Hz in *. split; [lia|]. split; [lia|].
    rewrite <- length_zero_iff_nil. split; lia.
  - destruct (Hc1 ltac:(lia)) as (Hcpos & Hlo & Hhi). split; [lia|]. split; [nia|].
    rewrite <- length_zero_iff_nil.
    assert (Hiff : 0 < Z.of_nat (length L) - (p - 1) * l <-> p <= c) by (split; intros; nia).
    split; intros; lia.
Qed.

Lemma newestFirst_insertDesc x l :
  newestFirst l -> newestFirst (Prisma.insertDesc x l).
Proof.
  induction l as [|y l IH]; cbn [Prisma.insertDesc newestFirst]; [auto|].
  intros [Hy Hl]. destruct (Z.ltb_spec (file_createdAt (fst y)) (file_createdAt (fst x))).
  - cbn [newestFirst]. split; [|auto]. constructor; [lia|].
    eapply List.Forall_impl; [|exact Hy]. cbn. intros; lia.
  - cbn [newestFirst]. split; [|auto].
    rewrite List.Forall_forall. intros z Hz. apply In_insertDesc in Hz.
    destruct Hz as [->|Hz]; [lia|]. rewrite List.Forall_forall in Hy. now apply Hy.
Qed.

Lemma newestFirst_orderByCreatedAtDesc l : newestFirst (Prisma.orderByCreatedAtDesc l).
Proof.
  unfold Prisma.orderByCreatedAtDesc. induction l as [|x l IH]; cbn [fold_right]; [exact I|].
  now apply newestFirst_insertDesc.
Qed.

Lemma newestFirst_lookup l : forall i j x y,
  newestFirst l -> (i < j)%nat -> l !! i = Some x -> l !! j = Some y ->
  file_createdAt (fst y) <= file_createdAt (fst x).
Proof.
  induction l as [|z l IH]; intros i j x y Hs Hij Hi Hj; [discriminate|].
  destruct Hs as [Hz Hl]. destruct j as [|j]; [lia|]. cbn in Hj.
  destruct i as [|i]; cbn in Hi.
  - injection Hi as ->. rewrite List.Forall_forall in Hz. apply Hz.
    apply list_elem_of_In. eapply list_elem_of_lookup_2. exact Hj.
  - eapply (IH i j); eauto. lia.
Qed.

(** [take] and [skip] cut a window out of the ordered rows. *)
Lemma takeRows_window {A} t (l : list A) :
  exists a b, Prisma.takeRows t l = firstn a (skipn b l).
Proof.
  unfold Prisma.takeRows. destruct t as [t|].
  - destruct (t <? 0).
    + exists (length l), (length l - Z.to_nat (- t))%nat.
      rewrite firstn_rev, rev_involutive. symmetry. apply firstn_all2.
      rewrite length_skipn. lia.
    + exists (Z.to_nat t), 0%nat. reflexivity.
  - exists (length l), 0%nat. symmetry. now apply firstn_all2.
Qed.

Lemma window_lookup {A} a b (l : list A) i x :
  firstn a (skipn b l) !! i = Some x -> l !! (b + i)%nat = Some x.
Proof.
  rewrite lookup_take. destruct (decide (i < a)%nat); [|discriminate].
  now rewrite lookup_drop.
Qed.

(** X20. The entries [listFiles] returns are ordered newest first: no
    entry was created before an entry that follows it. *)
Theorem listFiles_newest_first dto s r s' (i j : nat) x y :
  listFiles dto s = (Return r, s') ->
  (i < j)%nat ->
  lresp_files r !! i = Some x ->
  lresp_files r !! j = Some y ->
  dto_createdAt y <= dto_createdAt x.
Proof.
  rewrite listFiles_eq. unfold Prisma.file_findMany.
  destruct (js_skip _ _) as [|k| |]; try discriminate.
  destruct (k <? 0); [discriminate|].
  intros [= <- _] Hij. cbn [lresp_files].
  destruct (takeRows_window (list_limit dto)
              (skipn (Z.to_nat k)
                 (Prisma.orderByCreatedAtDesc (Prisma.selectFiles (listFiles_where dto) (db s)))))
    as (a & b & ->).
  rewrite skipn_skipn.
  change (map ?f ?l !! ?n) with ((f <$> l) !! n). rewrite !list_lookup_fmap.
  destruct (firstn a _ !! i) as [ri|] eqn:Hi; [|discriminate].
  destruct (firstn a _ !! j) as [rj|] eqn:Hj; [|discriminate].
  cbn. intros [= <-] [= <-]. cbn [dto_createdAt mapToFileInfoDto].
  apply window_lookup in Hi, Hj.
  eapply newestFirst_lookup; [apply newestFirst_orderByCreatedAtDesc| |exact Hi|exact Hj].
  lia.
Qed.

Lemma concat_windows {A} (l : list A) (size n : nat) :
  concat (map (fun k => firstn size (skipn ((k - 1) * size) l)) (seq 1 n))
  = firstn (n * size) l.
Proof.
  induction n as [|n IH]; [reflexivity|].
  rewrite seq_S, map_app, concat_app, IH. cbn [map concat]. rewrite app_nil_r.
  replace ((1 + n - 1) * size)%nat with (n * size)%nat by lia.
  rewrite take_take_drop. f_equal. lia.
Qed.

Lemma Permutation_insertDesc x l : Permutation (Prisma.insertDesc x l) (x :: l).
Proof.
  induction l as [|y l IH]; cbn [Prisma.insertDesc]; [reflexivity|].
  destruct (file_createdAt (fst y) <? file_createdAt (fst x)); [reflexivity|].
  rewrite IH. apply perm_swap.
Qed.

Lemma Permutation_orderByCreatedAtDesc l : Permutation (Prisma.orderByCreatedAtDesc l) l.
Proof.
  unfold Prisma.orderByCreatedAtDesc.
  induction l as [|x l IH]; cbn [fold_right]; [reflexivity|].
  rewrite Permutation_insertDesc. now rewrite IH.
Qed.

(** Rows of pairwise different [createdAt] have one newest-first order. *)
Lemma newestFirst_unique (l1 : list (File * option StorageInfo)) : forall l2,
  NoDup (map (fun r => file_createdAt (fst r)) l1) ->
  Permutation l1 l2 -> newestFirst l1 -> newestFirst l2 -> l1 = l2.
Proof.
  induction l1 as [|x l1 IH]; intros l2 Hnd Hperm H1 H2.
  - apply Permutation_nil in Hperm. now subst.
  - destruct l2 as [|y l2]; [apply Permutation_sym, Permutation_nil in Hperm; discriminate|].
    cbn [newestFirst] in H1, H2. destruct H1 as [Hx H1], H2 as [Hy H2].
    assert (Hxy : x = y).
    { assert (Hin1 : In y (x :: l1))
        by (eapply Permutation_in; [apply Permutation_sym, Hperm|left; reflexivity]).
      assert (Hin2 : In x (y :: l2))
        by (eapply Permutation_in; [exact Hperm|left; reflexivity]).
      destruct Hin1 as [->|Hin1]; [reflexivity|].
      destruct Hin2 as [->|Hin2]; [reflexivity|]. exfalso.
      rewrite List.Forall_forall in Hx, Hy.
      pose proof (Hx y Hin1) as Hle1. pose proof (Hy x Hin2) as Hle2.
      cbn [map] in Hnd. apply NoDup_cons in Hnd. destruct Hnd as [Hnotin _].
      apply Hnotin. apply list_elem_of_In, in_map_iff. exists y. split; [lia|exact Hin1]. }
    subst y. f_equal. apply IH; [|eapply Permutation_cons_inv; exact Hperm|exact H1|exact H2].
    cbn [map] in Hnd. apply NoDup_cons in Hnd. apply Hnd.
Qed.

(** X21. When the files a request selects have pairwise different
    [createdAt], so that newest first is one order whatever the store does
    with equal dates, paging loses and repeats nothing: for a page size
    from 1 on, the pages 1 to [totalPages] that [listFiles] returns for
    the request, put one after the other, are the listing of the request,
    which is the only newest-first arrangement of the selected files. *)
Theorem paging_partition dto s l :
  list_limit dto = Some l -> 1 <= l ->
  let selected := Prisma.selectFiles (listFiles_where dto) (db s) in
  NoDup (map (fun r => file_createdAt (fst r)) selected) ->
  let total := Z.of_nat (length (listing dto (db s))) in
  concat (map (fun k => pageOf dto s (Z.of_nat k)) (seq 1 (Z.to_nat (ceilDiv total l))))
  = listing dto (db s)
  /\ (forall rows,
        Permutation rows selected -> newestFirst rows ->
        map (fun r => mapToFileInfoDto (fst r) (snd r)) rows = listing dto (db s)).
Proof.
  intros Hl Hl1 selected Hdistinct total. split.
  - assert (Hpage : forall k, In k (seq 1 (Z.to_nat (ceilDiv total l))) ->
              pageOf dto s (Z.of_nat k)
              = firstn (Z.to_nat l) (skipn ((k - 1) * Z.to_nat l) (listing dto (db s)))).
    { intros k Hk. apply in_seq in Hk. unfold pageOf.
      rewrite (listFiles_window (withPage (Z.of_nat k) dto) s (Z.of_nat k) l)
        by (first [reflexivity | assumption | lia]).
      cbn [fst lresp_files].
      replace (Z.to_nat ((Z.of_nat k - 1) * l)) with ((k - 1) * Z.to_nat l)%nat by nia.
      reflexivity. }
    rewrite (map_ext_in _ _ _ Hpage), concat_windows.
    apply firstn_all2.
    pose proof (ceilDiv_bounds total l ltac:(lia) ltac:(lia)) as (Hc0 & Hc1).
    destruct (Z.eqb_spec total 0) as [Hz|Hnz]; [lia|].
    destruct (Hc1 ltac:(lia)) as (Hcpos & _ & Hhi). subst total. nia.
  - intros rows Hperm Hsorted. unfold listing. f_equal. fold selected.
    apply newestFirst_unique.
    + rewrite (Permutation_map (fun r => file_createdAt (fst r)) Hperm). exact Hdistinct.
    + rewrite Hperm. apply Permutation_sym, Permutation_orderByCreatedAtDesc.
    + exact Hsorted.
    + apply newestFirst_orderByCreatedAtDesc.
Qed.
End Listing.

(** ** Lookup by path *)

Section Splitting.

Lemma split_aux_length sep s : forall cur,
  length (split_aux sep s cur) = S (countChar sep s).
Proof.
  induction s as [|c s IH]; intros cur; cbn; [reflexivity|].
  destruct (Ascii.eqb c sep); cbn; now rewrite IH.
Qed.

Lemma split_length sep s : length (split sep s) = S (countChar sep s).
Proof. apply split_aux_length. Qed.

Lemma append_cons c (a b : string) : String c a +:+ b = String c (a +:+ b).
Proof. reflexivity. Qed.

Lemma append_nil (b : string) : EmptyString +:+ b = b.
Proof. reflexivity. Qed.

Lemma append_assoc (a b c : string) : (a +:+ b) +:+ c = a +:+ (b +:+ c).
Proof.
  induction a as [|x a IH]; [reflexivity|]. rewrite !append_cons. now rewrite IH.
Qed.

Lemma append_empty_r (a : string) : a +:+ EmptyString = a.
Proof. induction a as [|x a IH]; [reflexivity|]. rewrite append_cons. now rewrite IH. Qed.

Lemma split_aux_cur sep s : forall cur,
  split_aux sep s cur
  = match split_aux sep s EmptyString with
    | [] => []
    | p :: rest => (cur +:+ p) :: rest
    end.
Proof.
  induction s as [|c s IH]; intros cur; cbn [split_aux].
  - now rewrite append_empty_r.
  - destruct (Ascii.eqb c sep).
    + now rewrite append_empty_r.
    + rewrite (IH (cur +:+ String c EmptyString)), (IH (EmptyString +:+ String c EmptyString)).
      destruct (split_aux sep s EmptyString); [reflexivity|].
      now rewrite append_assoc.
Qed.

(** A part without the separator, followed by the separator: the first
    part of the split. *)
Lemma split_cons sep (a rest : string) :
  countChar sep a = O -> split sep (a +:+ String sep rest) = a :: split sep rest.
Proof.
  unfold split. induction a as [|c a IH]; cbn [countChar].
  - intros _. rewrite append_nil. cbn [split_aux]. now rewrite Ascii.eqb_refl.
  - rewrite append_cons. cbn [split_aux].
    destruct (Ascii.eqb c sep) eqn:E; [discriminate|]. cbn. intros Ha.
    rewrite split_aux_cur, (IH Ha). reflexivity.
Qed.

Lemma split_last sep (a : string) : countChar sep a = O -> split sep a = [a].
Proof.
  unfold split. induction a as [|c a IH]; cbn [countChar split_aux]; [reflexivity|].
  destruct (Ascii.eqb c sep) eqn:E; [discriminate|]. cbn. intros Ha.
  rewrite split_aux_cur, (IH Ha). reflexivity.
Qed.

Lemma join_cons sep (a b : string) (l : list string) :
  join sep (a :: b :: l) = a +:+ String sep (join sep (b :: l)).
Proof. reflexivity. Qed.

Lemma split_join sep s : join sep (split sep s) = s.
Proof.
  unfold split. induction s as [|c s IH]; cbn [split_aux]; [reflexivity|].
  pose proof (split_aux_length sep s EmptyString) as Hl.
  destruct (Ascii.eqb_spec c sep) as [->|Hne].
  - destruct (split_aux sep s EmptyString) as [|p rest] eqn:E; [discriminate|].
    rewrite join_cons, append_nil. now rewrite IH.
  - rewrite split_aux_cur. destruct (split_aux sep s EmptyString) as [|p rest] eqn:E;
      [discriminate|].
    rewrite append_nil. destruct rest as [|q rest].
    + cbn [join] in *. rewrite append_cons, append_nil. now rewrite IH.
    + rewrite join_cons in *. rewrite !append_cons, append_nil. now rewrite IH.
Qed.
End Splitting.

Section Lookup.
Context {JS : JsRuntime} {PS : PrismaSchema} {W : Type}.
Implicit Types (s : State W) (d : Db).

Lemma getFileByUrl_state path s : snd (getFileByUrl path s) = s.
Proof.
  unfold getFileByUrl.
  destruct (split slash path) as [|year [|month [|branchName [|filename [|]]]]];
    try reflexivity.
  destruct (_ || _ || _ || _); [reflexivity|].
  unfold bind, query, ret, throw. cbn [view].
  destruct (Prisma.branch_findFirst branchName _) as [branch|]; [|reflexivity].
  destruct (asInt (toNumber (Some year))); [|reflexivity].
  destruct (asInt (toNumber (Some month))); [|reflexivity].
  destruct (Prisma.file_findFirst _ _) as [[f osi]|]; reflexivity.
Qed.

(** X22. [getFileByUrl] changes nothing.  A path with other than three
    slashes is rejected with status 400; whatever else [getFileByUrl]
    throws is an HTTP error with status 400 or 404, or the metadata store's
    rejection of a year or a month that is a number but not an integer. *)
Theorem getFileByUrl_rejects path s :
  snd (getFileByUrl path s) = s
  /\ (countChar slash path <> 3%nat ->
      fst (getFileByUrl path s) = Throw invalidStructure)
  /\ (forall e, fst (getFileByUrl path s) = Throw e ->
        (exists m, e = HttpException m HttpStatus_BAD_REQUEST)
        \/ (exists m, e = HttpException m HttpStatus_NOT_FOUND)
        \/ (exists m year month, e = PrismaError m
              /\ split slash path !! 0%nat = Some year
              /\ split slash path !! 1%nat = Some month
              /\ (asInt (toNumber (Some year)) = None
                  \/ asInt (toNumber (Some month)) = None))).
Proof.
  split; [apply getFileByUrl_state|]. split.
  - intros Hcount. unfold getFileByUrl.
    pose proof (split_length slash path) as Hlen.
    destruct (split slash path) as [|year [|month [|branchName [|filename [|]]]]];
      try reflexivity.
    cbn in Hlen. lia.
  - intros e. unfold getFileByUrl.
    destruct (split slash path) as [|year [|month [|branchName [|filename [|]]]]];
      try (intros [= <-]; left; eexists; reflexivity).
    destruct (isNaN (toNumber (Some year)) || isNaN (toNumber (Some month))
              || js_lt (toNumber (Some month)) 1 || js_gt (toNumber (Some month)) 12) eqn:Hbad;
      [intros [= <-]; left; eexists; reflexivity|].
    unfold bind, query, ret, throw. cbn [view].
    destruct (Prisma.branch_findFirst branchName _) as [branch|];
      [|intros [= <-]; right; left; eexists; reflexivity].
    destruct (asInt (toNumber (Some year))) eqn:Hy.
    + destruct (asInt (toNumber (Some month))) eqn:Hm.
      * destruct (Prisma.file_findFirst _ _) as [[f osi]|]; [discriminate|].
        intros [= <-]. right. left. eexists. reflexivity.
      * intros [= <-]. right. right. eexists. exists year, month. auto.
    + intros [= <-]. right. right. eexists. exists year, month. auto.
Qed.

Lemma In_selectFiles_row where_ d f osi :
  In (f, osi) (Prisma.selectFiles where_ d) <->
  In f (files d) /\ osi = Prisma.storageInfoOf (file_id f) d /\ where_ f osi = true.
Proof.
  unfold Prisma.selectFiles. rewrite filter_In, in_map_iff. cbn [fst snd]. split.
  - intros [(f0 & [= -> <-] & Hin) Hw]. auto.
  - intros (Hin & -> & Hw). split; [eauto|exact Hw].
Qed.

Lemma file_findFirst_Some where_ d f osi :
  Prisma.file_findFirst where_ d = Some (f, osi) ->
  In f (files d) /\ osi = Prisma.storageInfoOf (file_id f) d /\ where_ f osi = true.
Proof.
  unfold Prisma.file_findFirst. intros Hhead. apply In_selectFiles_row.
  destruct (Prisma.selectFiles where_ d); [discriminate|].
  cbn in Hhead. injection Hhead as ->. now left.
Qed.

Lemma file_findFirst_is_Some where_ d f :
  In f (files d) -> where_ f (Prisma.storageInfoOf (file_id f) d) = true ->
  is_Some (Prisma.file_findFirst where_ d).
Proof.
  intros Hin Hw. unfold Prisma.file_findFirst.
  assert (Hrow : In (f, Prisma.storageInfoOf (file_id f) d) (Prisma.selectFiles where_ d))
    by (apply In_selectFiles_row; auto).
  destruct (Prisma.selectFiles where_ d); [destruct Hrow|]. cbn. eauto.
Qed.

Lemma getFileByUrl_where_true y m b n f osi :
  getFileByUrl_where (Int y) (Int m) b n f osi = true <->
  file_year f = y /\ file_month f = m /\ file_branchId f = b /\ file_name f = n
  /\ file_deletedAt f = None.
Proof.
  unfold getFileByUrl_where. cbn [asInt].
  rewrite !andb_true_iff, !Z.eqb_eq, !String.eqb_eq.
  destruct (file_deletedAt f); intuition congruence.
Qed.

Lemma asInt_Some n z : asInt n = Some z -> n = Int z.
Proof. destruct n; cbn; congruence. Qed.

(** X23. The entry [getFileByUrl] returns for a path is that of a File of
    the store that is not soft-deleted, with its StorageInfo: the path has
    the four segments year, month, branch name and file name; year and
    month read as integers, the month from 1 to 12; the File has that
    year and month, belongs to the branch of that name, and its name is
    the year, the month (as the numbers print), the branch name and the
    file name joined by underscores. *)
Theorem getFileByUrl_sound path s x :
  fst (getFileByUrl path s) = Return x ->
  exists year month branchName filename branch f y m,
    path = join slash [year; month; branchName; filename]
    /\ toNumber (Some year) = Int y /\ toNumber (Some month) = Int m /\ 1 <= m <= 12
    /\ In branch (branches (db s)) /\ branch_name branch = branchName
    /\ In f (files (db s))
    /\ x = mapToFileInfoDto f (Prisma.storageInfoOf (file_id f) (db s))
    /\ file_year f = y /\ file_month f = m /\ file_branchId f = branch_id branch
    /\ file_name f
       = numToString (Int y) +:+ "_" +:+ numToString (Int m) +:+ "_" +:+ branchName
         +:+ "_" +:+ filename
    /\ file_deletedAt f = None.
Proof.
  unfold getFileByUrl. pose proof (split_join slash path) as Hjoin.
  destruct (split slash path) as [|year [|month [|branchName [|filename [|]]]]];
    try discriminate.
  destruct (isNaN (toNumber (Some year)) || isNaN (toNumber (Some month))
            || js_lt (toNumber (Some month)) 1 || js_gt (toNumber (Some month)) 12) eqn:Hbad;
    [discriminate|].
  unfold bind, query, ret, throw. cbn [view].
  destruct (Prisma.branch_findFirst branchName (db s)) as [branch|] eqn:Hbranch;
    [|discriminate].
  destruct (asInt (toNumber (Some year))) as [y|] eqn:Hy; [|discriminate].
  destruct (asInt (toNumber (Some month))) as [m|] eqn:Hm; [|discriminate].
  apply asInt_Some in Hy, Hm. rewrite Hy, Hm in *.
  destruct (Prisma.file_findFirst _ (db s)) as [[f osi]|] eqn:Hfind; [|discriminate].
  intros [= <-].
  apply file_findFirst_Some in Hfind. destruct Hfind as (Hin & -> & Hw).
  apply getFileByUrl_where_true in Hw. destruct Hw as (Hfy & Hfm & Hfb & Hfn & Hvis).
  unfold Prisma.branch_findFirst in Hbranch. apply find_some in Hbranch.
  destruct Hbranch as [Hbin Hbname]. apply String.eqb_eq in Hbname.
  apply orb_false_elim in Hbad. destruct Hbad as [Hbad Hgt].
  apply orb_false_elim in Hbad. destruct Hbad as [_ Hlt].
  cbn in Hgt, Hlt. apply Z.ltb_ge in Hgt, Hlt.
  exists year, month, branchName, filename, branch, f, y, m.
  repeat (split; [first [assumption | reflexivity | now symmetry | lia]|]). exact Hvis.
Qed.

(** The canonical name of a File under a path. *)
Lemma split_path year month branchName filename :
  countChar slash year = O -> countChar slash month = O ->
  countChar slash branchName = O -> countChar slash filename = O ->
  split slash (join slash [year; month; branchName; filename])
  = [year; month; branchName; filename].
Proof.
  intros Hs1 Hs2 Hs3 Hs4. rewrite !join_cons. cbn [join].
  rewrite !split_cons by assumption. now rewrite split_last.
Qed.

(** [getFileByUrl] on a well-formed path of an existing branch is the
    query for the File. *)
Lemma getFileByUrl_query s year month branchName filename branch y m :
  countChar slash year = O -> countChar slash month = O ->
  countChar slash branchName = O -> countChar slash filename = O ->
  toNumber (Some year) = Int y -> toNumber (Some month) = Int m -> 1 <= m <= 12 ->
  Prisma.branch_findFirst branchName (db s) = Some branch ->
  getFileByUrl (join slash [year; month; branchName; filename]) s
  = match Prisma.file_findFirst
            (getFileByUrl_where (Int y) (Int m) (branch_id branch)
               (numToString (Int y) +:+ "_" +:+ numToString (Int m) +:+ "_" +:+ branchName
                  +:+ "_" +:+ filename)) (db s) with
    | Some (f, osi) => (Return (mapToFileInfoDto f osi), s)
    | None => (Throw (HttpException "File not found" HttpStatus_NOT_FOUND), s)
    end.
Proof.
  intros Hs1 Hs2 Hs3 Hs4 Hy Hm Hrange Hbranch.
  unfold getFileByUrl. rewrite split_path by assumption.
  rewrite Hy, Hm. cbn [isNaN js_lt js_gt orb].
  destruct (Z.ltb_spec m 1); [lia|]. destruct (Z.ltb_spec 12 m); [lia|]. cbn [orb].
  unfold bind, query, ret, throw. cbn [view]. rewrite Hbranch. cbn [asInt].
  destruct (Prisma.file_findFirst _ (db s)) as [[f osi]|]; reflexivity.
Qed.

(** X24. Every File that is not soft-deleted is found under the path made
    of its year, month, the name of its branch and the rest of its name,
    when its name has that form: for segments without a slash, of which
    year and month read as the File's year and month, [getFileByUrl]
    returns an entry of that name, year, month and branch. *)
Theorem getFileByUrl_finds s year month branchName filename branch f y m :
  countChar slash year = O -> countChar slash month = O ->
  countChar slash branchName = O -> countChar slash filename = O ->
  toNumber (Some year) = Int y -> toNumber (Some month) = Int m -> 1 <= m <= 12 ->
  Prisma.branch_findFirst branchName (db s) = Some branch ->
  In f (files (db s)) ->
  file_year f = y -> file_month f = m -> file_branchId f = branch_id branch ->
  file_name f
  = numToString (Int y) +:+ "_" +:+ numToString (Int m) +:+ "_" +:+ branchName
    +:+ "_" +:+ filename ->
  file_deletedAt f = None ->
  exists x,
    getFileByUrl (join slash [year; month; branchName; filename]) s = (Return x, s)
    /\ dto_fileName x = file_name f
    /\ dto_path x
       = numToString (Int y) +:+ "/" +:+ numToString (Int m) +:+ "/" +:+ branch_id branch
    /\ dto_deletedAt x = None.
Proof.
  intros Hs1 Hs2 Hs3 Hs4 Hy Hm Hrange Hbranch Hin Hfy Hfm Hfb Hfn Hvis.
  rewrite (getFileByUrl_query s year month branchName filename branch y m) by assumption.
  match goal with
  | |- context [Prisma.file_findFirst ?wh (db s)] =>
      destruct (file_findFirst_is_Some wh (db s) f Hin) as [[f' osi'] Hfound];
      [apply getFileByUrl_where_true; auto|]
  end.
  rewrite Hfound. apply file_findFirst_Some in Hfound.
  destruct Hfound as (_ & _ & Hw). apply getFileByUrl_where_true in Hw.
  destruct Hw as (Hfy' & Hfm' & Hfb' & Hfn' & Hvis').
  eexists. split; [reflexivity|]. cbn [dto_fileName dto_path dto_deletedAt mapToFileInfoDto].
  rewrite Hfy', Hfm', Hfb', Hfn', Hvis', Hfn. auto.
Qed.
End Lookup.
(** ** In front of the storage service *)

Section Facades.
Context {JS : JsRuntime} {PS : PrismaSchema} {W : Type}.
Variable Date_now : W -> Z.
Variable Date_later : W -> Z.
Variable encodeURIComponent : string -> string.
Implicit Types (s : State W) (d : Db).

Lemma mapToStorageType_member (t : StorageType) (x : SharedStorageType.t) :
  SharedStorageType.value x = StorageType_name t ->
  FileStorageService.mapToStorageType x = Some (StorageType_value t).
Proof. destruct t, x; cbn; intros [=]; reflexivity. Qed.

Lemma FileService_downloadFile_eq id s :
  FileService.downloadFile id s
  = match Prisma.file_findById id (db s) with
    | Some (_, Some si) =>
        match FileService.mapPrismaToSharedStorageType (si_storageType si) with
        | Return t => downloadFile id (FileStorageService.mapToStorageType t) s
        | Throw e => (Throw e, s)
        end
    | _ => (Throw (HttpException "File not found" HttpStatus_NOT_FOUND), s)
    end.
Proof.
  unfold FileService.downloadFile. unfold bind at 1. unfold query at 1. cbn [view].
  destruct (Prisma.file_findById id (db s)) as [[f [si|]]|]; try reflexivity.
  destruct (FileService.mapPrismaToSharedStorageType _); reflexivity.
Qed.

(** X25. [FileService.downloadFile] chooses the provider from the
    StorageInfo of the File: for a stored provider tag GOOGLE, AWS or
    AZURE it is [StorageService.downloadFile] under the provider name
    google, aws or azure.  Without a File with StorageInfo under the id
    it throws an HTTP error 404; for the tag LOCAL it throws
    VALIDATION_FAILED, there being no provider of that name; for a
    StorageInfo without tag, or with any other tag, it throws an HTTP
    error 400.  In these cases nothing has happened. *)
Theorem FileService_downloadFile_dispatch id s :
  match Prisma.file_findById id (db s) with
  | Some (f, Some si) =>
      match si_storageType si with
      | Some tag =>
          (forall t, tag = StorageType_name t ->
             FileService.downloadFile id s = downloadFile id (Some (StorageType_value t)) s)
          /\ (tag = "LOCAL" ->
              FileService.downloadFile id s = (Throw (providerNotAvailable None), s))
          /\ ((forall t, tag <> PrismaStorageType.value t) ->
              FileService.downloadFile id s
              = (Throw (HttpException ("Unsupported storage type: " +:+ tag)
                          HttpStatus_BAD_REQUEST), s))
      | None =>
          FileService.downloadFile id s
          = (Throw (HttpException "Unsupported storage type: null" HttpStatus_BAD_REQUEST), s)
      end
  | _ =>
      FileService.downloadFile id s
      = (Throw (HttpException "File not found" HttpStatus_NOT_FOUND), s)
  end.
Proof.
  rewrite FileService_downloadFile_eq.
  destruct (Prisma.file_findById id (db s)) as [[f [si|]]|] eqn:Hfind; try reflexivity.
  unfold FileService.mapPrismaToSharedStorageType.
  destruct (si_storageType si) as [tag|]; [|reflexivity].
  split; [|split].
  - intros t ->. destruct t; reflexivity.
  - intros ->. change (downloadFile id None s = (Throw (providerNotAvailable None), s)).
    eapply downloadFile_no_adapter; [exact Hfind|reflexivity].
  - intros Hnone.
    destruct (String.eqb_spec tag (PrismaStorageType.value PrismaStorageType.AWS)) as [E|_];
      [now destruct (Hnone PrismaStorageType.AWS)|].
    destruct (String.eqb_spec tag (PrismaStorageType.value PrismaStorageType.GOOGLE)) as [E|_];
      [now destruct (Hnone PrismaStorageType.GOOGLE)|].
    destruct (String.eqb_spec tag (PrismaStorageType.value PrismaStorageType.AZURE)) as [E|_];
      [now destruct (Hnone PrismaStorageType.AZURE)|].
    destruct (String.eqb_spec tag (PrismaStorageType.value PrismaStorageType.LOCAL)) as [E|_];
      [now destruct (Hnone PrismaStorageType.LOCAL)|].
    reflexivity.
Qed.

Lemma download_endpoint_eq id provider s :
  StorageController.downloadFile encodeURIComponent id provider s
  = match downloadFile id (Some (StorageType_value provider)) s with
    | (Return r, s') =>
        (Return (mkHttpResponse
                   [("Content-Type", dl_mimetype r);
                    ("Content-Disposition",
                     "attachment; filename=" +:+ quoted (encodeURIComponent (dl_filename r)))]
                   (dl_stream r)), s')
    | (Throw error, s') =>
        (Throw (HttpException
                  (default "Download failed" (Adapters.nonEmpty (Adapters.messageOf error)))
                  (match codeOf error with
                   | Some FILE_NOT_FOUND => HttpStatus_NOT_FOUND
                   | _ => HttpStatus_INTERNAL_SERVER_ERROR
                   end)), s')
    end.
Proof.
  unfold StorageController.downloadFile, try_catch, bind.
  destruct (downloadFile id _ s) as [[r|e] s']; reflexivity.
Qed.

(** X26. The download endpoint of the storage controller answers 404
    exactly when there is no File with a StorageInfo under the id.  For
    such a File every failure is answered 500 with the message of the
    storage error: a provider that is not registered, an adapter without
    [download], a provider error.  When the adapter delivers the stream,
    the response carries it with the File's MIME type as content type and
    the encoded File name in the disposition. *)
Theorem download_endpoint_status id provider s :
  let out := fst (StorageController.downloadFile encodeURIComponent id provider s) in
  match Prisma.file_findById id (db s) with
  | Some (f, Some si) =>
      match out with
      | Throw e =>
          exists m, e = HttpException m HttpStatus_INTERNAL_SERVER_ERROR
            /\ (m = "Storage provider not available for type: " +:+ StorageType_value provider
                \/ m = "Failed to download file")
      | Return response =>
          exists a dl w',
            adapters_get (Some (StorageType_value provider)) s = Some a
            /\ download a = Some dl
            /\ dl (si_storageFileId si) (world s) = (Return (body response), w')
            /\ headers response
               = [("Content-Type", file_mimeType f);
                  ("Content-Disposition",
                   "attachment; filename=" +:+ quoted (encodeURIComponent (file_name f)))]
      end
  | _ => out = Throw (HttpException "File not found" HttpStatus_NOT_FOUND)
  end.
Proof.
  cbv zeta. rewrite download_endpoint_eq.
  destruct (Prisma.file_findById id (db s)) as [[f [si|]]|] eqn:Hfind.
  - destruct (adapters_get (Some (StorageType_value provider)) s) as [a|] eqn:Hget.
    + rewrite (downloadFile_found id _ s f si a Hfind Hget).
      destruct (download a) as [dl|] eqn:Hdl.
      * destruct (dl (si_storageFileId si) (world s)) as [[stream|e] w1] eqn:Hrun;
          cbn; eauto 10.
      * cbn. eauto.
    + rewrite (downloadFile_no_adapter id _ s f si Hfind Hget). cbn. eauto.
  - rewrite downloadFile_not_found by (intros f' si'; rewrite Hfind; discriminate).
    reflexivity.
  - rewrite downloadFile_not_found by (intros f' si'; rewrite Hfind; discriminate).
    reflexivity.
Qed.

(** X27. The delete endpoint of the storage controller can only
    soft-delete: its request has no [permanent], so that no adapter is
    called, the providers are as they were, and no File row and no
    StorageInfo row is removed. *)
Theorem delete_endpoint_is_soft id s :
  let s' := snd (StorageController.deleteFile Date_now Date_later id s) in
  world s' = world s
  /\ adapterCalls (events s') = adapterCalls (events s)
  /\ map file_id (files (db s')) = map file_id (files (db s))
  /\ map si_id (storageInfos (db s')) = map si_id (storageInfos (db s)).
Proof.
  cbv zeta. unfold StorageController.deleteFile.
  destruct (Prisma.file_findById id (db s)) as [[f osi]|] eqn:Hfind.
  - rewrite (deleteFile_soft_eq Date_now Date_later (mkDeleteFileRequestDto id None) s f osi eq_refl Hfind).
    cbv zeta.
    cbn [del_storageFileId].
    unfold Prisma.file_update_nested.
    destruct (Prisma.findFileById id (db s)); cbn [snd deleted world events db].
    + destruct (Prisma.storageInfoOf id (db s)); cbn [snd deleted world events db files
                                                       storageInfos];
        rewrite adapterCalls_app; cbn; rewrite app_nil_r;
        rewrite ?map_id_updateFileRow, ?(map_updateStorageInfoRow si_id) by reflexivity;
        auto.
    + rewrite adapterCalls_app. cbn. rewrite app_nil_r. auto.
  - rewrite (deleteFile_not_found Date_now Date_later (mkDeleteFileRequestDto id None) s Hfind).
    cbn. auto.
Qed.
End Facades.

(** ** From the upload to the lookup by path *)

Section RoundTrip.
Context {JS : JsRuntime} {PS : PrismaSchema} {W : Type}.
Variable Date_now : W -> Z.
Implicit Types (s : State W) (d : Db).

(** Year and month of a name that starts with two parts closed by
    underscores. *)
Lemma createFileRecord_data_parts file r dto t year month rest :
  countChar underscore year = O -> countChar underscore month = O ->
  originalname file = join underscore [year; month; rest] ->
  fci_year (createFileRecord_data file r dto t)
  = js_or (toNumber (Some year)) (Int (getFullYear t))
  /\ fci_month (createFileRecord_data file r dto t)
     = js_or (toNumber (Some month)) (Int (getMonth t + 1)).
Proof.
  intros Hu1 Hu2 Hname. unfold createFileRecord_data. cbn [fci_year fci_month].
  rewrite Hname, !join_cons. rewrite !split_cons by assumption. split; reflexivity.
Qed.

(** X28. A File uploaded under a name of the form
    year_month_branch_rest is found by [getFileByUrl] under the path
    year/month/branch/rest as soon as [uploadFile] has returned, provided
    that year and month are numbers written as the runtime prints them
    (the year not 0, the month from 1 to 12), that the segments have no
    slash, and that the request names the branch of that name. *)
Theorem upload_then_lookup dto file s a r w1 year month rest branch y m :
  wellFormed (db s) ->
  adapterList s !! currentAdapterIndex s = Some a ->
  upload a file (Some (originalname file)) (world s) = (Return r, w1) ->
  originalname file
  = join underscore [year; month; branch_name branch +:+ String underscore rest] ->
  countChar underscore year = O -> countChar underscore month = O ->
  countChar slash year = O -> countChar slash month = O ->
  countChar slash (branch_name branch) = O -> countChar slash rest = O ->
  toNumber (Some year) = Int y -> y <> 0 -> numToString (Int y) = year ->
  toNumber (Some month) = Int m -> 1 <= m <= 12 -> numToString (Int m) = month ->
  Prisma.branch_findFirst (branch_name branch) (db s) = Some branch ->
  upl_branchId dto = branch_id branch ->
  acceptsFile (createFileRecord_data file r dto (Date_now w1)) = true ->
  (forall f, acceptsStorageInfo (uploadFile_data f r) = true) ->
  exists resp s' x,
    uploadFile Date_now dto file s = (Return resp, s')
    /\ getFileByUrl (join slash [year; month; branch_name branch; rest]) s' = (Return x, s')
    /\ dto_fileName x = originalname file
    /\ dto_deletedAt x = None.
Proof.
  intros Hwf Ha Hup Hname Hu1 Hu2 Hs1 Hs2 Hs3 Hs4 Hy Hy0 Hyc Hm Hrange Hmc Hbranch Hbid
    HaccF HaccS.
  destruct (createFileRecord_data_parts file r dto (Date_now w1) year month _ Hu1 Hu2 Hname)
    as [Hfy Hfm].
  rewrite Hy in Hfy. rewrite Hm in Hfm.
  assert (Hty : js_or (Int y) (Int (getFullYear (Date_now w1))) = Int y)
    by (unfold js_or, truthy; destruct y; congruence).
  assert (Htm : js_or (Int m) (Int (getMonth (Date_now w1) + 1)) = Int m)
    by (unfold js_or, truthy; destruct m; try reflexivity; lia).
  rewrite Hty in Hfy. rewrite Htm in Hfm.
  destruct (Prisma.file_create (Date_now w1)
              (createFileRecord_data file r dto (Date_now w1)) (db s)) as [o d1] eqn:Hfile.
  pose proof Hfile as Hfile'. unfold Prisma.file_create in Hfile'.
  rewrite Hfy, Hfm, HaccF in Hfile'. cbn [asInt] in Hfile'.
  injection Hfile' as <- _.
  match type of Hfile with
  | _ = (Return ?f0, _) => set (f := f0) in *
  end.
  destruct (uploadFile_returns Date_now dto file s a r w1 f d1 Hwf Ha Hup Hfile (HaccS f))
    as (s' & Hrun & _ & _ & Hdb & _).
  assert (Hin : In f (files (db s'))) by (rewrite Hdb; cbn; apply in_or_app; right; now left).
  assert (Hbranch' : Prisma.branch_findFirst (branch_name branch) (db s') = Some branch)
    by (rewrite Hdb; exact Hbranch).
  assert (Hlookup : exists x,
             getFileByUrl (join slash [year; month; branch_name branch; rest]) s'
             = (Return x, s')
             /\ dto_fileName x = originalname file /\ dto_deletedAt x = None).
  { rewrite (getFileByUrl_query s' year month (branch_name branch) rest branch y m)
      by assumption.
    match goal with
    | |- context [Prisma.file_findFirst ?wh (db s')] =>
        destruct (file_findFirst_is_Some wh (db s') f Hin) as [[f' osi'] Hfound]
    end.
    { apply getFileByUrl_where_true. cbn [f file_year file_month file_branchId file_name
                                           file_deletedAt createFileRecord_data fci_name
                                           fci_branchId].
      rewrite Hyc, Hmc, Hname, Hbid. repeat split; reflexivity. }
    rewrite Hfound. apply file_findFirst_Some in Hfound.
    destruct Hfound as (_ & _ & Hw). apply getFileByUrl_where_true in Hw.
    destruct Hw as (_ & _ & _ & Hfn' & Hvis').
    eexists. split; [reflexivity|].
    cbn [dto_fileName dto_deletedAt mapToFileInfoDto].
    rewrite Hfn', Hvis', Hyc, Hmc, Hname. split; reflexivity. }
  destruct Hlookup as (x & Hx & Hxn & Hxd).
  eexists. exists s', x. split; [exact Hrun|]. auto.
Qed.
End RoundTrip.

(** ** The sample service at work *)

Ltac well_formed :=
  unfold wellFormed; cbn;
  repeat match goal with
    | |- _ /\ _ => split
    | |- NoDup _ => constructor
    | |- Forall _ _ => constructor
    | |- ~ In _ _ => cbn; intuition lia
    | |- _ ∉ _ => rewrite list_elem_of_In; cbn; intuition lia
    | |- incl _ _ => intros ? ?; cbn in *; intuition lia
    | |- (_ < _)%nat => lia
    end.

Lemma wellFormed_dbStored tag : wellFormed (Sample.dbStored tag).
Proof. well_formed. Qed.

Lemma wellFormed_twoFiles : wellFormed Fixture.twoFiles.
Proof. well_formed. Qed.

Lemma db_azureService : db Fixture.azureService = Sample.dbStored "azure".
Proof. vm_compute. reflexivity. Qed.

Lemma db_twoFilesService : db Fixture.twoFilesService = Fixture.twoFiles.
Proof. vm_compute. reflexivity. Qed.

Lemma store_integrity_witness :
  wellFormed (db (snd (deleteFile Adapters.Date_now Sample.Date_later (mkDeleteFileRequestDto 0 (Some true))
                         Fixture.azureService)))
  /\ wellFormed (db (snd (getFileUrl 0 (Some "azure") Fixture.azureService))).
Proof.
  destruct (store_integrity Adapters.Date_now Sample.Date_later Fixture.azureService)
    as (_ & _ & Hdel & Hurl).
  - rewrite db_azureService. apply wellFormed_dbStored.
  - vm_compute. reflexivity.
  - split; [apply Hdel|apply Hurl].
Defined.

Lemma deleteFile_failure_witness :
  exists s',
    deleteFile Adapters.Date_now Sample.Date_later (mkDeleteFileRequestDto 7 (Some true)) Fixture.azureService
    = (Throw fileNotFound, s')
    /\ db s' = db Fixture.azureService.
Proof.
  destruct (deleteFile Adapters.Date_now Sample.Date_later (mkDeleteFileRequestDto 7 (Some true))
              Fixture.azureService) as [o s'] eqn:Hrun.
  assert (Ho : o = Throw fileNotFound).
  { change o with (fst (o, s')). rewrite <- Hrun. vm_compute. reflexivity. }
  subst o. exists s'. split; [reflexivity|].
  exact (proj1 (deleteFile_failure Adapters.Date_now Sample.Date_later _ _ _ _ Hrun)).
Defined.

Lemma soft_delete_effect_witness :
  exists s',
    deleteFile Adapters.Date_now Sample.Date_later (mkDeleteFileRequestDto 0 None) Fixture.azureService
    = (Return (mkDeleteFileResponseDto 0 true (Some 1000000007)), s')
    /\ (file_deletedAt <$> Prisma.findFileById 0 (db s')) = Some (Some 1000000000)
    /\ length (files (db s')) = 1%nat.
Proof.
  destruct (soft_delete_effect Adapters.Date_now Sample.Date_later (mkDeleteFileRequestDto 0 None)
              Fixture.azureService Sample.storedFile (Sample.storedInfo "azure"))
    as (s' & Hrun & _ & Hfind & _ & Hlen & _).
  - reflexivity.
  - vm_compute. reflexivity.
  - exists s'. split; [exact Hrun|]. split.
    + cbn [del_storageFileId] in Hfind. apply file_findById_file in Hfind.
      destruct Hfind as [-> _]. reflexivity.
    + rewrite Hlen. vm_compute. reflexivity.
Defined.

Lemma getFileUrl_refresh_witness :
  exists u,
    (dto_storageUrl <$> returned (fst (getFileUrl 0 (Some "azure") Fixture.azureService)))
    = Some (Some u)
    /\ (Prisma.storageInfoOf 0 (db (snd (getFileUrl 0 (Some "azure") Fixture.azureService)))
        ≫= si_storageUrl) = Some u.
Proof.
  pose proof (getFileUrl_refresh 0%nat (Some "azure") Fixture.azureService
                Sample.storedFile (Sample.storedInfo "azure") Fixture.azureAdapter) as Hthm.
  cbv zeta in Hthm.
  destruct (getPublicUrl Fixture.azureAdapter
              (si_storageFileId (Sample.storedInfo "azure")) None
              (world Fixture.azureService)) as [o w1] eqn:Hurl.
  assert (Ho : exists u, o = Return u).
  { change o with (fst (o, w1)). rewrite <- Hurl. vm_compute. eauto. }
  destruct Ho as [u ->]. exists u.
  destruct Hthm as (Hout & _ & _ & Hfind & _).
  - rewrite db_azureService. apply wellFormed_dbStored.
  - vm_compute. reflexivity.
  - vm_compute. reflexivity.
  - reflexivity.
  - rewrite Hout. split; [reflexivity|].
    apply file_findById_file in Hfind. destruct Hfind as [_ Hsi]. now rewrite <- Hsi.
Defined.

Lemma getFileUrl_again_witness :
  exists x s1 s2,
    getFileUrl 0 (Some "azure") Fixture.azureService = (Return x, s1)
    /\ getFileUrl 0 (Some "azure") s1 = (Return x, s2)
    /\ world s2 = world s1.
Proof.
  destruct (getFileUrl 0 (Some "azure") Fixture.azureService) as [o s1] eqn:Hrun.
  assert (Ho : exists x, o = Return x).
  { change o with (fst (o, s1)). rewrite <- Hrun. vm_compute. eauto. }
  destruct Ho as [x ->].
  destruct (getFileUrl_again Sample.sdkUp Sample.env
              (Adapters.mkAdapterObject Adapters.AzureBlobStorageAdapter 0)
              0%nat (Some "azure") Fixture.azureService
              Sample.storedFile (Sample.storedInfo "azure") x s1)
    as (s2 & Hagain & Hw & _).
  - rewrite db_azureService. apply wellFormed_dbStored.
  - vm_compute. reflexivity.
  - vm_compute. reflexivity.
  - reflexivity.
  - exact Hrun.
  - exists x, s1, s2. auto.
Defined.

Lemma listFiles_page_witness :
  exists r,
    listFiles Fixture.firstPage Fixture.twoFilesService = (Return r, Fixture.twoFilesService)
    /\ lresp_totalCount r = 2 /\ lresp_totalPages r = 1 /\ length (lresp_files r) = 2%nat.
Proof.
  destruct (listFiles_page Fixture.firstPage Fixture.twoFilesService 1 10)
    as (r & Hrun & Hfiles & Hcount & _ & Hlen & Hpages0 & Hpages & _);
    try reflexivity; try lia.
  exists r. split; [exact Hrun|].
  assert (Htotal : lresp_totalCount r = 2) by (rewrite Hcount; vm_compute; reflexivity).
  rewrite Htotal in *. split; [reflexivity|]. split; lia.
Defined.

Lemma listFiles_newest_first_witness :
  exists r s' x y,
    listFiles Fixture.firstPage Fixture.twoFilesService = (Return r, s')
    /\ lresp_files r !! 0%nat = Some x /\ lresp_files r !! 1%nat = Some y
    /\ dto_createdAt y <= dto_createdAt x.
Proof.
  destruct (listFiles Fixture.firstPage Fixture.twoFilesService) as [o s'] eqn:Hrun.
  assert (Ho : exists r x y, o = Return r /\ lresp_files r !! 0%nat = Some x
                             /\ lresp_files r !! 1%nat = Some y).
  { change o with (fst (o, s')). rewrite <- Hrun. vm_compute. eauto 10. }
  destruct Ho as (r & x & y & -> & Hx & Hy).
  exists r, s', x, y. split; [reflexivity|]. split; [exact Hx|]. split; [exact Hy|].
  eapply (listFiles_newest_first _ _ _ _ 0%nat 1%nat); [exact Hrun|lia|exact Hx|exact Hy].
Defined.

Lemma paging_partition_witness :
  pageOf Fixture.singles Fixture.twoFilesService 1
  ++ pageOf Fixture.singles Fixture.twoFilesService 2
  = listing Fixture.singles (db Fixture.twoFilesService).
Proof.
  destruct (paging_partition Fixture.singles Fixture.twoFilesService 1 eq_refl
              ltac:(lia)) as [Hthm _].
  - rewrite db_twoFilesService. vm_compute.
    repeat (constructor; [rewrite list_elem_of_In; cbn; intuition lia|]). constructor.
  - assert (Hn : Z.to_nat (ceilDiv (Z.of_nat (length (listing Fixture.singles
                                                       (db Fixture.twoFilesService)))) 1)
                 = 2%nat) by (vm_compute; reflexivity).
    rewrite Hn in Hthm. cbn [seq map concat] in Hthm. rewrite app_nil_r in Hthm. exact Hthm.
Defined.

Lemma getFileByUrl_sound_witness :
  exists x f,
    fst (getFileByUrl "2024/3/seoul/a.jpg" Fixture.azureService) = Return x
    /\ In f (files (db Fixture.azureService))
    /\ file_deletedAt f = None
    /\ dto_fileName x = file_name f.
Proof.
  destruct (fst (getFileByUrl "2024/3/seoul/a.jpg" Fixture.azureService))
    as [x|e] eqn:Hrun; [|vm_compute in Hrun; discriminate].
  destruct (getFileByUrl_sound _ _ _ Hrun)
    as (year & month & branchName & filename & branch & f & y & m & _ & _ & _ & _ & _ & _
        & Hin & -> & _ & _ & _ & _ & Hvis).
  exists (mapToFileInfoDto f (Prisma.storageInfoOf (file_id f) (db Fixture.azureService))), f.
  auto.
Defined.

Lemma getFileByUrl_finds_witness :
  exists x,
    getFileByUrl "2024/3/seoul/a.jpg" Fixture.azureService = (Return x, Fixture.azureService)
    /\ dto_fileName x = "2024_3_seoul_a.jpg".
Proof.
  destruct (getFileByUrl_finds Fixture.azureService "2024" "3" "seoul" "a.jpg"
              (mkBranch "branch1" "seoul") Sample.storedFile 2024 3)
    as (x & Hrun & Hname & _); try reflexivity; try lia.
  - vm_compute. auto.
  - exists x. split; [exact Hrun|exact Hname].
Defined.

Lemma upload_then_lookup_witness :
  exists resp s' x,
    uploadFile (PS := Sample.laxSchema) Adapters.Date_now Sample.request Sample.photo
      Fixture.googleService = (Return resp, s')
    /\ getFileByUrl "2024/3/seoul/a.jpg" s' = (Return x, s')
    /\ dto_fileName x = "2024_3_seoul_a.jpg".
Proof.
  destruct (upload Fixture.googleAdapter Sample.photo
              (Some (originalname Sample.photo)) (world Fixture.googleService))
    as [o w1] eqn:Hup.
  assert (Ho : exists r, o = Return r).
  { change o with (fst (o, w1)). rewrite <- Hup. vm_compute. eauto. }
  destruct Ho as [r ->].
  destruct (upload_then_lookup (PS := Sample.laxSchema) Adapters.Date_now
              Sample.request Sample.photo Fixture.googleService Fixture.googleAdapter
              r w1 "2024" "3" "a.jpg" (mkBranch "branch1" "seoul") 2024 3)
    as (resp & s' & x & Hrun & Hfind & Hname & _);
    try reflexivity; try lia; try exact Hup.
  - apply wellFormed_empty.
  - exists resp, s', x. auto.
Defined.
